(** * CORD-19 metadata analysis: cleaning, aggregation and export

    A shallow embedding of [cord19_analysis.py] (the batch report) and
    [streamlit_app.py] (the dashboard).  The tabular library is modelled by
    the operations the two programs call on it: a frame is a list of column
    names and a list of rows, each row a finite map from column name to cell;
    frames live in a store and are named by references, because the programs
    copy a frame, fill one in place and rebind names to new frames. *)

From Stdlib Require Import ZArith Ascii String List Bool Lia.
From stdpp Require Import base option list gmap strings pretty sorting.

Local Open Scope Z_scope.

(** ** Python text

    A [str] is a sequence of code points.  The model keeps the code points
    below 256, one [ascii] each, with the classification Python gives them. *)

Definition code (c : ascii) : N := N_of_ascii c.

Definition between (lo hi n : N) : bool := ((lo <=? n) && (n <=? hi))%N.

(** [str.isspace] on one code point: the white space [str.split] skips. *)
Definition isspace (c : ascii) : bool :=
  between 9 13 (code c) || between 28 32 (code c)
  || (code c =? 133)%N || (code c =? 160)%N.

(** [str.isalpha] on one code point: the letters below 256. *)
Definition isalpha_char (c : ascii) : bool :=
  between 65 90 (code c) || between 97 122 (code c)
  || (code c =? 170)%N || (code c =? 181)%N || (code c =? 186)%N
  || between 192 214 (code c) || between 216 246 (code c)
  || between 248 255 (code c).

(** [str.lower] on one code point: the upper-case letters below 256 lie 32
    under their lower-case forms. *)
Definition lower_char (c : ascii) : ascii :=
  if between 65 90 (code c) || between 192 214 (code c) || between 216 222 (code c)
  then ascii_of_N (code c + 32) else c.

Fixpoint py_lower (s : string) : string :=
  match s with
  | EmptyString => EmptyString
  | String c s' => String (lower_char c) (py_lower s')
  end.

Fixpoint all_chars (p : ascii → bool) (s : string) : bool :=
  match s with
  | EmptyString => true
  | String c s' => p c && all_chars p s'
  end.

(** [word.isalpha()]: at least one character, all of them letters. *)
Definition py_isalpha (s : string) : bool :=
  match s with
  | EmptyString => false
  | _ => all_chars isalpha_char s
  end.

Definition py_len (s : string) : Z := Z.of_nat (String.length s).

(** [sep.join(parts)] *)
Fixpoint py_join (sep : string) (parts : list string) : string :=
  match parts with
  | [] => EmptyString
  | [p] => p
  | p :: ps => p +:+ sep +:+ py_join sep ps
  end.

Definition push_word (w : string) (ws : list string) : list string :=
  match w with
  | EmptyString => ws
  | _ => w :: ws
  end.

(** [s.split()] with no separator: the maximal runs of characters that are
    not white space.  [split_scan s] is the run that starts [s] (empty when
    [s] starts with white space or is empty) and the runs after it. *)
Fixpoint split_scan (s : string) : string * list string :=
  match s with
  | EmptyString => (EmptyString, [])
  | String c s' =>
      let '(w, ws) := split_scan s' in
      if isspace c then (EmptyString, push_word w ws) else (String c w, ws)
  end.

Definition py_split (s : string) : list string :=
  let '(w, ws) := split_scan s in push_word w ws.

(** ** Cells, rows and frames *)

(** A parsed date.  The programs read nothing but the year of a date; the
    time of day is not kept. *)
Record Timestamp := { ts_year : Z; ts_month : Z; ts_day : Z }.

(** A cell.  [VNa] is the missing value (NaN, None, NaT).  [VFlt n] is a
    float cell that holds the whole number [n]: a column of whole numbers
    with a missing entry is a float column.  Floats with a fractional part
    are never built by the programs and are not part of the model. *)
Inductive value :=
  | VNa
  | VStr (s : string)
  | VInt (n : Z)
  | VFlt (n : Z)
  | VDate (t : Timestamp).

Global Instance Timestamp_eq_dec : EqDecision Timestamp.
Proof. solve_decision. Defined.

Global Instance value_eq_dec : EqDecision value.
Proof. solve_decision. Defined.

(** [pd.isna] / [pd.notna] on one cell *)
Definition isna (v : value) : bool :=
  match v with VNa => true | _ => false end.

Definition notna (v : value) : bool := negb (isna v).

Definition pad2 (n : Z) : string :=
  if n <? 10 then "0" +:+ pretty n else pretty n.

(** [str(x)] of a cell *)
Definition py_str (v : value) : string :=
  match v with
  | VNa => "nan"
  | VStr s => s
  | VInt n => pretty n
  | VFlt n => pretty n +:+ ".0"
  | VDate t =>
      pretty (ts_year t) +:+ "-" +:+ pad2 (ts_month t) +:+ "-" +:+ pad2 (ts_day t)
      +:+ " 00:00:00"
  end.

Abbreviation row := (gmap string value).
Abbreviation Series := (list value).

Record DataFrame := { columns : list string; rows : list row }.

(** The cell of a row in a column; a row that does not hold the column reads
    as missing. *)
Definition cell (c : string) (r : row) : value := default VNa (r !! c).

Definition has_column (c : string) (df : DataFrame) : bool :=
  bool_decide (c ∈ columns df).

(** [len(df)] *)
Definition frame_len (df : DataFrame) : nat := length (rows df).

(** ** Exceptions and the store *)

Inductive exn :=
  | KeyError (k : string)
  | ValueError (msg : string)
  | TypeError (msg : string)
  | AttributeError (msg : string)
  | FileNotFoundError
  | EmptyDataError
  | ParserError.

Inductive result (A : Type) :=
  | Ok (a : A)
  | Raise (e : exn).
Arguments Ok {A} a.
Arguments Raise {A} e.

(** A reference names a frame object: its position in the store. *)
Abbreviation ref := nat.
Abbreviation store := (list DataFrame).

(** A statement of the program: from a store to a value and the store it
    leaves, or to an exception. *)
Definition M (A : Type) : Type := store → result (A * store).

Global Instance M_ret : MRet M := λ A a σ, Ok (a, σ).
Global Instance M_bind : MBind M := λ A B f m σ,
  match m σ with
  | Ok (a, σ') => f a σ'
  | Raise e => Raise e
  end.

Definition raise {A} (e : exn) : M A := λ _, Raise e.

Definition lift {A} (r : result A) : M A := λ σ,
  match r with
  | Ok a => Ok (a, σ)
  | Raise e => Raise e
  end.

(** Reading the object behind a reference. *)
Definition deref (r : ref) : M DataFrame := λ σ,
  match σ !! r with
  | Some df => Ok (df, σ)
  | None => Raise (ValueError "dangling reference")
  end.

(** Building a new object. *)
Definition alloc (df : DataFrame) : M ref := λ σ, Ok (length σ, σ ++ [df]).

(** Changing an object in place. *)
Definition update (r : ref) (f : DataFrame → DataFrame) : M unit := λ σ,
  match σ !! r with
  | Some df => Ok (tt, <[r := f df]> σ)
  | None => Raise (ValueError "dangling reference")
  end.

(** The empty statement: an [if] with no [else]. *)
Definition skip : M unit := mret tt.

(** ** Frame operations *)

(** [df.copy()]: a new object with the same columns and cells. *)
Definition copy (r : ref) : M ref :=
  df ← deref r; alloc df.

(** [c in df.columns] *)
Definition in_columns (c : string) (r : ref) : M bool :=
  df ← deref r; mret (has_column c df).

(** [df[c]]: the cells of a column, top to bottom. *)
Definition column_of (c : string) (df : DataFrame) : result Series :=
  if has_column c df then Ok (cell c <$> rows df) else Raise (KeyError c).

Definition getitem (r : ref) (c : string) : M Series :=
  df ← deref r; lift (column_of c df).

Definition fill_cell (c : string) (v : value) (r : row) : row :=
  if isna (cell c r) then <[c := v]> r else r.

Definition fillna (c : string) (v : value) (df : DataFrame) : DataFrame :=
  {| columns := columns df; rows := fill_cell c v <$> rows df |}.

(** [df[c].fillna(v, inplace=True)]: the column is filled in the frame
    object itself.  The programs are written for this behaviour of the
    tabular library (with its copy-on-write mode the fill would land in a
    temporary column and the frame would stay as it was). *)
Definition fillna_inplace (r : ref) (c : string) (v : value) : M unit :=
  df ← deref r;
  if has_column c df then update r (fillna c v) else raise (KeyError c).

(** [s.notna()] *)
Definition series_notna (s : Series) : list bool := notna <$> s.

(** The rows of a frame kept by a boolean mask. *)
Fixpoint mask_rows {A} (mask : list bool) (l : list A) : list A :=
  match mask, l with
  | b :: mask', x :: l' => if b then x :: mask_rows mask' l' else mask_rows mask' l'
  | _, _ => []
  end.

Definition select_rows (mask : list bool) (df : DataFrame) : result DataFrame :=
  if bool_decide (length mask = length (rows df))
  then Ok {| columns := columns df; rows := mask_rows mask (rows df) |}
  else Raise (ValueError "Item wrong length").

(** [df[mask]]: a new frame object with the rows where the mask holds. *)
Definition getitem_mask (r : ref) (mask : list bool) : M ref :=
  df ← deref r;
  selected ← lift (select_rows mask df);
  alloc selected.

Definition set_cell (c : string) (r : row) (v : value) : row := <[c := v]> r.

Definition add_column (c : string) (cols : list string) : list string :=
  if bool_decide (c ∈ cols) then cols else cols ++ [c].

Definition set_column (c : string) (s : Series) (df : DataFrame) : DataFrame :=
  {| columns := add_column c (columns df);
     rows := zip_with (set_cell c) (rows df) s |}.

(** [df[c] = s]: the column is replaced, or added after the last one. *)
Definition setitem (r : ref) (c : string) (s : Series) : M unit :=
  df ← deref r;
  if bool_decide (length s = length (rows df))
  then update r (set_column c s)
  else raise (ValueError "Length of values does not match length of index").

(** ** The Cleaner/Deriver

    [prepare_data] of the dashboard; the batch report runs the same
    statements in the same order on its own frame (its part 2). *)

(** [len(str(x).split()) if pd.notna(x) else 0] *)
Definition word_count (x : value) : value :=
  if notna x then VInt (Z.of_nat (length (py_split (py_str x)))) else VInt 0.

Definition is_datelike (v : value) : bool :=
  match v with VNa | VDate _ => true | _ => false end.

Definition year_int (v : value) : value :=
  match v with VDate t => VInt (ts_year t) | _ => VNa end.

Definition year_float (v : value) : value :=
  match v with VDate t => VFlt (ts_year t) | _ => VNa end.

(** [s.dt.year]: whole numbers, and floats as soon as one date is missing;
    the accessor exists on date columns only. *)
Definition dt_year (s : Series) : result Series :=
  if forallb is_datelike s
  then Ok (if existsb isna s then year_float <$> s else year_int <$> s)
  else Raise (AttributeError "Can only use .dt accessor with datetimelike values").

Section Cleaner.

(** The date parser of the tabular library, run with [errors='coerce']:
    it maps a column to one parsed date per entry, or to none where the
    entry does not parse.  What parses is the library's business (it may
    depend on the other entries of the column).  The library can also
    refuse a column, or give back a column that is not a date column:
    [prepare_data_with] below takes the conversion with these outcomes. *)
Variable to_datetime : Series → list (option Timestamp).

(** A missing entry stays missing, a parsed one becomes a date, one that
    does not parse becomes missing. *)
Definition date_cell (v : value) (o : option Timestamp) : value :=
  if isna v then VNa else from_option VDate VNa o.

Definition to_datetime_coerce (s : Series) : Series :=
  zip_with date_cell s (to_datetime s).

Definition prepare_data (df : ref) : M ref :=
  df_cleaned ← copy df;
  b ← in_columns "abstract" df_cleaned;
  _ ← (if b : bool then fillna_inplace df_cleaned "abstract" (VStr "") else skip);
  b ← in_columns "authors" df_cleaned;
  _ ← (if b : bool then fillna_inplace df_cleaned "authors" (VStr "Unknown") else skip);
  b ← in_columns "journal" df_cleaned;
  _ ← (if b : bool then fillna_inplace df_cleaned "journal" (VStr "Unknown") else skip);
  b ← in_columns "title" df_cleaned;
  df_cleaned ← (if b : bool
                then title ← getitem df_cleaned "title";
                     getitem_mask df_cleaned (series_notna title)
                else mret df_cleaned);
  b ← in_columns "publish_time" df_cleaned;
  _ ← (if b : bool
       then s ← getitem df_cleaned "publish_time";
            _ ← setitem df_cleaned "publish_time" (to_datetime_coerce s);
            s ← getitem df_cleaned "publish_time";
            years ← lift (dt_year s);
            setitem df_cleaned "publication_year" years
       else skip);
  b ← in_columns "abstract" df_cleaned;
  _ ← (if b : bool
       then s ← getitem df_cleaned "abstract";
            setitem df_cleaned "abstract_word_count" (word_count <$> s)
       else skip);
  b ← in_columns "title" df_cleaned;
  _ ← (if b : bool
       then s ← getitem df_cleaned "title";
            setitem df_cleaned "title_word_count" (word_count <$> s)
       else skip);
  mret df_cleaned.

(** The cleaned table of a raw table: [prepare_data] run on a store that
    holds the raw table and nothing else. *)
Definition cleaned_table (raw : DataFrame) : result DataFrame :=
  match prepare_data 0%nat [raw] with
  | Ok (r, σ) =>
      match σ !! r with
      | Some df => Ok df
      | None => Raise (ValueError "dangling reference")
      end
  | Raise e => Raise e
  end.

(** *** The same steps, read row by row

    What each step of [prepare_data] does to a frame, as a function on
    frames.  The lemmas below show that running [prepare_data] builds the
    frame [cleaned raw]. *)

Definition fill_with (v x : value) : value := if isna x then v else x.

Definition fill_if (c : string) (v : value) (df : DataFrame) : DataFrame :=
  if has_column c df then fillna c v df else df.

Definition filled (df : DataFrame) : DataFrame :=
  fill_if "journal" (VStr "Unknown")
    (fill_if "authors" (VStr "Unknown") (fill_if "abstract" (VStr "") df)).

Definition has_title (r : row) : bool := notna (cell "title" r).

Definition titled (df : DataFrame) : DataFrame :=
  if has_column "title" df
  then {| columns := columns df; rows := List.filter has_title (rows df) |}
  else df.

Definition years_of (dates : Series) : Series :=
  if existsb isna dates then year_float <$> dates else year_int <$> dates.

Definition dated (df : DataFrame) : DataFrame :=
  if has_column "publish_time" df
  then
    let dates := to_datetime_coerce (cell "publish_time" <$> rows df) in
    set_column "publication_year" (years_of dates)
      (set_column "publish_time" dates df)
  else df.

Definition count_row (c c' : string) (r : row) : row :=
  set_cell c' r (word_count (cell c r)).

Definition counted (c c' : string) (df : DataFrame) : DataFrame :=
  if has_column c df
  then {| columns := add_column c' (columns df); rows := count_row c c' <$> rows df |}
  else df.

Definition cleaned (raw : DataFrame) : DataFrame :=
  counted "title" "title_word_count"
    (counted "abstract" "abstract_word_count" (dated (titled (filled raw)))).

End Cleaner.

(** The cells of a column, whether or not the frame lists the column. *)
Definition col (c : string) (df : DataFrame) : Series := cell c <$> rows df.

(** The rows of the raw table that cleaning keeps: those with a title, when
    there is a title column. *)
Definition kept_rows (raw : DataFrame) : list row :=
  if has_column "title" raw then List.filter has_title (rows raw) else rows raw.

(** *** The date conversion as the library runs it

    [pd.to_datetime(s, errors='coerce')] turns an entry that does not parse
    into a missing date, but it does not always give a date column.  When
    the dates that parse do not share one UTC offset, the library gives an
    object column before its version 3 and raises ValueError from version 3
    on.  [prepare_data_with] is [prepare_data] with the conversion taken as
    the library runs it: it may raise, and it may give an object column, on
    which the [.dt] accessor of the next line raises AttributeError. *)

Inductive converted :=
  | Dates (ds : list (option Timestamp))
  | Objects (o : Series).

(** The column that is stored: a date or a missing date per entry, or the
    object column as it is. *)
Definition converted_column (s : Series) (c : converted) : Series :=
  match c with
  | Dates ds => zip_with date_cell s ds
  | Objects o => o
  end.

(** [s.dt.year] on the column just stored: the accessor exists on a date
    column only. *)
Definition dt_year_of (c : converted) (s : Series) : result Series :=
  match c with
  | Dates _ => dt_year s
  | Objects _ =>
      Raise (AttributeError "Can only use .dt accessor with datetimelike values")
  end.

Section Conversion.

Variable to_datetime_lib : Series → result converted.

Definition prepare_data_with (df : ref) : M ref :=
  df_cleaned ← copy df;
  b ← in_columns "abstract" df_cleaned;
  _ ← (if b : bool then fillna_inplace df_cleaned "abstract" (VStr "") else skip);
  b ← in_columns "authors" df_cleaned;
  _ ← (if b : bool then fillna_inplace df_cleaned "authors" (VStr "Unknown") else skip);
  b ← in_columns "journal" df_cleaned;
  _ ← (if b : bool then fillna_inplace df_cleaned "journal" (VStr "Unknown") else skip);
  b ← in_columns "title" df_cleaned;
  df_cleaned ← (if b : bool
                then title ← getitem df_cleaned "title";
                     getitem_mask df_cleaned (series_notna title)
                else mret df_cleaned);
  b ← in_columns "publish_time" df_cleaned;
  _ ← (if b : bool
       then s ← getitem df_cleaned "publish_time";
            dates ← lift (to_datetime_lib s);
            _ ← setitem df_cleaned "publish_time" (converted_column s dates);
            s ← getitem df_cleaned "publish_time";
            years ← lift (dt_year_of dates s);
            setitem df_cleaned "publication_year" years
       else skip);
  b ← in_columns "abstract" df_cleaned;
  _ ← (if b : bool
       then s ← getitem df_cleaned "abstract";
            setitem df_cleaned "abstract_word_count" (word_count <$> s)
       else skip);
  b ← in_columns "title" df_cleaned;
  _ ← (if b : bool
       then s ← getitem df_cleaned "title";
            setitem df_cleaned "title_word_count" (word_count <$> s)
       else skip);
  mret df_cleaned.

Definition cleaned_table_with (raw : DataFrame) : result DataFrame :=
  match prepare_data_with 0%nat [raw] with
  | Ok (r, σ) =>
      match σ !! r with
      | Some df => Ok df
      | None => Raise (ValueError "dangling reference")
      end
  | Raise e => Raise e
  end.

End Conversion.

(** ** The Aggregator *)

Global Instance result_ret : MRet result := λ A a, Ok a.
Global Instance result_bind : MBind result := λ A B f m,
  match m with
  | Ok a => f a
  | Raise e => Raise e
  end.

Global Instance result_fmap : FMap result := λ A B f m,
  match m with
  | Ok a => Ok (f a)
  | Raise e => Raise e
  end.

Section Counting.
Context {K : Type} `{EqDecision K}.

(** [c[k] = c.get(k, 0) + 1] on a dictionary that keeps its keys in the
    order they were first inserted. *)
Fixpoint bump (k : K) (c : list (K * nat)) : list (K * nat) :=
  match c with
  | [] => [(k, 1%nat)]
  | (k', n) :: c' =>
      if decide (k = k') then (k', S n) :: c' else (k', n) :: bump k c'
  end.

(** [Counter(words)] *)
Definition Counter (l : list K) : list (K * nat) :=
  foldl (λ c k, bump k c) [] l.

(** One step of a stable sort by count, largest first: [x] stood before
    every entry of [l] and goes in front of the first entry whose count is
    not larger than its own. *)
Fixpoint insert_desc (x : K * nat) (l : list (K * nat)) : list (K * nat) :=
  match l with
  | [] => [x]
  | y :: l' => if (y.2 <=? x.2)%nat then x :: l else y :: insert_desc x l'
  end.

(** [sorted(items, key=count, reverse=True)]: entries with equal counts
    keep the order they had. *)
Definition sort_desc (l : list (K * nat)) : list (K * nat) :=
  foldr insert_desc [] l.

(** [c.most_common(n)]: the [n] largest counts, which the standard library
    defines as the first [n] entries of the sort above. *)
Definition most_common (n : nat) (c : list (K * nat)) : list (K * nat) :=
  take n (sort_desc c).
End Counting.

(** [s.value_counts()]: the missing entries are dropped, the rest counted,
    largest count first.  The library fixes no order among equal counts; the
    model keeps them in first-seen order. *)
Definition value_counts (s : Series) : list (value * nat) :=
  sort_desc (Counter (List.filter notna s)).

Definition key_num (v : value) : option Z :=
  match v with VInt n | VFlt n => Some n | _ => None end.

Definition key_str (v : value) : option string :=
  match v with VStr s => Some s | _ => None end.

Definition is_num (v : value) : bool := bool_decide (is_Some (key_num v)).
Definition is_str (v : value) : bool := bool_decide (is_Some (key_str v)).

(** The order of the index labels: numbers by size, text by code points. *)
Definition num_le (x y : value * nat) : Prop :=
  default 0 (key_num x.1) ≤ default 0 (key_num y.1).

Definition str_le (x y : value * nat) : Prop :=
  (default "" (key_str x.1) ≤ default "" (key_str y.1))%string.

Global Instance num_le_dec : RelDecision num_le.
Proof. intros x y. unfold num_le. apply _. Defined.

Global Instance str_le_dec : RelDecision str_le.
Proof. intros x y. unfold str_le. apply _. Defined.

(** [counts.sort_index()]: ascending by label; labels of different kinds do
    not compare. *)
Definition sort_index (l : list (value * nat)) : result (list (value * nat)) :=
  if forallb (λ p, is_num p.1) l then Ok (merge_sort num_le l)
  else if forallb (λ p, is_str p.1) l then Ok (merge_sort str_le l)
  else Raise (TypeError "'<' not supported between these instances").

(** [df['publication_year'].value_counts().sort_index()] *)
Definition papers_by_year (df : DataFrame) : result (list (value * nat)) :=
  years ← column_of "publication_year" df;
  sort_index (value_counts years).

(** [df['journal'].value_counts().head(n)] *)
Definition top_journals (n : nat) (df : DataFrame) : result (list (value * nat)) :=
  journal ← column_of "journal" df;
  mret (take n (value_counts journal)).

Definition stop_words : gset string :=
  list_to_set
    ["the"; "a"; "an"; "and"; "or"; "but"; "in"; "on"; "at"; "to"; "for";
     "of"; "with"; "by"; "from"; "as"; "is"; "was"; "are"; "be"; "been";
     "covid"; "19"; "coronavirus"; "sars"; "cov"; "covid-19"; "novel";
     "new"; "study"; "research"; "analysis"; "case"; "effect"; "related"].

(** [word.isalpha() and len(word) > 3 and word not in stop_words] *)
Definition keep_word (word : string) : bool :=
  py_isalpha word && (3 <? py_len word) && negb (bool_decide (word ∈ stop_words)).

(** [' '.join(df['title'].astype(str)).lower()] *)
Definition all_titles (title : Series) : string :=
  py_lower (py_join " " (py_str <$> title)).

Definition title_words (title : Series) : list string :=
  List.filter keep_word (py_split (all_titles title)).

(** [Counter(words).most_common(n)] over the titles of a frame *)
Definition top_words (n : nat) (df : DataFrame) : result (list (string * nat)) :=
  title ← column_of "title" df;
  mret (most_common n (Counter (title_words title))).

(** ** The dashboard

    After cleaning, the dashboard changes no frame in place: every filter
    builds a new frame and rebinds [df_filtered].  This part is written
    over frames, with the exceptions it can raise. *)

Definition date_lt (x y : Timestamp) : bool :=
  (ts_year x <? ts_year y)
  || ((ts_year x =? ts_year y)
      && ((ts_month x <? ts_month y)
          || ((ts_month x =? ts_month y) && (ts_day x <? ts_day y)))).

(** [a < b] between two cells that are not missing *)
Definition value_lt (a b : value) : result bool :=
  match a, b with
  | (VInt x | VFlt x), (VInt y | VFlt y) => Ok (x <? y)
  | VStr x, VStr y => Ok (String.ltb x y)
  | VDate x, VDate y => Ok (date_lt x y)
  | _, _ => Raise (TypeError "'<' not supported between these instances")
  end.

Fixpoint least (best : value) (xs : Series) : result value :=
  match xs with
  | [] => Ok best
  | x :: xs' => b ← value_lt x best; least (if b : bool then x else best) xs'
  end.

Fixpoint greatest (best : value) (xs : Series) : result value :=
  match xs with
  | [] => Ok best
  | x :: xs' => b ← value_lt best x; greatest (if b : bool then x else best) xs'
  end.

(** [s.min()] and [s.max()]: missing entries are skipped, and the result is
    missing (NaN) when nothing is left. *)
Definition series_min (s : Series) : result value :=
  match List.filter notna s with
  | [] => Ok VNa
  | x :: xs => least x xs
  end.

Definition series_max (s : Series) : result value :=
  match List.filter notna s with
  | [] => Ok VNa
  | x :: xs => greatest x xs
  end.

Definition digit (c : ascii) : option Z :=
  if between 48 57 (code c) then Some (Z.of_N (code c) - 48) else None.

Fixpoint digits (acc : Z) (s : string) : option Z :=
  match s with
  | EmptyString => Some acc
  | String c s' => d ← digit c; digits (10 * acc + d) s'
  end.

(** A run of one or more decimal digits. *)
Definition parse_nat (s : string) : option Z :=
  match s with
  | EmptyString => None
  | _ => digits 0 s
  end.

Definition parse_signed (s : string) : option Z :=
  match s with
  | String "-" s' => Z.opp <$> parse_nat s'
  | String "+" s' => parse_nat s'
  | _ => parse_nat s
  end.

(** [int(x)]: a float that is NaN does not convert; text converts when it
    is a decimal literal, white space around it allowed (digit grouping
    with underscores is not modelled). *)
Definition py_int (x : value) : result Z :=
  match x with
  | VInt n | VFlt n => Ok n
  | VNa => Raise (ValueError "cannot convert float NaN to integer")
  | VStr s =>
      match py_split s with
      | [w] => from_option Ok (Raise (ValueError "invalid literal for int()")) (parse_signed w)
      | _ => Raise (ValueError "invalid literal for int()")
      end
  | VDate _ => Raise (TypeError "int() argument must be a string or a real number")
  end.

(** [x >= n] and [x <= n] on one entry of a column compared with a number:
    false on a missing entry. *)
Definition ge_cell (n : Z) (x : value) : result bool :=
  match x with
  | VNa => Ok false
  | VInt m | VFlt m => Ok (n <=? m)
  | _ => Raise (TypeError "'>=' not supported between these instances")
  end.

Definition le_cell (n : Z) (x : value) : result bool :=
  match x with
  | VNa => Ok false
  | VInt m | VFlt m => Ok (m <=? n)
  | _ => Raise (TypeError "'<=' not supported between these instances")
  end.

Fixpoint series_test (test : value → result bool) (s : Series) : result (list bool) :=
  match s with
  | [] => Ok []
  | x :: s' => b ← test x; bs ← series_test test s'; mret (b :: bs)
  end.

(** [df[(df['publication_year'] >= lo) & (df['publication_year'] <= hi)]] *)
Definition year_filter (year_range : Z * Z) (df : DataFrame) : result DataFrame :=
  years ← column_of "publication_year" df;
  lower ← series_test (ge_cell year_range.1) years;
  years ← column_of "publication_year" df;
  upper ← series_test (le_cell year_range.2) years;
  select_rows (zip_with andb lower upper) df.

(** [df[df['journal'].isin(selected)]] *)
Definition journal_filter (selected : list value) (df : DataFrame) : result DataFrame :=
  journal ← column_of "journal" df;
  select_rows ((λ x, bool_decide (x ∈ selected)) <$> journal) df.

(** [s.nunique()]: the distinct entries that are not missing *)
Definition nunique (s : Series) : nat := length (Counter (List.filter notna s)).

(** [s.mean()] as the sum and the number of the entries that are not
    missing; NaN (no value) when there is none. *)
Fixpoint series_sum (s : Series) : result Z :=
  match s with
  | [] => Ok 0
  | x :: s' =>
      n ← from_option Ok (Raise (TypeError "Could not convert to numeric")) (key_num x);
      total ← series_sum s'; mret (n + total)
  end.

Definition series_mean (s : Series) : result (option (Z * nat)) :=
  match List.filter notna s with
  | [] => Ok None
  | xs => total ← series_sum xs; mret (Some (total, length xs))
  end.

(** [words_list, counts_list = zip( *top_words )]: unpacking into two names
    needs the two tuples that [zip] yields for one pair or more. *)
Definition unzip_pairs {A B} (pairs : list (A * B)) : result (list A * list B) :=
  match pairs with
  | [] => Raise (ValueError "not enough values to unpack (expected 2, got 0)")
  | _ => Ok (pairs.*1, pairs.*2)
  end.

(** An [if c in df.columns:] block whose value is shown only when the
    column is there. *)
Definition if_column {A} (c : string) (df : DataFrame) (body : result A) : result (option A) :=
  if has_column c df then a ← body; mret (Some a) else mret None.

(** What the user has set in the sidebar and on the tabs. *)
Record Controls := {
  year_range : Z * Z;
  selected_journals : list value;
  num_journals : nat;
  num_words : nat
}.

(** What one run of the script shows. *)
Record Report := {
  df_filtered : DataFrame;
  slider_bounds : option (Z * Z);
  avg_abstract_words : option (option (Z * nat));
  year_range_metric : option (Z * Z);
  unique_journals : option nat;
  unique_authors : option nat;
  by_year : option (list (value * nat));
  journal_table : option (list (value * nat));
  word_chart : option (list string * list nat)
}.

(** The year control of the sidebar and the frame it leaves.  The slider is
    a widget of the dashboard library and is not run here: [year_range ui]
    stands for the range that it returned, and nothing is said of a slider
    that refuses its bounds. *)
Definition sidebar_years (ui : Controls) (df_cleaned : DataFrame)
    : result (option (Z * Z) * DataFrame) :=
  if has_column "publication_year" df_cleaned
  then
    years ← column_of "publication_year" df_cleaned;
    lowest ← series_min years;
    min_year ← py_int lowest;
    years ← column_of "publication_year" df_cleaned;
    highest ← series_max years;
    max_year ← py_int highest;
    filtered ← year_filter (year_range ui) df_cleaned;
    mret (Some (min_year, max_year), filtered)
  else mret (None, df_cleaned).

Definition sidebar_journals (ui : Controls) (filtered : DataFrame) : result DataFrame :=
  if has_column "journal" filtered
  then match selected_journals ui with
       | [] => mret filtered
       | selected => journal_filter selected filtered
       end
  else mret filtered.

Definition year_metric (filtered : DataFrame) : result (Z * Z) :=
  years ← column_of "publication_year" filtered;
  lowest ← series_min years;
  first_year ← py_int lowest;
  years ← column_of "publication_year" filtered;
  highest ← series_max years;
  last_year ← py_int highest;
  mret (first_year, last_year).

Definition word_analysis (n : nat) (filtered : DataFrame) : result (list string * list nat) :=
  top ← top_words n filtered;
  unzip_pairs top.

(** The body of the script once the data is loaded and cleaned, down to the
    word analysis tab.  The charts themselves, the histograms and the word
    cloud are drawn by the plotting libraries and are not modelled. *)
Definition dashboard (ui : Controls) (df_cleaned : DataFrame) : result Report :=
  '(bounds, filtered) ← sidebar_years ui df_cleaned;
  filtered ← sidebar_journals ui filtered;
  avg_words ← if_column "abstract_word_count" filtered
                 (s ← column_of "abstract_word_count" filtered; series_mean s);
  metric ← if_column "publication_year" filtered (year_metric filtered);
  journals ← if_column "journal" filtered (nunique <$> column_of "journal" filtered);
  authors ← if_column "authors" filtered (nunique <$> column_of "authors" filtered);
  yearly ← if_column "publication_year" filtered (papers_by_year filtered);
  table ← if_column "journal" filtered (top_journals (num_journals ui) filtered);
  chart ← if_column "title" filtered (word_analysis (num_words ui) filtered);
  mret {| df_filtered := filtered; slider_bounds := bounds;
          avg_abstract_words := avg_words; year_range_metric := metric;
          unique_journals := journals; unique_authors := authors;
          by_year := yearly; journal_table := table; word_chart := chart |}.

(** ** The export: [to_csv(index=False)]

    The writer of the standard library with the defaults the tabular
    library passes: comma, double quote, minimal quoting, one line feed
    after each record.  A field is quoted when it holds a comma, a quote, a
    line feed or a carriage return, and a quote inside it is doubled (the
    writer quotes a carriage return whatever the line terminator is since
    Python 3.13, and these definitions follow it; the writer of the versions
    before comes after them).  The text is the file as the reader decodes it
    again: encoding to bytes and back is not modelled. *)

Definition comma : ascii := ascii_of_nat 44.
Definition dquote : ascii := ascii_of_nat 34.
Definition LF : ascii := ascii_of_nat 10.
Definition CR : ascii := ascii_of_nat 13.
Definition SPACE : ascii := ascii_of_nat 32.
Definition TAB : ascii := ascii_of_nat 9.

Definition is_char (d c : ascii) : bool := bool_decide (c = d).

Definition special (c : ascii) : bool :=
  is_char comma c || is_char dquote c || is_char LF c || is_char CR c.

Fixpoint needs_quotes (s : string) : bool :=
  match s with
  | EmptyString => false
  | String c s' => special c || needs_quotes s'
  end.

Fixpoint double_quotes (s : string) : string :=
  match s with
  | EmptyString => EmptyString
  | String c s' =>
      if is_char dquote c then String dquote (String dquote (double_quotes s'))
      else String c (double_quotes s')
  end.

Definition quoted (s : string) : string :=
  String dquote (double_quotes s +:+ String dquote EmptyString).

Definition csv_field (s : string) : string :=
  if needs_quotes s then quoted s else s.

Fixpoint csv_join (fields : list string) : string :=
  match fields with
  | [] => EmptyString
  | [f] => f
  | f :: fs => f +:+ String comma (csv_join fs)
  end.

(** One record and its line feed.  A record whose only field is empty is
    written as two quotes, so that it is not an empty line. *)
Definition csv_record (fields : list string) : string :=
  match fields with
  | [EmptyString] => quoted EmptyString
  | _ => csv_join (csv_field <$> fields)
  end +:+ String LF EmptyString.

(** The text of a cell in the file: nothing for a missing value. *)
Definition csv_text (v : value) : string :=
  match v with
  | VNa => EmptyString
  | VDate t => pretty (ts_year t) +:+ "-" +:+ pad2 (ts_month t) +:+ "-" +:+ pad2 (ts_day t)
  | _ => py_str v
  end.

Definition export_fields (cols : list string) (r : row) : list string :=
  (λ c, csv_text (cell c r)) <$> cols.

Fixpoint csv_lines (records : list (list string)) : string :=
  match records with
  | [] => EmptyString
  | fields :: records' => csv_record fields +:+ csv_lines records'
  end.

(** [df[cols].to_csv(index=False)]: the header, then one record per row. *)
Definition to_csv (cols : list string) (df : DataFrame) : string :=
  csv_lines (cols :: (export_fields cols <$> rows df)).

Definition available_cols : list string :=
  ["title"; "abstract"; "authors"; "journal"; "publication_year"; "abstract_word_count"].

(** [[col for col in available_cols if col in df_filtered.columns]] *)
Definition display_cols (filtered : DataFrame) : list string :=
  List.filter (λ col, has_column col filtered) available_cols.

(** The text behind the download button. *)
Definition download_csv (filtered : DataFrame) : string :=
  to_csv (display_cols filtered) filtered.

(** *** The writer before Python 3.13

    Before Python 3.13 the writer quotes a carriage return only when the
    line terminator holds one, and the tabular library passes the line
    terminator of the platform: a line feed alone where the text above is
    written.  [quote_cr] says whether carriage returns are quoted; the
    definitions above are these with [quote_cr] true. *)

Section Writer.

Variable quote_cr : bool.

Definition special_for (c : ascii) : bool :=
  is_char comma c || is_char dquote c || is_char LF c || (quote_cr && is_char CR c).

Fixpoint needs_quotes_for (s : string) : bool :=
  match s with
  | EmptyString => false
  | String c s' => special_for c || needs_quotes_for s'
  end.

Definition csv_field_for (s : string) : string :=
  if needs_quotes_for s then quoted s else s.

Definition csv_record_for (fields : list string) : string :=
  match fields with
  | [EmptyString] => quoted EmptyString
  | _ => csv_join (csv_field_for <$> fields)
  end +:+ String LF EmptyString.

Fixpoint csv_lines_for (records : list (list string)) : string :=
  match records with
  | [] => EmptyString
  | fields :: records' => csv_record_for fields +:+ csv_lines_for records'
  end.

Definition to_csv_for (cols : list string) (df : DataFrame) : string :=
  csv_lines_for (cols :: (export_fields cols <$> rows df)).

(** The text behind the download button, as the writer at hand writes it. *)
Definition download_csv_for (filtered : DataFrame) : string :=
  to_csv_for (display_cols filtered) filtered.

End Writer.

(** ** The Loader: [pd.read_csv]

    The tokenizer of the tabular library with its defaults: comma, double
    quote with doubling, line feed or carriage return as end of line, empty
    lines and lines of spaces and tabs skipped.  The state holds the field
    and the record being read. *)

Inductive tstate :=
  | START_RECORD
  | WHITESPACE_LINE
  | START_FIELD
  | IN_FIELD
  | IN_QUOTED_FIELD
  | QUOTE_IN_QUOTED_FIELD
  | EAT_CRNL
  | EAT_CRNL_NOP.

Record tok := { state : tstate; field : string; record : list string }.

Definition fresh : tok := {| state := START_RECORD; field := EmptyString; record := [] |}.

Definition push (c : ascii) (st : tstate) (t : tok) : tok :=
  {| state := st; field := field t +:+ String c EmptyString; record := record t |}.

Definition end_field (st : tstate) (t : tok) : tok :=
  {| state := st; field := EmptyString; record := record t ++ [field t] |}.

Definition is_blank (c : ascii) : bool := is_char SPACE c || is_char TAB c.

(** One character in a field that is not quoted. *)
Definition in_field (t : tok) (c : ascii) : tok * list (list string) :=
  if is_char LF c then (fresh, [record (end_field START_RECORD t)])
  else if is_char CR c then (end_field EAT_CRNL t, [])
  else if is_char comma c then (end_field START_FIELD t, [])
  else (push c IN_FIELD t, []).

(** The first character of a field. *)
Definition start_field (t : tok) (c : ascii) : tok * list (list string) :=
  if is_char dquote c
  then ({| state := IN_QUOTED_FIELD; field := field t; record := record t |}, [])
  else in_field t c.

(** The first character of a line. *)
Definition start_record (c : ascii) : tok * list (list string) :=
  if is_char LF c then (fresh, [])
  else if is_char CR c
  then ({| state := EAT_CRNL_NOP; field := EmptyString; record := [] |}, [])
  else if is_blank c then (push c WHITESPACE_LINE fresh, [])
  else start_field fresh c.

Definition step (t : tok) (c : ascii) : tok * list (list string) :=
  match state t with
  | START_RECORD => start_record c
  | WHITESPACE_LINE =>
      if is_char LF c then (fresh, [])
      else if is_char CR c
      then ({| state := EAT_CRNL_NOP; field := EmptyString; record := [] |}, [])
      else if is_blank c then (push c WHITESPACE_LINE t, [])
      else in_field t c
  | START_FIELD => start_field t c
  | IN_FIELD => in_field t c
  | IN_QUOTED_FIELD =>
      if is_char dquote c
      then ({| state := QUOTE_IN_QUOTED_FIELD; field := field t; record := record t |}, [])
      else (push c IN_QUOTED_FIELD t, [])
  | QUOTE_IN_QUOTED_FIELD =>
      if is_char dquote c then (push c IN_QUOTED_FIELD t, []) else in_field t c
  | EAT_CRNL =>
      if is_char LF c then (fresh, [record t])
      else if is_char comma c
      then ({| state := START_FIELD; field := EmptyString; record := [EmptyString] |},
            [record t])
      else let '(t', out) := start_record c in (t', record t :: out)
  | EAT_CRNL_NOP =>
      if is_char LF c || is_char comma c then (fresh, []) else start_record c
  end.

(** The end of the file. *)
Definition at_eof (t : tok) : result (list (list string)) :=
  match state t with
  | START_RECORD | WHITESPACE_LINE | EAT_CRNL_NOP => Ok []
  | IN_QUOTED_FIELD => Raise ParserError
  | START_FIELD | IN_FIELD | QUOTE_IN_QUOTED_FIELD => Ok [record t ++ [field t]]
  | EAT_CRNL => Ok [record t]
  end.

Fixpoint tokenize (t : tok) (s : string) : result (list (list string)) :=
  match s with
  | EmptyString => at_eof t
  | String c s' =>
      let '(t', out) := step t c in
      (out ++.) <$> tokenize t' s'
  end.

Section Loader.

(** How the tabular library turns the header and the records of a file
    into a frame: the names it gives the columns, the kind of cell it
    infers for each column, what it does with short and long records. *)
Variable build_frame : list string → list (list string) → result DataFrame.

(** [pd.read_csv(text)]: the first record is the header. *)
Definition read_csv (text : string) : result DataFrame :=
  records ← tokenize fresh text;
  match records with
  | [] => Raise EmptyDataError
  | header :: data => build_frame header data
  end.

(** [load_data] of the dashboard: no frame when the file is not there; any
    other exception of the reader is not caught. *)
Definition load_data (metadata_csv : option string) : result (option DataFrame) :=
  match metadata_csv with
  | None => Ok None
  | Some text => df ← read_csv text; mret (Some df)
  end.

End Loader.

(** ** Selections and summaries

    The data tab of the dashboard and the prints of the batch report. *)

Definition project_row (cols : list string) (r : row) : row :=
  list_to_map ((λ c, (c, cell c r)) <$> cols).

(** [df[cols]] with a list of names: the frame of these columns, in this
    order.  A name that is not a column raises KeyError (the library puts
    every missing name in the message; the model keeps the first). *)
Definition select_columns (cols : list string) (df : DataFrame) : result DataFrame :=
  match List.filter (λ c, negb (has_column c df)) cols with
  | [] => Ok {| columns := cols; rows := project_row cols <$> rows df |}
  | c :: _ => Raise (KeyError c)
  end.

(** [df.head(n)] *)
Definition frame_head (n : nat) (df : DataFrame) : DataFrame :=
  {| columns := columns df; rows := take n (rows df) |}.

(** [df.to_csv(index=False)] *)
Definition frame_to_csv (df : DataFrame) : string := to_csv (columns df) df.

(** The data tab of the dashboard: the table it shows,
    [df_filtered[display_cols].head(100)], and the text behind the download
    button, [df_filtered[display_cols].to_csv(index=False)]. *)
Definition data_tab (filtered : DataFrame) : result (DataFrame * string) :=
  shown ← select_columns (display_cols filtered) filtered;
  exported ← select_columns (display_cols filtered) filtered;
  mret (frame_head 100 shown, frame_to_csv exported).



(** ** The two programs from end to end *)




Section App.

Variable build_frame : list string → list (list string) → result DataFrame.
Variable to_datetime_lib : Series → result converted.

(** The dashboard script from the file to the tabs: with no file it shows
    an error message and stops; otherwise it cleans the table and runs the
    controls and the tabs.  The number beside the report is [len(df)], the
    Original Dataset metric. *)
Definition app (metadata_csv : option string) (ui : Controls)
    : result (option (nat * Report)) :=
  df ← load_data build_frame metadata_csv;
  match df with
  | Some df =>
      df_cleaned ← cleaned_table_with to_datetime_lib df;
      shown ← dashboard ui df_cleaned;
      mret (Some (frame_len df, shown))
  | None => mret None
  end.

End App.

(** ** Sample collaborators and data

    One date parser and one frame builder to run the model with, and a few
    small tables. *)

Fixpoint cut (d : ascii) (s : string) : string * list string :=
  match s with
  | EmptyString => (EmptyString, [])
  | String c s' =>
      let '(w, ws) := cut d s' in
      if is_char d c then (EmptyString, w :: ws) else (String c w, ws)
  end.

Definition in_range (lo hi : Z) (o : option Z) : option Z :=
  n ← o; if (lo <=? n) && (n <=? hi) then Some n else None.

(** A parser for the two shapes of date the metadata file uses: year, month
    and day separated by dashes, or the year alone. *)
Definition parse_iso (s : string) : option Timestamp :=
  match cut (ascii_of_nat 45) s with
  | (y, []) =>
      year ← parse_nat y;
      Some {| ts_year := year; ts_month := 1; ts_day := 1 |}
  | (y, [m; d]) =>
      year ← parse_nat y;
      month ← in_range 1 12 (parse_nat m);
      day ← in_range 1 31 (parse_nat d);
      Some {| ts_year := year; ts_month := month; ts_day := day |}
  | _ => None
  end.

Definition iso_dates (s : Series) : list (option Timestamp) :=
  (λ v, match v with VStr text => parse_iso text | _ => None end) <$> s.

Definition text_cell (s : string) : value :=
  match s with
  | EmptyString => VNa
  | _ => VStr s
  end.

(** A builder that keeps the header as it is and every field as text. *)
Definition text_frame (header : list string) (data : list (list string)) : result DataFrame :=
  if forallb (λ fields, length fields <=? length header)%nat data
  then Ok {| columns := header;
             rows := (λ fields, list_to_map (zip header (text_cell <$> fields))) <$> data |}
  else Raise ParserError.

Definition paper (title abstract authors journal publish_time : value) : row :=
  list_to_map [("title", title); ("abstract", abstract); ("authors", authors);
               ("journal", journal); ("publish_time", publish_time);
               ("source_x", VStr "PMC")].

Definition sample_raw : DataFrame :=
  {| columns := ["title"; "abstract"; "authors"; "journal"; "publish_time"; "source_x"];
     rows :=
       [ paper (VStr "Novel Coronavirus Spread Patterns") (VStr "a b  c") VNa
               (VStr "The Lancet") (VStr "2020-03-01");
         paper VNa (VStr "no title here") (VStr "Doe, J.") VNa (VStr "2019-05-17");
         paper (VStr "Spread Dynamics Of Coronavirus") VNa (VStr "Roe, R.")
               VNa (VStr "spring 2020");
         paper (VStr "Earlier findings, revisited") (VStr "") (VStr "Poe, E.")
               (VStr "The Lancet") (VStr "2018") ] |}.


Definition sample_cleaned : DataFrame :=
  match cleaned_table iso_dates sample_raw with
  | Ok df => df
  | Raise _ => {| columns := []; rows := [] |}
  end.

(** The years 2018 and 2020 are there, 2019 is not. *)
Definition sample_ui : Controls :=
  {| year_range := (2019, 2019); selected_journals := [];
     num_journals := 15; num_words := 20 |}.

Definition sample_titles : DataFrame :=
  {| columns := ["title"];
     rows := [ {[ "title" := VStr "Novel Coronavirus Spread Patterns" ]};
               {[ "title" := VStr "Spread Dynamics Of Coronavirus" ]} ] |}.

(** A table whose only exported column holds a title of one space. *)
Definition sample_blank_title : DataFrame :=
  {| columns := ["title"];
     rows := [ {[ "title" := VStr " " ]}; {[ "title" := VStr "abc" ]} ] |}.

Definition sample_years : DataFrame :=
  {| columns := ["publication_year"];
     rows := [ {[ "publication_year" := VInt 2020 ]};
               {[ "publication_year" := VInt 2020 ]};
               {[ "publication_year" := VInt 2021 ]} ] |}.

(** A table of which no date can be parsed. *)
Definition sample_undated : DataFrame :=
  {| columns := ["title"; "publish_time"];
     rows := [ {[ "title" := VStr "Spread Dynamics"; "publish_time" := VStr "spring 2020" ]};
               {[ "title" := VStr "Undated notes"; "publish_time" := VNa ]} ] |}.

(** The whole range of years and one journal selected. *)
Definition sample_choice : Controls :=
  {| year_range := (2018, 2020); selected_journals := [VStr "The Lancet"];
     num_journals := 15; num_words := 20 |}.

Definition no_report : Report :=
  {| df_filtered := {| columns := []; rows := [] |}; slider_bounds := None;
     avg_abstract_words := None; year_range_metric := None;
     unique_journals := None; unique_authors := None;
     by_year := None; journal_table := None; word_chart := None |}.

(** What the dashboard shows for the sample table with these settings. *)
Definition sample_report : Report :=
  match dashboard sample_choice sample_cleaned with
  | Ok rep => rep
  | Raise _ => no_report
  end.

(** Dates written year, month and day, with or without a time of day and
    a UTC offset after it (2020-03-01T00:00:00+01:00): the conversion of
    the tabular library on a column of this one shape.  An entry of another
    shape is not parsed. *)
Definition parse_day (s : string) : option Timestamp :=
  match cut (ascii_of_nat 45) s with
  | (y, [m; d]) =>
      year ← parse_nat y;
      month ← in_range 1 12 (parse_nat m);
      day ← in_range 1 31 (parse_nat d);
      Some {| ts_year := year; ts_month := month; ts_day := day |}
  | _ => None
  end.

(** The offset of a time of day: the text from its sign on, nothing when
    there is no sign. *)
Fixpoint offset_text (s : string) : string :=
  match s with
  | EmptyString => EmptyString
  | String c s' =>
      if is_char (ascii_of_nat 43) c || is_char (ascii_of_nat 45) c then s
      else offset_text s'
  end.

(** The day and the offset of an entry that parses. *)
Definition stamp_of (v : value) : option (Timestamp * string) :=
  match v with
  | VStr text =>
      match cut (ascii_of_nat 84) text with
      | (day, []) => t ← parse_day day; Some (t, EmptyString)
      | (day, [time]) => t ← parse_day day; Some (t, offset_text time)
      | _ => None
      end
  | _ => None
  end.

Definition days_of (s : Series) : list (option Timestamp) :=
  (λ v, fst <$> stamp_of v) <$> s.

(** The entries that parse do not all have the same offset. *)
Definition mixed_offsets (s : Series) : bool :=
  match omap (λ v, snd <$> stamp_of v) s with
  | [] => false
  | o :: os => negb (forallb (String.eqb o) os)
  end.

(** Before version 3 of the library: a column of mixed offsets comes back
    as an object column of dates, each with its own offset. *)
Definition to_datetime_objects (s : Series) : result converted :=
  if mixed_offsets s
  then Ok (Objects (zip_with date_cell s (days_of s)))
  else Ok (Dates (days_of s)).

(** From version 3 on: a column of mixed offsets is refused. *)
Definition to_datetime_strict (s : Series) : result converted :=
  if mixed_offsets s
  then Raise (ValueError "Mixed timezones detected. Pass utc=True in to_datetime or tz='UTC' in DatetimeIndex to convert to a common timezone.")
  else Ok (Dates (days_of s)).

(** Two papers dated in two time zones. *)
Definition sample_offsets : DataFrame :=
  {| columns := ["title"; "publish_time"];
     rows := [ {[ "title" := VStr "Spread Dynamics";
                  "publish_time" := VStr "2020-03-01T00:00:00+01:00" ]};
               {[ "title" := VStr "Earlier findings";
                  "publish_time" := VStr "2020-03-02T00:00:00+02:00" ]} ] |}.

(** A table whose dates are all written year, month and day. *)
Definition papers_raw : DataFrame :=
  {| columns := ["title"; "abstract"; "authors"; "journal"; "publish_time"; "source_x"];
     rows :=
       [ paper (VStr "Novel Coronavirus Spread Patterns") (VStr "a b  c") VNa
               (VStr "The Lancet") (VStr "2020-03-01");
         paper VNa (VStr "no title here") (VStr "Doe, J.") VNa (VStr "2019-05-17");
         paper (VStr "Spread Dynamics Of Coronavirus") VNa (VStr "Roe, R.")
               VNa (VStr "2021-01-10");
         paper (VStr "Earlier findings, revisited") (VStr "") (VStr "Poe, E.")
               (VStr "The Lancet") (VStr "2018-06-15") ] |}.

Definition papers_cleaned : DataFrame :=
  match cleaned_table_with to_datetime_objects papers_raw with
  | Ok df => df
  | Raise _ => {| columns := []; rows := [] |}
  end.

(** What the dashboard shows for this table with the years 2018 to 2020 and
    one journal selected, and the view behind its tabs. *)
Definition papers_report : Report :=
  match dashboard sample_choice papers_cleaned with
  | Ok rep => rep
  | Raise _ => no_report
  end.

Definition papers_view : DataFrame := df_filtered papers_report.

(** A view with a carriage return inside a title. *)
Definition sample_cr_title : DataFrame :=
  {| columns := ["title"; "journal"; "title_word_count"];
     rows := [ {[ "title" := VStr ("Fever" +:+ String CR "and cough");
                  "journal" := VStr "The Lancet";
                  "title_word_count" := VInt 3 ]} ] |}.

(** A small metadata file: one record has no title, one no journal. *)
Definition papers_file : string :=
  csv_lines [ ["title"; "journal"; "publish_time"];
              ["Spread patterns of a virus"; "The Lancet"; "2020-03-01"];
              [""; "The Lancet"; "2019-05-17"];
              ["Earlier findings revisited"; ""; "2018-01-15"] ].

Definition papers_run : option (nat * Report) :=
  match app text_frame to_datetime_objects (Some papers_file) sample_choice with
  | Ok out => out
  | Raise _ => None
  end.

(** ** Notions used in the statements *)

(** The three fills on one row. *)
Definition fill_row (df : DataFrame) (r : row) : row :=
  let fill c v r := if has_column c df then fill_cell c v r else r in
  fill "journal" (VStr "Unknown")
    (fill "authors" (VStr "Unknown") (fill "abstract" (VStr "") r)).

(** The year the parser found for an entry, if any. *)
Definition parsed_year (v : value) (o : option Timestamp) : option Z :=
  if isna v then None else ts_year <$> o.





Definition in_years (lo hi : Z) (y : value) : bool :=
  match key_num y with
  | Some n => (lo <=? n) && (n <=? hi)
  | None => false
  end.

(** A cell of a year column: a number or missing. *)
Definition yearlike (y : value) : Prop := y = VNa ∨ is_Some (key_num y).

(** A year column as cleaning builds it: whole numbers, or floats, with the
    missing entries. *)
Definition year_column (s : Series) : Prop :=
  Forall (λ y, y = VNa ∨ ∃ n, y = VInt n) s
  ∨ Forall (λ y, y = VNa ∨ ∃ n, y = VFlt n) s.

(** The year of [x] is smaller than the year of [y]. *)
Definition year_before (x y : value * nat) : Prop :=
  ∃ a b, key_num x.1 = Some a ∧ key_num y.1 = Some b ∧ a < b.

(** A record that the reader does not see: no field at all, or one field
    that is not empty and holds nothing but spaces and tabs. *)
Definition blank_record (fields : list string) : bool :=
  match fields with
  | [] => true
  | [f] => match f with EmptyString => false | _ => all_chars is_blank f end
  | _ => false
  end.

Definition mk (st : tstate) (f : string) (r : list string) : tok :=
  {| state := st; field := f; record := r |}.

Section Tallies.
Context {K : Type} `{EqDecision K}.

(** The number of times a key occurs. *)
Definition occurrences (l : list K) (k : K) : nat :=
  length (List.filter (λ x, bool_decide (x = k)) l).

(** The place of the first occurrence of a key (the length of the list
    when there is none). *)
Fixpoint first_index (k : K) (l : list K) : nat :=
  match l with
  | [] => 0
  | x :: l' => if decide (x = k) then 0 else S (first_index k l')
  end.

(** The distinct keys, in the order of their first occurrences. *)
Definition firsts (l : list K) : list K :=
  foldl (λ acc x, if decide (x ∈ acc) then acc else acc ++ [x]) [] l.

(** [x] stands before [y] in a ranking: it has the larger count, or the
    same count and it came first. *)
Definition ranks_before (R : K * nat → K * nat → Prop) (x y : K * nat) : Prop :=
  (y.2 < x.2)%nat ∨ (x.2 = y.2 ∧ R x y).

(** The entries of a tally: every key of the list once, with the number
    of its occurrences. *)
Definition tallies (l : list K) (c : list (K * nat)) : Prop :=
  NoDup c.*1 ∧ ∀ k n, (k, n) ∈ c ↔ k ∈ l ∧ n = occurrences l k.

(** Largest count first, and among equal counts the key that occurs
    first in the list. *)
Definition ranked (l : list K) (c : list (K * nat)) : Prop :=
  StronglySorted
    (ranks_before (λ x y, first_index x.1 l < first_index y.1 l)%nat) c.

End Tallies.


(** The rows that the year control keeps: every row when there is no year
    column. *)
Definition year_selected (ui : Controls) (df : DataFrame) (r : row) : bool :=
  if has_column "publication_year" df
  then in_years (year_range ui).1 (year_range ui).2 (cell "publication_year" r)
  else true.

Definition journal_selected (selected : list value) (r : row) : bool :=
  bool_decide (cell "journal" r ∈ selected).

(** The rows that the journal control keeps: every row when there is no
    journal column or nothing is selected. *)
Definition journal_chosen (ui : Controls) (df : DataFrame) (r : row) : bool :=
  if has_column "journal" df && negb (bool_decide (selected_journals ui = []))
  then journal_selected (selected_journals ui) r
  else true.


(** A character of an empty line: an end of line, a space or a tab. *)
Definition line_filler (c : ascii) : bool := is_char LF c || is_char CR c || is_blank c.

Definition between_records (t : tok) : Prop :=
  state t = START_RECORD ∨ state t = WHITESPACE_LINE ∨ state t = EAT_CRNL_NOP.

(** A parser that answers with the dates [ds], cut or filled up to the
    length of the column it is asked about. *)
Definition dates_for (ds : list (option Timestamp)) (s : Series) : list (option Timestamp) :=
  take (length s) (ds ++ replicate (length s) None).

(** A text with no carriage return in it. *)
Definition no_cr (s : string) : bool := all_chars (λ c, negb (is_char CR c)) s.

(** No cell that the download exports holds a carriage return. *)
Definition cr_free (filtered : DataFrame) : bool :=
  forallb (λ r, forallb no_cr (export_fields (display_cols filtered) r)) (rows filtered).

(** * Facts *)

(** ** Running statements on a store *)

Lemma bind_run {A B} (m : M A) (f : A → M B) σ a σ' :
  m σ = Ok (a, σ') → (m ≫= f) σ = f a σ'.
Proof. intros Hm. unfold mbind, M_bind. by rewrite Hm. Qed.

Lemma lookup_top (τ : store) (df : DataFrame) : (τ ++ [df]) !! length τ = Some df.
Proof. by rewrite lookup_app_r, Nat.sub_diag. Qed.

Lemma insert_top (τ : store) (df df' : DataFrame) :
  <[length τ := df']> (τ ++ [df]) = τ ++ [df'].
Proof.
  rewrite insert_app_r_alt by lia. by rewrite Nat.sub_diag.
Qed.

Lemma deref_top τ df : deref (length τ) (τ ++ [df]) = Ok (df, τ ++ [df]).
Proof. unfold deref. by rewrite lookup_top. Qed.

Lemma update_top τ df f :
  update (length τ) f (τ ++ [df]) = Ok (tt, τ ++ [f df]).
Proof. unfold update. by rewrite lookup_top, insert_top. Qed.

Lemma copy_run σ r raw :
  σ !! r = Some raw → copy r σ = Ok (length σ, σ ++ [raw]).
Proof.
  intros Hr. unfold copy. erewrite bind_run; [done|].
  unfold deref. by rewrite Hr.
Qed.

Lemma in_columns_top c τ df :
  in_columns c (length τ) (τ ++ [df]) = Ok (has_column c df, τ ++ [df]).
Proof. unfold in_columns. by erewrite bind_run by apply deref_top. Qed.

Lemma fillna_top c v τ df :
  has_column c df = true →
  fillna_inplace (length τ) c v (τ ++ [df]) = Ok (tt, τ ++ [fillna c v df]).
Proof.
  intros Hc. unfold fillna_inplace.
  erewrite bind_run by apply deref_top. rewrite Hc. apply update_top.
Qed.

Lemma getitem_top c τ df :
  has_column c df = true →
  getitem (length τ) c (τ ++ [df]) = Ok (col c df, τ ++ [df]).
Proof.
  intros Hc. unfold getitem.
  erewrite bind_run by apply deref_top.
  unfold column_of. by rewrite Hc.
Qed.

Lemma setitem_top c s τ df :
  length s = length (rows df) →
  setitem (length τ) c s (τ ++ [df]) = Ok (tt, τ ++ [set_column c s df]).
Proof.
  intros Hlen. unfold setitem.
  erewrite bind_run by apply deref_top.
  rewrite bool_decide_eq_true_2 by done. apply update_top.
Qed.

Lemma getitem_mask_top mask τ df :
  length mask = length (rows df) →
  getitem_mask (length τ) mask (τ ++ [df])
  = Ok (length (τ ++ [df]),
        (τ ++ [df]) ++ [{| columns := columns df; rows := mask_rows mask (rows df) |}]).
Proof.
  intros Hlen. unfold getitem_mask.
  erewrite bind_run by apply deref_top.
  unfold select_rows. rewrite bool_decide_eq_true_2 by done.
  by erewrite bind_run by reflexivity.
Qed.

(** An [if c in df.columns:] block that changes the frame in place. *)
Lemma if_column_top {B} c (f : DataFrame → DataFrame) (body : M unit)
    (k : unit → M B) τ df :
  (has_column c df = true → body (τ ++ [df]) = Ok (tt, τ ++ [f df])) →
  (in_columns c (length τ) ≫= λ b : bool,
     (if b then body else skip) ≫= k) (τ ++ [df])
  = k tt (τ ++ [if has_column c df then f df else df]).
Proof.
  intros Hbody. erewrite bind_run by apply in_columns_top.
  destruct (has_column c df) eqn:Hc.
  - by erewrite bind_run by auto.
  - by erewrite bind_run by reflexivity.
Qed.

(** ** Lists and rows *)

Lemma mask_rows_fmap {A} (p : A → bool) (l : list A) :
  mask_rows (p <$> l) l = List.filter p l.
Proof. induction l as [|x l IH]; csimpl; [done|]. rewrite IH. by destruct (p x). Qed.

Lemma zip_with_fmap_same {A B C} (g : A → B → C) (h : A → B) (l : list A) :
  zip_with g l (h <$> l) = (λ x, g x (h x)) <$> l.
Proof. induction l as [|x l IH]; csimpl; [done|]. by rewrite IH. Qed.

Lemma series_notna_col df :
  mask_rows (series_notna (col "title" df)) (rows df) = List.filter has_title (rows df).
Proof.
  unfold series_notna, col. rewrite <- list_fmap_compose.
  exact (mask_rows_fmap has_title (rows df)).
Qed.

Lemma cell_set_cell c c' r v :
  cell c (set_cell c' r v) = if decide (c = c') then v else cell c r.
Proof.
  unfold cell, set_cell. destruct (decide (c = c')) as [->|Hne].
  - by rewrite lookup_insert_eq.
  - by rewrite lookup_insert_ne.
Qed.

Lemma cell_fill_cell c c' v r :
  cell c (fill_cell c' v r) = if decide (c = c') then fill_with v (cell c r) else cell c r.
Proof.
  unfold fill_cell, fill_with. destruct (decide (c = c')) as [->|Hne].
  - destruct (isna (cell c' r)) eqn:Hna; [|done].
    unfold cell. by rewrite lookup_insert_eq.
  - destruct (isna (cell c' r)); [|done].
    unfold cell. by rewrite lookup_insert_ne.
Qed.

Section CleanerFacts.

Variable to_datetime : Series → list (option Timestamp).
Hypothesis to_datetime_length : ∀ s, length (to_datetime s) = length s.

Lemma length_to_datetime_coerce s : length (to_datetime_coerce to_datetime s) = length s.
Proof.
  unfold to_datetime_coerce. rewrite length_zip_with, to_datetime_length. lia.
Qed.

Lemma datelike_date_cell v o : is_datelike (date_cell v o) = true.
Proof. unfold date_cell. destruct (isna v); [done|]. by destruct o. Qed.

Lemma datelike_to_datetime_coerce s :
  forallb is_datelike (to_datetime_coerce to_datetime s) = true.
Proof.
  unfold to_datetime_coerce. generalize (to_datetime s). 
  induction s as [|v s IH]; intros [|o os]; simpl; try done.
  by rewrite datelike_date_cell, IH.
Qed.

Lemma dt_year_coerce s :
  dt_year (to_datetime_coerce to_datetime s)
  = Ok (years_of (to_datetime_coerce to_datetime s)).
Proof. unfold dt_year. by rewrite datelike_to_datetime_coerce. Qed.

Lemma length_years_of s : length (years_of s) = length s.
Proof. unfold years_of. destruct (existsb isna s); apply length_fmap. Qed.

Lemma col_set_column_same c s df :
  length s = length (rows df) → col c (set_column c s df) = s.
Proof.
  unfold col, set_column. simpl. generalize (rows df). 
  induction s as [|v s IH]; intros [|r rs] Hlen; simplify_eq/=; [done|].
  rewrite cell_set_cell, decide_True by done. f_equal. by apply IH.
Qed.

Lemma length_set_column c s df :
  length s = length (rows df) → length (rows (set_column c s df)) = length (rows df).
Proof. intros Hlen. unfold set_column. simpl. rewrite length_zip_with. lia. Qed.

Lemma has_column_set_column c s df : has_column c (set_column c s df) = true.
Proof.
  unfold has_column, set_column, add_column. simpl.
  apply bool_decide_eq_true_2. case_bool_decide; [done|].
  apply elem_of_app. right. by apply list_elem_of_singleton.
Qed.

Lemma set_column_word_count c c' df :
  set_column c' (word_count <$> col c df) df
  = {| columns := add_column c' (columns df); rows := count_row c c' <$> rows df |}.
Proof.
  unfold set_column, col. f_equal.
  rewrite <- list_fmap_compose. apply zip_with_fmap_same.
Qed.


Lemma word_count_block c c' τ df :
  has_column c df = true →
  (getitem (length τ) c ≫= λ s, setitem (length τ) c' (word_count <$> s)) (τ ++ [df])
  = Ok (tt, τ ++ [counted c c' df]).
Proof.
  intros Hc.
  erewrite bind_run by by apply getitem_top.
  rewrite setitem_top by (unfold col; by rewrite !length_fmap).
  unfold counted. by rewrite Hc, set_column_word_count.
Qed.


Lemma if_counted c c' df :
  (if has_column c df then counted c c' df else df) = counted c c' df.
Proof. unfold counted. by destruct (has_column c df). Qed.



End CleanerFacts.

(** ** Columns through the cleaning steps *)


Lemma filter_fmap_commute {A} (p : A → bool) (f : A → A) (l : list A) :
  (∀ x, p (f x) = p x) → List.filter p (f <$> l) = f <$> List.filter p l.
Proof.
  intros Hp. induction l as [|x l IH]; csimpl; [done|].
  rewrite Hp, IH. by destruct (p x).
Qed.

Lemma has_column_add_column c c' df s :
  has_column c (set_column c' s df) = has_column c df || bool_decide (c = c').
Proof.
  unfold has_column, set_column, add_column. simpl.
  destruct (bool_decide (c' ∈ columns df)) eqn:Hc'.
  - apply bool_decide_eq_true in Hc'.
    destruct (bool_decide (c ∈ columns df)) eqn:Hc; [done|]. simpl.
    apply bool_decide_eq_false in Hc. symmetry. apply bool_decide_eq_false.
    by intros ->.
  - apply eq_true_iff_eq. rewrite orb_true_iff, !bool_decide_eq_true.
    rewrite elem_of_app, list_elem_of_singleton. tauto.
Qed.

Lemma col_set_column c c' s df :
  length s = length (rows df) →
  col c (set_column c' s df) = if decide (c = c') then s else col c df.
Proof.
  unfold col, set_column. simpl. generalize (rows df).
  induction s as [|v s IH]; intros [|r rs] Hlen; simplify_eq/=.
  - by destruct (decide (c = c')).
  - rewrite cell_set_cell, IH by done. by destruct (decide (c = c')).
Qed.

Lemma columns_fill_if c v df : columns (fill_if c v df) = columns df.
Proof. unfold fill_if. by destruct (has_column c df). Qed.

Lemma has_column_fill_if c c' v df : has_column c (fill_if c' v df) = has_column c df.
Proof. unfold has_column. by rewrite columns_fill_if. Qed.

Lemma columns_filled df : columns (filled df) = columns df.
Proof. unfold filled. by rewrite !columns_fill_if. Qed.

Lemma rows_fill_if c v df :
  rows (fill_if c v df)
  = (λ r, if has_column c df then fill_cell c v r else r) <$> rows df.
Proof.
  unfold fill_if. destruct (has_column c df); [done|]. by rewrite list_fmap_id.
Qed.

Lemma rows_filled df : rows (filled df) = fill_row df <$> rows df.
Proof.
  unfold filled. rewrite !rows_fill_if, !has_column_fill_if.
  by rewrite <- !list_fmap_compose.
Qed.

Lemma cell_fill_row c df r :
  cell c (fill_row df r)
  = if bool_decide (c = "abstract") && has_column "abstract" df
    then fill_with (VStr "") (cell c r)
    else if bool_decide (c ∈ ["authors"; "journal"]) && has_column c df
         then fill_with (VStr "Unknown") (cell c r)
         else cell c r.
Proof.
  unfold fill_row.
  destruct (decide (c = "abstract")) as [->|Hb].
  { destruct (has_column "journal" df), (has_column "authors" df),
      (has_column "abstract" df); by rewrite ?cell_fill_cell. }
  rewrite (bool_decide_eq_false_2 (c = "abstract")) by done. simpl.
  destruct (decide (c = "authors")) as [->|Ha].
  { destruct (has_column "journal" df), (has_column "authors" df),
      (has_column "abstract" df); by rewrite ?cell_fill_cell. }
  destruct (decide (c = "journal")) as [->|Hj].
  { destruct (has_column "journal" df), (has_column "authors" df),
      (has_column "abstract" df); by rewrite ?cell_fill_cell. }
  rewrite (bool_decide_eq_false_2 (c ∈ ["authors"; "journal"]))
    by (rewrite !elem_of_cons, elem_of_nil; tauto).
  simpl.
  destruct (has_column "journal" df), (has_column "authors" df),
    (has_column "abstract" df);
    by rewrite ?cell_fill_cell, ?decide_False.
Qed.

Lemma has_title_fill_row df r : has_title (fill_row df r) = has_title r.
Proof. unfold has_title. by rewrite cell_fill_row. Qed.

Lemma has_column_titled c df : has_column c (titled df) = has_column c df.
Proof. unfold titled. by destruct (has_column "title" df). Qed.

Lemma has_column_filled c df : has_column c (filled df) = has_column c df.
Proof. unfold has_column. by rewrite columns_filled. Qed.

Lemma rows_titled_filled raw :
  rows (titled (filled raw)) = fill_row raw <$> kept_rows raw.
Proof.
  unfold titled, kept_rows. rewrite has_column_filled.
  destruct (has_column "title" raw); simpl; rewrite rows_filled; [|done].
  apply filter_fmap_commute, has_title_fill_row.
Qed.

Lemma col_titled_filled c raw :
  col c (titled (filled raw)) = (λ r, cell c (fill_row raw r)) <$> kept_rows raw.
Proof. unfold col. by rewrite rows_titled_filled, <- list_fmap_compose. Qed.

Lemma col_counted c c0 c' df :
  col c (counted c0 c' df)
  = if has_column c0 df && bool_decide (c = c')
    then word_count <$> col c0 df else col c df.
Proof.
  unfold counted, col. destruct (has_column c0 df); [|done]. simpl.
  rewrite <- !list_fmap_compose.
  destruct (bool_decide (c = c')) eqn:Hc.
  - apply bool_decide_eq_true in Hc as ->. apply list_fmap_ext. intros i r _. simpl.
    unfold count_row. by rewrite cell_set_cell, decide_True.
  - apply bool_decide_eq_false in Hc. apply list_fmap_ext. intros i r _. simpl.
    unfold count_row. by rewrite cell_set_cell, decide_False.
Qed.

Lemma length_rows_counted c c' df : length (rows (counted c c' df)) = length (rows df).
Proof. unfold counted. destruct (has_column c df); [|done]. apply length_fmap. Qed.

Lemma has_column_counted c c0 c' df :
  has_column c (counted c0 c' df)
  = has_column c df || (has_column c0 df && bool_decide (c = c')).
Proof.
  unfold counted. destruct (has_column c0 df) eqn:H0; simpl.
  - exact (has_column_add_column c c' df []).
  - by rewrite orb_false_r.
Qed.

Section CleaningSteps.

Variable to_datetime : Series → list (option Timestamp).
Hypothesis to_datetime_length : ∀ s, length (to_datetime s) = length s.

Local Abbreviation dated := (dated to_datetime).
Local Abbreviation coerce := (to_datetime_coerce to_datetime).

Lemma length_coerce_col c df : length (coerce (col c df)) = length (rows df).
Proof. unfold col. by rewrite length_to_datetime_coerce, length_fmap. Qed.

Lemma length_rows_dated df : length (rows (dated df)) = length (rows df).
Proof.
  unfold dated. destruct (has_column "publish_time" df); [|done].
  rewrite !length_set_column; try done.
  - by apply length_coerce_col.
  - rewrite length_years_of, length_set_column; by apply length_coerce_col.
Qed.

Lemma col_dated c df :
  col c (dated df)
  = if has_column "publish_time" df
    then if decide (c = "publication_year")
         then years_of (coerce (col "publish_time" df))
         else if decide (c = "publish_time")
              then coerce (col "publish_time" df)
              else col c df
    else col c df.
Proof.
  unfold dated. destruct (has_column "publish_time" df); [|done].
  rewrite !col_set_column; try done.
  - by apply length_coerce_col.
  - rewrite length_years_of, length_set_column; by apply length_coerce_col.
Qed.

Lemma has_column_dated c df :
  has_column c (dated df)
  = has_column c df
    || (has_column "publish_time" df && bool_decide (c = "publication_year")).
Proof.
  unfold dated. destruct (has_column "publish_time" df) eqn:Hpt; simpl.
  - rewrite !has_column_add_column.
    destruct (bool_decide (c = "publish_time")) eqn:Hc; [|by rewrite orb_false_r].
    apply bool_decide_eq_true in Hc as ->. by rewrite Hpt.
  - by rewrite orb_false_r.
Qed.

End CleaningSteps.

(** A closed statement that is decidable, by computing the decision. *)
Ltac by_decision := apply (bool_decide_unpack _); vm_compute; exact I.

(** Comparisons of two column names that are both known. *)
Ltac eval_names :=
  repeat match goal with
  | |- context [bool_decide (?a = ?b)] =>
      let v := eval vm_compute in (bool_decide (a = b)) in
      match v with
      | true => change (bool_decide (a = b)) with true
      | false => change (bool_decide (a = b)) with false
      end
  end;
  rewrite ?decide_True, ?decide_False by done;
  cbn [andb orb].


Lemma cell_in_col c df r : r ∈ rows df → cell c r ∈ col c df.
Proof. intros Hr. unfold col. by apply list_elem_of_fmap_2. Qed.





Lemma app_empty_l (s : string) : EmptyString +:+ s = s.
Proof. reflexivity. Qed.

Lemma app_String c (s t : string) : String c s +:+ t = String c (s +:+ t).
Proof. reflexivity. Qed.

Lemma app_empty_r (s : string) : s +:+ EmptyString = s.
Proof. induction s as [|c s IH]; [done|]. by rewrite app_String, IH. Qed.

Lemma app_assoc_string (s t u : string) : (s +:+ t) +:+ u = s +:+ t +:+ u.
Proof. induction s as [|c s IH]; [done|]. by rewrite !app_String, IH. Qed.




Section CleaningClaims.

Variable to_datetime : Series → list (option Timestamp).
Hypothesis to_datetime_length : ∀ s, length (to_datetime s) = length s.



Lemma length_rows_cleaned raw :
  length (rows (cleaned to_datetime raw)) = length (kept_rows raw).
Proof.
  unfold cleaned. rewrite !length_rows_counted, length_rows_dated by done.
  by rewrite rows_titled_filled, length_fmap.
Qed.


Lemma key_num_years_of dates :
  key_num <$> years_of dates
  = (λ d, match d with VDate t => Some (ts_year t) | _ => None end) <$> dates.
Proof.
  unfold years_of. destruct (existsb isna dates);
    rewrite <- list_fmap_compose; apply list_fmap_ext; by intros i [] _.
Qed.

Lemma years_of_na dates :
  Forall (λ y, key_num y = None → y = VNa) (years_of dates).
Proof.
  unfold years_of. destruct (existsb isna dates);
    apply Forall_fmap, Forall_true; by intros [].
Qed.

Lemma key_num_coerce s :
  (λ d, match d with VDate t => Some (ts_year t) | _ => None end)
    <$> to_datetime_coerce to_datetime s
  = zip_with parsed_year s (to_datetime s).
Proof.
  unfold to_datetime_coerce. generalize (to_datetime s).
  induction s as [|v s IH]; intros [|o os]; csimpl; try done.
  rewrite IH. f_equal. unfold date_cell, parsed_year.
  destruct (isna v); [done|]. by destruct o.
Qed.

Lemma col_publication_year raw :
  has_column "publish_time" raw = true →
  col "publish_time" (cleaned to_datetime raw)
  = to_datetime_coerce to_datetime (cell "publish_time" <$> kept_rows raw)
  ∧ col "publication_year" (cleaned to_datetime raw)
    = years_of (to_datetime_coerce to_datetime (cell "publish_time" <$> kept_rows raw)).
Proof.
  intros Hpt. unfold cleaned. rewrite !col_counted. eval_names.
  rewrite !andb_false_r, !col_dated by done.
  rewrite has_column_titled, has_column_filled, Hpt. eval_names.
  rewrite col_titled_filled.
  assert ((λ r, cell "publish_time" (fill_row raw r)) <$> kept_rows raw
          = cell "publish_time" <$> kept_rows raw) as ->; [|done].
  apply list_fmap_ext. intros i r _. by rewrite cell_fill_row.
Qed.




End CleaningClaims.

(** ** The date conversion as the library runs it *)

Lemma bind_raise {A B} (m : M A) (f : A → M B) σ e :
  m σ = Raise e → (m ≫= f) σ = Raise e.
Proof. intros Hm. unfold mbind, M_bind. by rewrite Hm. Qed.

Lemma dates_for_length ds s : length (dates_for ds s) = length s.
Proof. unfold dates_for. rewrite length_take, length_app, length_replicate. lia. Qed.

Lemma zip_with_take_app {A B C} (f : A → B → C) (l : list A) (k k' : list B) :
  (length l ≤ length k)%nat →
  zip_with f l (take (length l) (k ++ k')) = zip_with f l k.
Proof.
  revert k. induction l as [|x l IH]; intros [|y k] Hlen; simpl in *; try done; try lia.
  f_equal. apply IH. lia.
Qed.

Lemma coerce_dates_for s ds :
  length (zip_with date_cell s ds) = length s →
  to_datetime_coerce (dates_for ds) s = zip_with date_cell s ds.
Proof.
  rewrite length_zip_with. intros Hlen. unfold to_datetime_coerce, dates_for.
  apply zip_with_take_app. lia.
Qed.

(** With a library that always gives a date column, [prepare_data_with]
    is [prepare_data]. *)
Lemma prepare_data_with_dates parser r σ :
  prepare_data_with (λ s, Ok (Dates (parser s))) r σ = prepare_data parser r σ.
Proof. reflexivity. Qed.

Section ConversionFacts.

Variable to_datetime_lib : Series → result converted.

(** What is used of the library: the column that it gives has one entry
    for each entry of the column that it was given. *)
Hypothesis to_datetime_lib_length : ∀ s c,
  to_datetime_lib s = Ok c → length (converted_column s c) = length s.

Local Abbreviation no_dt :=
  (AttributeError "Can only use .dt accessor with datetimelike values").

(** The two statements on the date column. *)
Lemma publish_time_block_with τ df :
  has_column "publish_time" df = true →
  (getitem (length τ) "publish_time" ≫= λ s,
     lift (to_datetime_lib s) ≫= λ dates,
       setitem (length τ) "publish_time" (converted_column s dates) ≫= λ _,
         getitem (length τ) "publish_time" ≫= λ s,
           lift (dt_year_of dates s) ≫= λ years,
             setitem (length τ) "publication_year" years) (τ ++ [df])
  = match to_datetime_lib (col "publish_time" df) with
    | Ok (Dates ds) => Ok (tt, τ ++ [dated (dates_for ds) df])
    | Ok (Objects _) => Raise no_dt
    | Raise e => Raise e
    end.
Proof.
  intros Hc.
  erewrite bind_run by by apply getitem_top.
  cbv beta.
  destruct (to_datetime_lib (col "publish_time" df)) as [[ds|o]|e] eqn:Hlib.
  - pose proof (to_datetime_lib_length _ _ Hlib) as Hlen. cbn [converted_column] in Hlen.
    assert (length (zip_with date_cell (col "publish_time" df) ds) = length (rows df))
      as Hrows.
    { rewrite Hlen. unfold col. by rewrite length_fmap. }
    erewrite bind_run by reflexivity.
    cbn [converted_column dt_year_of].
    erewrite bind_run by by apply setitem_top.
    erewrite bind_run by (apply getitem_top, has_column_set_column).
    rewrite col_set_column_same by done.
    rewrite <- (coerce_dates_for _ _ Hlen) in Hrows |- *.
    erewrite bind_run by (unfold lift; by rewrite dt_year_coerce).
    rewrite setitem_top.
    + unfold dated. by rewrite Hc.
    + by rewrite length_years_of, length_set_column.
  - pose proof (to_datetime_lib_length _ _ Hlib) as Hlen. cbn [converted_column] in Hlen.
    erewrite bind_run by reflexivity.
    cbn [converted_column dt_year_of].
    erewrite bind_run
      by (apply setitem_top; rewrite Hlen; unfold col; by rewrite length_fmap).
    erewrite bind_run by (apply getitem_top, has_column_set_column).
    apply bind_raise. reflexivity.
  - by apply bind_raise.
Qed.

(** The statements of [prepare_data_with] from the date column on. *)
Lemma derived_columns_run τ df :
  (in_columns "publish_time" (length τ) ≫= λ b : bool,
     (if b
      then getitem (length τ) "publish_time" ≫= λ s,
             lift (to_datetime_lib s) ≫= λ dates,
               setitem (length τ) "publish_time" (converted_column s dates) ≫= λ _,
                 getitem (length τ) "publish_time" ≫= λ s,
                   lift (dt_year_of dates s) ≫= λ years,
                     setitem (length τ) "publication_year" years
      else skip) ≫= λ _,
     in_columns "abstract" (length τ) ≫= λ b : bool,
       (if b
        then getitem (length τ) "abstract" ≫= λ s,
               setitem (length τ) "abstract_word_count" (word_count <$> s)
        else skip) ≫= λ _,
       in_columns "title" (length τ) ≫= λ b : bool,
         (if b
          then getitem (length τ) "title" ≫= λ s,
                 setitem (length τ) "title_word_count" (word_count <$> s)
          else skip) ≫= λ _,
         mret (length τ)) (τ ++ [df])
  = if has_column "publish_time" df
    then match to_datetime_lib (col "publish_time" df) with
         | Ok (Dates ds) =>
             Ok (length τ,
                 τ ++ [counted "title" "title_word_count"
                         (counted "abstract" "abstract_word_count"
                            (dated (dates_for ds) df))])
         | Ok (Objects _) => Raise no_dt
         | Raise e => Raise e
         end
    else Ok (length τ,
             τ ++ [counted "title" "title_word_count"
                     (counted "abstract" "abstract_word_count" df)]).
Proof.
  erewrite bind_run by apply in_columns_top.
  destruct (has_column "publish_time" df) eqn:Hc.
  - pose proof (publish_time_block_with τ df Hc) as Hblock.
    destruct (to_datetime_lib (col "publish_time" df)) as [[ds|o]|e].
    + erewrite bind_run by exact Hblock.
      rewrite (if_column_top "abstract" (counted "abstract" "abstract_word_count"))
        by apply word_count_block.
      rewrite (if_column_top "title" (counted "title" "title_word_count"))
        by apply word_count_block.
      by rewrite !if_counted.
    + by apply bind_raise.
    + by apply bind_raise.
  - erewrite bind_run by reflexivity.
    rewrite (if_column_top "abstract" (counted "abstract" "abstract_word_count"))
      by apply word_count_block.
    rewrite (if_column_top "title" (counted "title" "title_word_count"))
      by apply word_count_block.
    by rewrite !if_counted.
Qed.

Lemma col_publish_time_kept raw :
  col "publish_time" (titled (filled raw)) = cell "publish_time" <$> kept_rows raw.
Proof.
  rewrite col_titled_filled. apply list_fmap_ext. intros i x _. by rewrite cell_fill_row.
Qed.

Lemma cleaned_undated parser raw :
  has_column "publish_time" raw = false →
  cleaned parser raw
  = counted "title" "title_word_count"
      (counted "abstract" "abstract_word_count" (titled (filled raw))).
Proof.
  intros Hpt. unfold cleaned, dated.
  by rewrite has_column_titled, has_column_filled, Hpt.
Qed.

(** Running [prepare_data_with]: it ends as [prepare_data] does when the
    library gives a date column, and with the exception of the library or
    of the [.dt] accessor otherwise. *)
Lemma prepare_data_with_run σ r raw :
  σ !! r = Some raw →
  ∃ mid, prepare_data_with to_datetime_lib r σ
    = if has_column "publish_time" raw
      then match to_datetime_lib (cell "publish_time" <$> kept_rows raw) with
           | Ok (Dates ds) =>
               Ok (length (σ ++ mid), (σ ++ mid) ++ [cleaned (dates_for ds) raw])
           | Ok (Objects _) => Raise no_dt
           | Raise e => Raise e
           end
      else Ok (length (σ ++ mid), (σ ++ mid) ++ [cleaned (dates_for []) raw]).
Proof.
  intros Hr. unfold prepare_data_with.
  erewrite bind_run by by apply copy_run.
  rewrite (if_column_top "abstract" (fillna "abstract" (VStr ""))) by apply fillna_top.
  rewrite (if_column_top "authors" (fillna "authors" (VStr "Unknown"))) by apply fillna_top.
  rewrite (if_column_top "journal" (fillna "journal" (VStr "Unknown"))) by apply fillna_top.
  change (if has_column "journal" _ then _ else _) with (filled raw).
  erewrite bind_run by apply in_columns_top.
  assert (has_column "publish_time" (titled (filled raw)) = has_column "publish_time" raw)
    as Hpt by (by rewrite has_column_titled, has_column_filled).
  destruct (has_column "title" (filled raw)) eqn:Htitle.
  - erewrite bind_run; cycle 1.
    { erewrite bind_run by by apply getitem_top.
      apply getitem_mask_top. unfold series_notna, col. by rewrite !length_fmap. }
    rewrite series_notna_col.
    assert ({| columns := columns (filled raw);
               rows := List.filter has_title (rows (filled raw)) |}
            = titled (filled raw)) as -> by (unfold titled; by rewrite Htitle).
    exists [filled raw].
    rewrite (derived_columns_run (σ ++ [filled raw]) (titled (filled raw))).
    rewrite Hpt, col_publish_time_kept.
    destruct (has_column "publish_time" raw) eqn:Hraw; [by unfold cleaned|].
    by rewrite (cleaned_undated _ _ Hraw).
  - erewrite bind_run by reflexivity.
    assert (filled raw = titled (filled raw)) as Htitled
      by (unfold titled; by rewrite Htitle).
    exists []. rewrite app_nil_r. rewrite Htitled.
    rewrite (derived_columns_run σ (titled (filled raw))).
    rewrite Hpt, col_publish_time_kept.
    destruct (has_column "publish_time" raw) eqn:Hraw; [by unfold cleaned|].
    by rewrite (cleaned_undated _ _ Hraw).
Qed.

Lemma cleaned_table_with_run raw :
  cleaned_table_with to_datetime_lib raw
  = if has_column "publish_time" raw
    then match to_datetime_lib (cell "publish_time" <$> kept_rows raw) with
         | Ok (Dates ds) => Ok (cleaned (dates_for ds) raw)
         | Ok (Objects _) => Raise no_dt
         | Raise e => Raise e
         end
    else Ok (cleaned (dates_for []) raw).
Proof.
  unfold cleaned_table_with.
  destruct (prepare_data_with_run [raw] 0%nat raw) as [mid ->]; [done|].
  destruct (has_column "publish_time" raw).
  - destruct (to_datetime_lib (cell "publish_time" <$> kept_rows raw)) as [[ds|o]|e];
      [|done..]. by rewrite lookup_top.
  - by rewrite lookup_top.
Qed.

(** A run that ends with a table ends with the table that [prepare_data]
    builds with some parser of dates. *)
Lemma cleaned_table_with_ok raw df :
  cleaned_table_with to_datetime_lib raw = Ok df →
  ∃ parser, (∀ s, length (parser s) = length s) ∧ df = cleaned parser raw.
Proof.
  rewrite cleaned_table_with_run. destruct (has_column "publish_time" raw).
  - destruct (to_datetime_lib (cell "publish_time" <$> kept_rows raw)) as [[ds|o]|e];
      [|done..].
    intros Hdf. exists (dates_for ds). split; [apply dates_for_length|congruence].
  - intros Hdf. exists (dates_for []). split; [apply dates_for_length|congruence].
Qed.

(** C5. On a raw table with a publish_time column, cleaning ends as the
    date conversion of the library ends on the entries of the rows kept.
    When the library gives a date column, the cleaned table has a
    publication_year column; entry by entry, the year is the year of the
    parsed date when the entry is not missing and parses, and is missing
    otherwise.  When the library gives an object column, as it does before
    its version 3 for dates that do not share one UTC offset, cleaning
    raises AttributeError at the [.dt] accessor.  When the library raises,
    as it does from version 3 on for such dates, cleaning raises the same
    exception.  So there are publish_time values that stop the pipeline. *)
Theorem cleaning_year_or_exception raw :
  has_column "publish_time" raw = true →
  let entries := cell "publish_time" <$> kept_rows raw in
  match to_datetime_lib entries with
  | Ok (Dates ds) =>
      ∃ df, cleaned_table_with to_datetime_lib raw = Ok df
        ∧ has_column "publication_year" df = true
        ∧ key_num <$> col "publication_year" df = zip_with parsed_year entries ds
        ∧ Forall (λ y, key_num y = None → y = VNa) (col "publication_year" df)
        ∧ col "publish_time" df = zip_with date_cell entries ds
  | Ok (Objects _) =>
      cleaned_table_with to_datetime_lib raw
      = Raise (AttributeError "Can only use .dt accessor with datetimelike values")
  | Raise e => cleaned_table_with to_datetime_lib raw = Raise e
  end.
Proof.
  intros Hpt entries. subst entries. rewrite cleaned_table_with_run, Hpt.
  destruct (to_datetime_lib (cell "publish_time" <$> kept_rows raw))
    as [[ds|o]|e] eqn:Hlib; [|done..].
  pose proof (to_datetime_lib_length _ _ Hlib) as Hlen. cbn [converted_column] in Hlen.
  exists (cleaned (dates_for ds) raw). split; [done|].
  destruct (col_publication_year (dates_for ds) (dates_for_length ds) raw Hpt) as [Hd Hy].
  split; [|split; [|split]].
  - unfold cleaned.
    rewrite !has_column_counted, !has_column_dated, !has_column_titled,
      !has_column_filled, Hpt. eval_names.
    by rewrite !andb_false_r, !orb_false_r, orb_true_r.
  - rewrite Hy, key_num_years_of, key_num_coerce. unfold dates_for.
    apply zip_with_take_app. rewrite length_zip_with in Hlen. lia.
  - rewrite Hy. apply years_of_na.
  - rewrite Hd. by apply coerce_dates_for.
Qed.

End ConversionFacts.

(** ** The year filter and the dashboard *)

Lemma series_test_map test (g : value → bool) (s : Series) :
  Forall (λ x, test x = Ok (g x)) s → series_test test s = Ok (g <$> s).
Proof.
  induction 1 as [|x s Hx _ IH]; csimpl; [done|]. by rewrite Hx, IH.
Qed.

Lemma series_test_ok_yearlike n (s : Series) bs :
  series_test (ge_cell n) s = Ok bs → Forall yearlike s.
Proof.
  revert bs. induction s as [|x s IH]; intros bs; csimpl; [by constructor|].
  destruct x; simpl; try done;
    (destruct (series_test (ge_cell n) s) as [bs'|] eqn:Hs; simpl; [|done]);
    intros _; constructor; eauto; unfold yearlike; simpl; eauto.
Qed.

Lemma ge_cell_yearlike lo (s : Series) :
  Forall yearlike s →
  series_test (ge_cell lo) s
  = Ok ((λ y, from_option (λ n, lo <=? n) false (key_num y)) <$> s).
Proof.
  intros Hs. apply series_test_map. eapply Forall_impl; [exact Hs|].
  intros y [->|[n Hn]]; [done|]. by destruct y; simplify_eq/=.
Qed.

Lemma le_cell_yearlike hi (s : Series) :
  Forall yearlike s →
  series_test (le_cell hi) s
  = Ok ((λ y, from_option (λ n, n <=? hi) false (key_num y)) <$> s).
Proof.
  intros Hs. apply series_test_map. eapply Forall_impl; [exact Hs|].
  intros y [->|[n Hn]]; [done|]. by destruct y; simplify_eq/=.
Qed.

Lemma zip_with_fmap_both {A B C D} (h : B → C → D) (f : A → B) (g : A → C) (l : list A) :
  zip_with h (f <$> l) (g <$> l) = (λ x, h (f x) (g x)) <$> l.
Proof. induction l as [|x l IH]; csimpl; [done|]. by rewrite IH. Qed.

(** On a year column of numbers and missing entries the filter keeps the
    rows whose year is a number within the two bounds. *)
Lemma year_filter_yearlike lo hi df :
  has_column "publication_year" df = true →
  Forall yearlike (col "publication_year" df) →
  year_filter (lo, hi) df
  = Ok {| columns := columns df;
          rows := List.filter (λ r, in_years lo hi (cell "publication_year" r)) (rows df) |}.
Proof.
  intros Hc Hy. unfold year_filter, column_of. rewrite Hc. simpl.
  fold (col "publication_year" df).
  rewrite ge_cell_yearlike, le_cell_yearlike by done. simpl.
  rewrite zip_with_fmap_both. unfold col. rewrite <- list_fmap_compose.
  unfold select_rows. rewrite bool_decide_eq_true_2 by by rewrite length_fmap.
  do 2 f_equal. rewrite mask_rows_fmap. apply filter_ext.
  intros r. simpl. unfold in_years. by destruct (key_num _).
Qed.

Lemma yearlike_years_of dates : Forall yearlike (years_of dates).
Proof.
  unfold years_of. destruct (existsb isna dates);
    apply Forall_fmap, Forall_true; intros []; unfold yearlike; simpl; eauto.
Qed.


Lemma in_years_spec lo hi y :
  in_years lo hi y = true ↔ ∃ n, key_num y = Some n ∧ lo ≤ n ≤ hi.
Proof.
  unfold in_years. destruct (key_num y) as [n|].
  - rewrite andb_true_iff, !Z.leb_le. split.
    + intros Hn. by exists n.
    + by intros (m & [= <-] & Hm).
  - split; [done|]. by intros (m & [=] & _).
Qed.

Section YearFilter.

Variable to_datetime : Series → list (option Timestamp).
Hypothesis to_datetime_length : ∀ s, length (to_datetime s) = length s.


End YearFilter.

Lemma yearlike_lt a b :
  is_Some (key_num a) → is_Some (key_num b) → ∃ c, value_lt a b = Ok c.
Proof. intros [x Hx] [y Hy]. destruct a, b; simplify_eq/=; eauto. Qed.

Lemma least_num best (xs : Series) :
  is_Some (key_num best) → Forall (λ x, is_Some (key_num x)) xs →
  ∃ v, least best xs = Ok v ∧ is_Some (key_num v).
Proof.
  intros Hb Hxs. revert best Hb.
  induction Hxs as [|x xs Hx _ IH]; intros best Hb; simpl; [eauto|].
  destruct (yearlike_lt x best Hx Hb) as [c ->]. simpl.
  apply IH. by destruct c.
Qed.

Lemma greatest_num best (xs : Series) :
  is_Some (key_num best) → Forall (λ x, is_Some (key_num x)) xs →
  ∃ v, greatest best xs = Ok v ∧ is_Some (key_num v).
Proof.
  intros Hb Hxs. revert best Hb.
  induction Hxs as [|x xs Hx _ IH]; intros best Hb; simpl; [eauto|].
  destruct (yearlike_lt best x Hb Hx) as [c ->]. simpl.
  apply IH. by destruct c.
Qed.

Lemma filter_notna_yearlike (s : Series) :
  Forall yearlike s → Forall (λ x, is_Some (key_num x)) (List.filter notna s).
Proof.
  induction 1 as [|x s Hx _ IH]; simpl; [done|].
  destruct Hx as [->|Hx]; [done|].
  destruct x; try by destruct Hx. 
  all: simpl; by constructor.
Qed.

(** The smallest and the largest entry of a year column: a number, or
    missing when the column has no number. *)
Lemma series_min_yearlike (s : Series) :
  Forall yearlike s → ∃ v, series_min s = Ok v ∧ yearlike v.
Proof.
  intros Hs. apply filter_notna_yearlike in Hs. unfold series_min.
  destruct (List.filter notna s) as [|x xs]; [exists VNa; split; [done|by left]|].
  apply Forall_cons in Hs as [Hx Hxs].
  destruct (least_num x xs Hx Hxs) as (v & -> & Hv).
  exists v. split; [done|by right].
Qed.

Lemma series_max_yearlike (s : Series) :
  Forall yearlike s → ∃ v, series_max s = Ok v ∧ yearlike v.
Proof.
  intros Hs. apply filter_notna_yearlike in Hs. unfold series_max.
  destruct (List.filter notna s) as [|x xs]; [exists VNa; split; [done|by left]|].
  apply Forall_cons in Hs as [Hx Hxs].
  destruct (greatest_num x xs Hx Hxs) as (v & -> & Hv).
  exists v. split; [done|by right].
Qed.

Lemma py_int_num v n : key_num v = Some n → py_int v = Ok n.
Proof. by destruct v; intros [= <-]. Qed.

Lemma select_rows_empty mask df :
  rows df = [] → mask = [] → select_rows mask df = Ok {| columns := columns df; rows := [] |}.
Proof. intros Hr ->. unfold select_rows. by rewrite Hr. Qed.

Lemma sidebar_journals_empty ui view :
  rows view = [] →
  ∃ filtered, sidebar_journals ui view = Ok filtered
    ∧ columns filtered = columns view ∧ rows filtered = [].
Proof.
  intros Hrows. unfold sidebar_journals.
  destruct (has_column "journal" view) eqn:Hj; [|by exists view].
  destruct (selected_journals ui) as [|j js]; [by exists view|].
  unfold journal_filter, column_of. rewrite Hj. simpl.
  rewrite (select_rows_empty _ view) by by rewrite ?Hrows.
  by eexists.
Qed.

Lemma year_metric_empty filtered :
  has_column "publication_year" filtered = true →
  rows filtered = [] →
  year_metric filtered = Raise (ValueError "cannot convert float NaN to integer").
Proof.
  intros Hc Hrows. unfold year_metric, column_of. by rewrite Hc, Hrows.
Qed.

Lemma if_column_mean_empty filtered :
  rows filtered = [] →
  ∃ avg, if_column "abstract_word_count" filtered
           (s ← column_of "abstract_word_count" filtered; series_mean s) = Ok avg.
Proof.
  intros Hrows. unfold if_column, column_of.
  destruct (has_column "abstract_word_count" filtered); [|by eexists].
  rewrite Hrows. by eexists.
Qed.

Lemma year_filter_ok_yearlike bounds df view :
  has_column "publication_year" df = true →
  year_filter bounds df = Ok view →
  Forall yearlike (col "publication_year" df).
Proof.
  intros Hc Hview. unfold year_filter, column_of in Hview.
  rewrite Hc in Hview. simpl in Hview. fold (col "publication_year" df) in Hview.
  destruct (series_test (ge_cell bounds.1) (col "publication_year" df))
    as [bs|] eqn:Hge; [|done].
  by eapply series_test_ok_yearlike.
Qed.

(** The sidebar either stops at a year column with no year in it, or hands
    on the filtered frame. *)
Lemma sidebar_years_cases ui df view :
  has_column "publication_year" df = true →
  year_filter (year_range ui) df = Ok view →
  sidebar_years ui df = Raise (ValueError "cannot convert float NaN to integer")
  ∨ ∃ bounds, sidebar_years ui df = Ok (bounds, view).
Proof.
  intros Hc Hview.
  pose proof (year_filter_ok_yearlike _ _ _ Hc Hview) as Hy.
  unfold sidebar_years, column_of. rewrite Hc. simpl.
  fold (col "publication_year" df).
  destruct (series_min_yearlike _ Hy) as (v & -> & [->|[lo Hlo]]); simpl;
    [by left|].
  rewrite (py_int_num _ _ Hlo). simpl.
  destruct (series_max_yearlike _ Hy) as (w & -> & [->|[hi Hhi]]); simpl;
    [by left|].
  rewrite (py_int_num _ _ Hhi). simpl. rewrite Hview. simpl. right. by eexists.
Qed.

Lemma if_column_raise {A} c df (body : result A) e :
  has_column c df = true → body = Raise e → if_column c df body = Raise e.
Proof. intros Hc ->. unfold if_column. by rewrite Hc. Qed.

(** On a view with no row the counts by year, the ranking of journals and
    the ranking of words are empty; what fails is the conversion of the
    smallest year to an integer, and the unpacking of the word ranking into
    words and counts. *)
Lemma aggregations_on_empty_view n df :
  rows df = [] →
  (has_column "publication_year" df = true →
     papers_by_year df = Ok []
     ∧ year_metric df = Raise (ValueError "cannot convert float NaN to integer"))
  ∧ (has_column "journal" df = true → top_journals n df = Ok [])
  ∧ (has_column "title" df = true →
       top_words n df = Ok []
       ∧ word_analysis n df
         = Raise (ValueError "not enough values to unpack (expected 2, got 0)")).
Proof.
  intros Hrows. split; [|split].
  - intros Hc. split; [|by apply year_metric_empty].
    unfold papers_by_year, column_of. by rewrite Hc, Hrows.
  - intros Hc. unfold top_journals, column_of. rewrite Hc, Hrows.
    by destruct n.
  - intros Hc.
    assert (top_words n df = Ok []) as Htop.
    { unfold top_words, column_of. rewrite Hc, Hrows. by destruct n. }
    split; [done|]. unfold word_analysis. by rewrite Htop.
Qed.

(** C7. When the year filter leaves no row, the run of the dashboard does
    not show empty results: it ends with the exception that [int] raises on
    NaN, the minimum of an empty year column. *)
Theorem dashboard_fails_on_empty_view ui df view :
  has_column "publication_year" df = true →
  year_filter (year_range ui) df = Ok view →
  rows view = [] →
  dashboard ui df = Raise (ValueError "cannot convert float NaN to integer").
Proof.
  intros Hc Hview Hrows.
  pose proof (year_filter_ok_yearlike _ _ _ Hc Hview) as Hy.
  assert (columns view = columns df) as Hcols.
  { destruct (year_range ui) as [lo hi].
    rewrite year_filter_yearlike in Hview by done. by injection Hview as <-. }
  unfold dashboard.
  destruct (sidebar_years_cases ui df view Hc Hview) as [->|[bounds ->]]; [done|].
  simpl.
  destruct (sidebar_journals_empty ui view Hrows) as (filtered & -> & Hfc & Hfr). simpl.
  destruct (if_column_mean_empty filtered Hfr) as [avg ->]. simpl.
  assert (has_column "publication_year" filtered = true) as Hfy.
  { unfold has_column. by rewrite Hfc, Hcols. }
  by rewrite (if_column_raise "publication_year" filtered _ _ Hfy
                (year_metric_empty filtered Hfy Hfr)).
Qed.

(** ** Counting and ranking *)

Lemma StronglySorted_weaken {A} (R R' : A → A → Prop) (l : list A) :
  (∀ a b, a ∈ l → b ∈ l → R a b → R' a b) →
  StronglySorted R l → StronglySorted R' l.
Proof.
  intros Himp Hl. induction Hl as [|a l Hl IH Ha]; [constructor|].
  constructor.
  - apply IH. intros x y Hx Hy. apply Himp; by right.
  - apply Forall_forall. intros b Hb. rewrite Forall_forall in Ha.
    apply Himp; [by left|by right|by apply Ha].
Qed.

Lemma StronglySorted_fmap {A B} (f : A → B) (R : B → B → Prop) (l : list A) :
  StronglySorted R (f <$> l) ↔ StronglySorted (λ a b, R (f a) (f b)) l.
Proof.
  induction l as [|a l IH]; csimpl.
  - split; constructor.
  - rewrite !StronglySorted_cons, IH, Forall_fmap. done.
Qed.

Section CountingFacts.
Context {K : Type} `{EqDecision K}.

Implicit Types (k x : K) (l : list K) (c : list (K * nat)).

Lemma occurrences_snoc l x k :
  occurrences (l ++ [x]) k
  = (occurrences l k + if decide (k = x) then 1 else 0)%nat.
Proof.
  unfold occurrences. rewrite List.filter_app, length_app. simpl.
  destruct (decide (k = x)) as [->|Hne].
  - by rewrite bool_decide_eq_true_2.
  - by rewrite bool_decide_eq_false_2.
Qed.

Lemma occurrences_pos l k : k ∈ l ↔ (0 < occurrences l k)%nat.
Proof.
  unfold occurrences. induction l as [|x l IH]; simpl.
  - rewrite elem_of_nil. lia.
  - rewrite elem_of_cons, IH. case_bool_decide as Hx; simpl.
    + split; [lia|]. by left.
    + split; [|by right]. intros [->|?]; done.
Qed.

Lemma first_index_app_l k l l' :
  k ∈ l → first_index k (l ++ l') = first_index k l.
Proof.
  induction l as [|x l IH]; simpl; [by intros ?%elem_of_nil|].
  intros Hk. destruct (decide (x = k)); [done|].
  apply elem_of_cons in Hk as [->|Hk]; [done|]. by rewrite IH.
Qed.

Lemma first_index_lt k l : k ∈ l → (first_index k l < length l)%nat.
Proof.
  induction l as [|x l IH]; simpl; [by intros ?%elem_of_nil|].
  intros Hk. destruct (decide (x = k)); [lia|].
  apply elem_of_cons in Hk as [->|Hk]; [done|]. apply IH in Hk. lia.
Qed.

Lemma first_index_snoc_new k l :
  k ∉ l → first_index k (l ++ [k]) = length l.
Proof.
  induction l as [|x l IH]; simpl; intros Hk.
  - by rewrite decide_True.
  - rewrite not_elem_of_cons in Hk. destruct Hk as [Hne Hk].
    rewrite decide_False by done. by rewrite IH.
Qed.

Lemma firsts_snoc l x :
  firsts (l ++ [x])
  = if decide (x ∈ firsts l) then firsts l else firsts l ++ [x].
Proof. unfold firsts. by rewrite foldl_snoc. Qed.

Lemma elem_of_firsts l k : k ∈ firsts l ↔ k ∈ l.
Proof.
  induction l as [|x l IH] using rev_ind; [done|].
  rewrite firsts_snoc, elem_of_app, list_elem_of_singleton.
  destruct (decide (x ∈ firsts l)) as [Hx|Hx].
  - rewrite IH. split; [by left|]. intros [?| ->]; [done|]. by apply IH.
  - by rewrite elem_of_app, list_elem_of_singleton, IH.
Qed.

Lemma NoDup_firsts l : NoDup (firsts l).
Proof.
  induction l as [|x l IH] using rev_ind; [constructor|].
  rewrite firsts_snoc. destruct (decide (x ∈ firsts l)) as [Hx|Hx]; [done|].
  apply NoDup_app. split; [done|]. split; [|apply NoDup_singleton].
  intros k Hk ->%list_elem_of_singleton. done.
Qed.

Lemma firsts_sorted l :
  StronglySorted (λ a b, first_index a l < first_index b l)%nat (firsts l).
Proof.
  induction l as [|x l IH] using rev_ind; [constructor|].
  rewrite firsts_snoc.
  assert (StronglySorted
            (λ a b, first_index a (l ++ [x]) < first_index b (l ++ [x]))%nat
            (firsts l)) as Hold.
  { eapply StronglySorted_weaken; [|exact IH].
    intros a b Ha Hb Hab. simpl in Hab.
    apply (proj1 (elem_of_firsts _ _)) in Ha, Hb.
    by rewrite !first_index_app_l by done. }
  destruct (decide (x ∈ firsts l)) as [Hx|Hx]; [done|].
  apply StronglySorted_app. split; [|split; [done|repeat constructor]].
  intros a b Ha ->%list_elem_of_singleton.
  apply (proj1 (elem_of_firsts _ _)) in Ha.
  rewrite elem_of_firsts in Hx.
  rewrite first_index_app_l, first_index_snoc_new by done.
  by apply first_index_lt.
Qed.

Lemma Counter_snoc l x : Counter (l ++ [x]) = bump x (Counter l).
Proof. unfold Counter. by rewrite foldl_snoc. Qed.

Lemma bump_fmap x (f : K → nat) (F : list K) :
  NoDup F →
  bump x ((λ k, (k, f k)) <$> F)
  = if decide (x ∈ F)
    then (λ k, (k, if decide (k = x) then S (f k) else f k)) <$> F
    else ((λ k, (k, f k)) <$> F) ++ [(x, 1%nat)].
Proof.
  induction 1 as [|k F Hk HF IH]; csimpl.
  { done. }
  destruct (decide (x = k)) as [->|Hne].
  - rewrite decide_True by by left. rewrite decide_True by done. f_equal.
    apply list_fmap_ext. intros i k' Hk'. rewrite decide_False; [done|].
    intros ->. apply Hk. by eapply list_elem_of_lookup_2.
  - rewrite IH. rewrite (decide_False (P := k = x)) by done.
    destruct (decide (x ∈ F)) as [Hx|Hx].
    + rewrite decide_True by by right. done.
    + rewrite decide_False; [done|]. rewrite elem_of_cons. tauto.
Qed.

(** The counter of a list: each distinct key with the number of its
    occurrences, in the order of the first occurrences. *)
Lemma Counter_firsts l :
  Counter l = (λ k, (k, occurrences l k)) <$> firsts l.
Proof.
  induction l as [|x l IH] using rev_ind; [done|].
  rewrite Counter_snoc, IH, bump_fmap, firsts_snoc by apply NoDup_firsts.
  destruct (decide (x ∈ firsts l)) as [Hx|Hx].
  - apply list_fmap_ext. intros i k _. rewrite occurrences_snoc.
    destruct (decide (k = x)); f_equal; lia.
  - rewrite fmap_app. csimpl. f_equal.
    + apply list_fmap_ext. intros i k Hk. rewrite occurrences_snoc.
      rewrite decide_False; [f_equal; lia|].
      intros ->. apply Hx. by eapply list_elem_of_lookup_2.
    + rewrite occurrences_snoc, decide_True by done.
      rewrite elem_of_firsts, occurrences_pos in Hx. do 2 f_equal. lia.
Qed.

End CountingFacts.

Section RankingFacts.
Context {K : Type} `{EqDecision K}.

Implicit Types (x y : K * nat) (c : list (K * nat)).

Lemma insert_desc_perm x c : insert_desc x c ≡ₚ x :: c.
Proof.
  induction c as [|y c IH]; simpl; [done|].
  destruct (y.2 <=? x.2)%nat; [done|]. rewrite IH. apply Permutation_swap.
Qed.

Lemma sort_desc_perm c : sort_desc c ≡ₚ c.
Proof.
  induction c as [|x c IH]; simpl; [done|].
  fold (sort_desc c). by rewrite insert_desc_perm, IH.
Qed.

Lemma insert_desc_sorted R x c :
  StronglySorted (ranks_before R) c →
  Forall (R x) c →
  StronglySorted (ranks_before R) (insert_desc x c).
Proof.
  induction 1 as [|y c Hc IH Hy]; intros Hx; simpl.
  { repeat constructor. }
  apply Forall_cons in Hx as [Hxy Hx].
  destruct (y.2 <=? x.2)%nat eqn:Hle.
  - apply Nat.leb_le in Hle. constructor; [by constructor|].
    constructor.
    + unfold ranks_before. destruct (decide (y.2 = x.2)); [right|left]; [done|lia].
    + rewrite Forall_forall in Hy, Hx. apply Forall_forall. intros z Hz.
      specialize (Hy z Hz). specialize (Hx z Hz). unfold ranks_before in *.
      destruct (decide (z.2 = x.2)); [right|left]; [done|lia].
  - apply Nat.leb_gt in Hle. constructor; [by apply IH|].
    rewrite insert_desc_perm. constructor; [|done].
    left. lia.
Qed.

(** The sort is stable: entries come out by decreasing count, and entries
    with the same count in the order they came in. *)
Lemma sort_desc_sorted R c :
  StronglySorted R c → StronglySorted (ranks_before R) (sort_desc c).
Proof.
  induction 1 as [|x c Hc IH Hx]; simpl; [constructor|].
  fold (sort_desc c). apply insert_desc_sorted; [done|].
  by rewrite sort_desc_perm.
Qed.

Lemma sorted_take_drop (R : K * nat → K * nat → Prop) n c x y :
  StronglySorted R c → x ∈ take n c → y ∈ drop n c → R x y.
Proof.
  intros Hc Hx Hy. rewrite <- (take_drop n c) in Hc.
  by eapply StronglySorted_app_1_elem_of.
Qed.

End RankingFacts.

Section TallyFacts.
Context {K : Type} `{EqDecision K}.

Implicit Types (l : list K) (c : list (K * nat)).

Lemma Counter_tallies l : tallies l (Counter l).
Proof.
  rewrite Counter_firsts. split.
  - rewrite <- list_fmap_compose. simpl. rewrite list_fmap_id. apply NoDup_firsts.
  - intros k n. rewrite list_elem_of_fmap. split.
    + intros (k' & [= -> ->] & Hk). by rewrite elem_of_firsts in Hk.
    + intros [Hk ->]. exists k. by rewrite elem_of_firsts.
Qed.

Lemma tallies_perm l c c' : c ≡ₚ c' → tallies l c → tallies l c'.
Proof.
  intros Hp [Hnd Hin]. split.
  - by rewrite <- Hp.
  - intros k n. by rewrite <- Hp.
Qed.

Lemma sort_desc_Counter l :
  tallies l (sort_desc (Counter l)) ∧ ranked l (sort_desc (Counter l)).
Proof.
  split.
  - eapply tallies_perm; [symmetry; apply sort_desc_perm|apply Counter_tallies].
  - apply sort_desc_sorted. rewrite Counter_firsts.
    apply StronglySorted_fmap. simpl. apply firsts_sorted.
Qed.

End TallyFacts.

Lemma keep_word_spec w :
  keep_word w = true ↔ py_isalpha w = true ∧ 3 < py_len w ∧ w ∉ stop_words.
Proof.
  unfold keep_word.
  rewrite !andb_true_iff, Z.ltb_lt, negb_true_iff, bool_decide_eq_false. tauto.
Qed.

(** C3. On a frame with a title column, [top_words n] returns the first [n]
    entries of a ranking of the kept words, where the kept words are the
    tokens of the lower-cased titles joined by spaces (split at white space)
    that are alphabetic, longer than 3 and not stop words.  The ranking
    holds every distinct kept word once with the number of its occurrences,
    by decreasing count, and among equal counts in the order of first
    occurrence; so no word left out has a larger count than a word
    returned.  On the two titles of the example the result is spread 2,
    patterns 1, dynamics 1: novel and coronavirus are stop words. *)
Theorem top_words_ranked n df :
  has_column "title" df = true →
  ∃ ranking,
    top_words n df = Ok (take n ranking)
    ∧ (∀ w, w ∈ title_words (col "title" df) ↔
            w ∈ py_split (py_lower (py_join " " (py_str <$> col "title" df)))
            ∧ py_isalpha w = true ∧ 3 < py_len w ∧ w ∉ stop_words)
    ∧ tallies (title_words (col "title" df)) ranking
    ∧ ranked (title_words (col "title" df)) ranking
    ∧ (∀ x y, x ∈ take n ranking → y ∈ drop n ranking → (y.2 ≤ x.2)%nat)
    ∧ top_words 20 sample_titles
      = Ok [("spread", 2%nat); ("patterns", 1%nat); ("dynamics", 1%nat)]
    ∧ "novel" ∈ stop_words ∧ "coronavirus" ∈ stop_words.
Proof.
  intros Htitle.
  destruct (sort_desc_Counter (title_words (col "title" df))) as [Htally Hrank].
  exists (sort_desc (Counter (title_words (col "title" df)))).
  split; [|split; [|split; [done|split; [done|split; [|split; [|split]]]]]].
  - unfold top_words, column_of. by rewrite Htitle.
  - intros w. unfold title_words, all_titles.
    by rewrite list_elem_of_In, filter_In, <- list_elem_of_In, keep_word_spec.
  - intros x y Hx Hy.
    pose proof (sorted_take_drop _ n _ x y Hrank Hx Hy) as [Hlt|[Heq _]]; lia.
  - by vm_compute.
  - by_decision.
  - by_decision.
Qed.

Global Instance num_le_total : Total num_le.
Proof. intros x y. unfold num_le. lia. Qed.

Global Instance num_le_trans : Transitive num_le.
Proof. intros x y z. unfold num_le. lia. Qed.

Lemma StronglySorted_NoDup {A B} `{EqDecision B} (f : A → B) (R : A → A → Prop) (l : list A) :
  StronglySorted R l → NoDup (f <$> l) →
  StronglySorted (λ a b, R a b ∧ f a ≠ f b) l.
Proof.
  induction 1 as [|a l Hl IH Ha]; csimpl; intros Hnd; [constructor|].
  apply NoDup_cons in Hnd as [Hnotin Hnd].
  constructor; [by apply IH|].
  rewrite Forall_forall in Ha. apply Forall_forall. intros b Hb.
  split; [by apply Ha|]. intros Heq. apply Hnotin. rewrite Heq.
  by apply list_elem_of_fmap_2.
Qed.

Lemma value_counts_tallies (s : Series) :
  tallies (List.filter notna s) (value_counts s)
  ∧ StronglySorted (λ x y, (y.2 ≤ x.2)%nat) (value_counts s).
Proof.
  unfold value_counts.
  destruct (sort_desc_Counter (List.filter notna s)) as [Ht Hr].
  split; [done|]. eapply StronglySorted_weaken; [|exact Hr].
  intros a b _ _ [Hlt|[Heq _]]; lia.
Qed.

Lemma sort_index_years (s : Series) :
  year_column s →
  ∃ counts, sort_index (value_counts s) = Ok counts
    ∧ tallies (List.filter notna s) counts
    ∧ StronglySorted year_before counts.
Proof.
  intros Hs. destruct (value_counts_tallies s) as [[Hnd Hin] _].
  assert (∀ x, x ∈ value_counts s → x.1 ∈ s ∧ notna x.1 = true) as Hkeys.
  { intros [k n] [Hk _]%Hin. by apply list_elem_of_In, filter_In in Hk as [?%list_elem_of_In ?]. }
  assert (forallb (λ p, is_num p.1) (value_counts s) = true) as Hnum.
  { apply forallb_forall. intros x [Hx Hna]%list_elem_of_In%Hkeys.
    unfold is_num. apply bool_decide_eq_true.
    destruct Hs as [Hs|Hs]; rewrite Forall_forall in Hs;
      destruct (Hs _ Hx) as [Hv|[m Hv]]; rewrite Hv in *; by eauto. }
  exists (merge_sort num_le (value_counts s)).
  unfold sort_index. rewrite Hnum. split; [done|].
  pose proof (merge_sort_Permutation num_le (value_counts s)) as Hperm.
  split.
  { eapply tallies_perm; [symmetry; exact Hperm|]. by split. }
  assert (NoDup ((merge_sort num_le (value_counts s)).*1)) as Hnd'
    by by rewrite Hperm.
  pose proof (StronglySorted_NoDup fst _ _
                (StronglySorted_merge_sort num_le (value_counts s)) Hnd') as Hsorted.
  eapply StronglySorted_weaken; [|exact Hsorted].
  intros a b Ha Hb [Hle Hne]. simpl in Hle, Hne.
  rewrite Hperm in Ha, Hb.
  destruct (Hkeys _ Ha) as [Has Hana], (Hkeys _ Hb) as [Hbs Hbna].
  unfold year_before, num_le in *.
  destruct Hs as [Hs|Hs]; rewrite Forall_forall in Hs;
    destruct (Hs _ Has) as [Hva|[x Hva]], (Hs _ Hbs) as [Hvb|[y Hvb]];
    rewrite ?Hva, ?Hvb in *; try done;
    exists x, y; (split; [done|split; [done|]]); simpl in Hle;
    assert (x ≠ y) by congruence; lia.
Qed.

Lemma year_column_years_of dates : year_column (years_of dates).
Proof.
  unfold year_column, years_of. destruct (existsb isna dates); [right|left];
    apply Forall_fmap, Forall_true; intros []; simpl; eauto.
Qed.

(** C4. Counting the publication-year column gives, for a year column, one
    entry for each year that occurs with the number of rows that have it,
    in ascending order of the year; on the years 2020, 2020, 2021 it gives
    2020 with 2 and 2021 with 1.  The ranking of journals gives the first
    [n] entries of the tally of the journal column sorted by decreasing
    count, so no journal left out has a larger count than one returned. *)
Theorem count_by_orders n df :
  (has_column "publication_year" df = true →
   year_column (col "publication_year" df) →
   ∃ counts, papers_by_year df = Ok counts
     ∧ tallies (List.filter notna (col "publication_year" df)) counts
     ∧ StronglySorted year_before counts)
  ∧ (has_column "journal" df = true →
     ∃ ranking, top_journals n df = Ok (take n ranking)
       ∧ tallies (List.filter notna (col "journal" df)) ranking
       ∧ StronglySorted (λ x y, (y.2 ≤ x.2)%nat) ranking
       ∧ (length (take n ranking) ≤ n)%nat
       ∧ ∀ x y, x ∈ take n ranking → y ∈ drop n ranking → (y.2 ≤ x.2)%nat)
  ∧ papers_by_year sample_years = Ok [(VInt 2020, 2%nat); (VInt 2021, 1%nat)].
Proof.
  split; [|split].
  - intros Hc Hy. unfold papers_by_year, column_of. rewrite Hc. simpl.
    by apply sort_index_years.
  - intros Hc. exists (value_counts (col "journal" df)).
    destruct (value_counts_tallies (col "journal" df)) as [Ht Hs].
    split; [|split; [done|split; [done|split]]].
    + unfold top_journals, column_of. by rewrite Hc.
    + rewrite length_take. lia.
    + intros x y Hx Hy.
      exact (sorted_take_drop _ n _ x y Hs Hx Hy).
  - by vm_compute.
Qed.

(** ** Writing and reading back *)

Lemma result_fmap_nil {A} (m : result (list A)) : ([] ++.) <$> m = m.
Proof. by destruct m. Qed.

Lemma special_false c :
  special c = false →
  is_char comma c = false ∧ is_char dquote c = false
  ∧ is_char LF c = false ∧ is_char CR c = false.
Proof. unfold special. rewrite !orb_false_iff. tauto. Qed.

Lemma in_field_plain st f r c :
  special c = false → in_field (mk st f r) c = (mk IN_FIELD (f +:+ String c EmptyString) r, []).
Proof.
  intros (Hc & Hq & Hl & Hr)%special_false. unfold in_field. by rewrite Hl, Hr, Hc.
Qed.

Lemma snoc_app (f : string) c (s : string) :
  (f +:+ String c EmptyString) +:+ s = f +:+ String c s.
Proof. by rewrite app_assoc_string. Qed.

(** A run of plain characters inside a field. *)
Lemma tokenize_plain s f r rest :
  needs_quotes s = false →
  tokenize (mk IN_FIELD f r) (s +:+ rest) = tokenize (mk IN_FIELD (f +:+ s) r) rest.
Proof.
  revert f. induction s as [|c s IH]; intros f Hs.
  - by rewrite app_empty_l, app_empty_r.
  - simpl in Hs. apply orb_false_iff in Hs as [Hc Hs].
    rewrite app_String. simpl. unfold step. simpl.
    rewrite in_field_plain by done. rewrite result_fmap_nil, IH by done.
    by rewrite snoc_app.
Qed.

(** The inside of a quoted field, up to the closing quote. *)
Lemma tokenize_quoted s f r rest :
  tokenize (mk IN_QUOTED_FIELD f r) (double_quotes s +:+ String dquote rest)
  = tokenize (mk QUOTE_IN_QUOTED_FIELD (f +:+ s) r) rest.
Proof.
  revert f. induction s as [|c s IH]; intros f.
  - rewrite app_empty_l, app_empty_r. simpl. unfold step. simpl.
    by rewrite result_fmap_nil.
  - simpl. destruct (is_char dquote c) eqn:Hc.
    + apply bool_decide_eq_true in Hc as ->.
      rewrite !app_String. simpl. unfold step. simpl.
      rewrite !result_fmap_nil. unfold push. simpl. fold (mk IN_QUOTED_FIELD (f +:+ String dquote EmptyString) r).
      by rewrite IH, snoc_app.
    + rewrite app_String. simpl. unfold step. simpl. rewrite Hc.
      rewrite result_fmap_nil. unfold push. simpl.
      fold (mk IN_QUOTED_FIELD (f +:+ String c EmptyString) r).
      by rewrite IH, snoc_app.
Qed.

(** A field and the comma after it. *)
Lemma tokenize_field_comma f r rest :
  tokenize (mk START_FIELD EmptyString r) (csv_field f +:+ String comma rest)
  = tokenize (mk START_FIELD EmptyString (r ++ [f])) rest.
Proof.
  unfold csv_field. destruct (needs_quotes f) eqn:Hq.
  - unfold quoted. rewrite app_String, app_assoc_string, app_String, app_empty_l.
    simpl. unfold step. simpl. rewrite result_fmap_nil.
    fold (mk IN_QUOTED_FIELD EmptyString r).
    rewrite tokenize_quoted, app_empty_l. simpl. unfold step. simpl.
    by rewrite result_fmap_nil.
  - destruct f as [|c f].
    + rewrite app_empty_l. simpl. unfold step. simpl. by rewrite result_fmap_nil.
    + simpl in Hq. apply orb_false_iff in Hq as [Hc Hq].
      rewrite app_String. simpl. unfold step, start_field. simpl.
      destruct (special_false c Hc) as (_ & -> & _ & _).
      rewrite in_field_plain by done. rewrite result_fmap_nil, app_empty_l.
      rewrite tokenize_plain by done. simpl. unfold step. simpl.
      by rewrite result_fmap_nil.
Qed.

(** The last field of a record and the line feed after it. *)
Lemma tokenize_field_LF f r rest :
  tokenize (mk START_FIELD EmptyString r) (csv_field f +:+ String LF rest)
  = ([r ++ [f]] ++.) <$> tokenize fresh rest.
Proof.
  unfold csv_field. destruct (needs_quotes f) eqn:Hq.
  - unfold quoted. rewrite app_String, app_assoc_string, app_String, app_empty_l.
    simpl. unfold step. simpl. rewrite result_fmap_nil.
    fold (mk IN_QUOTED_FIELD EmptyString r).
    by rewrite tokenize_quoted, app_empty_l.
  - destruct f as [|c f].
    + by rewrite app_empty_l.
    + simpl in Hq. apply orb_false_iff in Hq as [Hc Hq].
      rewrite app_String. simpl. unfold step, start_field. simpl.
      destruct (special_false c Hc) as (_ & -> & _ & _).
      rewrite in_field_plain by done. rewrite result_fmap_nil, app_empty_l.
      by rewrite tokenize_plain by done.
Qed.

(** The fields of a record, read from the start of a field. *)
Lemma tokenize_fields fs r rest :
  fs ≠ [] →
  tokenize (mk START_FIELD EmptyString r)
    (csv_join (csv_field <$> fs) +:+ String LF rest)
  = ([r ++ fs] ++.) <$> tokenize fresh rest.
Proof.
  revert r. induction fs as [|f fs IH]; intros r Hfs; [done|].
  destruct fs as [|f' fs].
  - csimpl. apply tokenize_field_LF.
  - change (csv_join (csv_field <$> f :: f' :: fs))
      with (csv_field f +:+ String comma (csv_join (csv_field <$> f' :: fs))).
    rewrite app_assoc_string, app_String, tokenize_field_comma, IH by done.
    by rewrite <- app_assoc.
Qed.

(** A line that starts with spaces or tabs is read as a field as soon as
    something else comes before its end. *)
Lemma tokenize_whitespace_line s f r d rest :
  needs_quotes s = false →
  d = comma ∨ (d = LF ∧ all_chars is_blank s = false) →
  tokenize (mk WHITESPACE_LINE f r) (s +:+ String d rest)
  = tokenize (mk IN_FIELD f r) (s +:+ String d rest).
Proof.
  revert f. induction s as [|c s IH]; intros f Hs Hd.
  - destruct Hd as [->|[_ ?]]; [|done]. by rewrite app_empty_l.
  - simpl in Hs. apply orb_false_iff in Hs as [Hc Hs].
    rewrite app_String. simpl. unfold step. simpl.
    destruct (special_false c Hc) as (_ & _ & Hl & Hr). rewrite Hl, Hr.
    destruct (is_blank c) eqn:Hb; [|done].
    rewrite in_field_plain by done. rewrite !result_fmap_nil.
    unfold push. simpl. apply IH; [done|].
    destruct Hd as [->|[-> Hall]]; [by left|right].
    split; [done|]. simpl in Hall. by rewrite Hb in Hall.
Qed.

(** The first field of a line is read as a field. *)
Lemma tokenize_start_record fs rest :
  blank_record fs = false → fs ≠ [EmptyString] →
  tokenize fresh (csv_join (csv_field <$> fs) +:+ String LF rest)
  = tokenize (mk START_FIELD EmptyString [])
      (csv_join (csv_field <$> fs) +:+ String LF rest).
Proof.
  intros Hblank Hne. destruct fs as [|f fs]; [done|].
  assert (∃ d tail,
            csv_join (csv_field <$> f :: fs) +:+ String LF rest
            = csv_field f +:+ String d tail
            ∧ (d = comma ∨ (d = LF ∧ fs = []))) as (d & tail & -> & Hd).
  { destruct fs as [|f' fs].
    - exists LF, rest. split; [done|]. by right.
    - exists comma, (csv_join (csv_field <$> f' :: fs) +:+ String LF rest).
      split; [|by left].
      change (csv_join (csv_field <$> f :: f' :: fs))
        with (csv_field f +:+ String comma (csv_join (csv_field <$> f' :: fs))).
      by rewrite app_assoc_string, app_String. }
  unfold csv_field. destruct (needs_quotes f) eqn:Hq.
  { unfold quoted. by rewrite app_String. }
  destruct f as [|c f].
  { rewrite app_empty_l. destruct Hd as [->|[-> ->]]; done. }
  simpl in Hq. apply orb_false_iff in Hq as [Hc Hq].
  rewrite app_String. simpl. unfold step. simpl. unfold start_record, start_field.
  destruct (special_false c Hc) as (_ & -> & -> & ->).
  destruct (is_blank c) eqn:Hb; [|done].
  rewrite !in_field_plain by done. rewrite !result_fmap_nil.
  unfold push. simpl. apply tokenize_whitespace_line; [done|].
  destruct Hd as [->|[-> ->]]; [by left|right].
  split; [done|]. simpl in Hblank. by rewrite Hb in Hblank.
Qed.

(** One record and the records after it. *)
Lemma tokenize_record fs rest :
  blank_record fs = false →
  tokenize fresh (csv_record fs +:+ rest) = ([fs] ++.) <$> tokenize fresh rest.
Proof.
  intros Hblank. unfold csv_record.
  destruct (decide (fs = [EmptyString])) as [->|Hne].
  { change ((quoted EmptyString +:+ String LF EmptyString) +:+ rest)
      with (String dquote (String dquote (String LF rest))).
    simpl. unfold step. simpl. by rewrite !result_fmap_nil. }
  assert ((match fs with
           | [EmptyString] => quoted EmptyString
           | _ => csv_join (csv_field <$> fs)
           end) = csv_join (csv_field <$> fs)) as ->.
  { destruct fs as [|[|c f] [|f' fs]]; done. }
  rewrite app_assoc_string, app_String, app_empty_l.
  rewrite tokenize_start_record by done.
  rewrite tokenize_fields; [done|]. by intros ->.
Qed.

(** A file of records that the reader sees is read back as it was
    written. *)
Lemma tokenize_csv_lines records :
  Forall (λ fs, blank_record fs = false) records →
  tokenize fresh (csv_lines records) = Ok records.
Proof.
  induction 1 as [|fs records Hfs _ IH]; [done|].
  simpl. by rewrite tokenize_record, IH.
Qed.

Lemma length_export_fields cols r : length (export_fields cols r) = length cols.
Proof. apply length_fmap. Qed.

(** A record of two fields or more is never a blank line. *)
Lemma export_two_columns cols r :
  (1 < length cols)%nat → blank_record (export_fields cols r) = false.
Proof. destruct cols as [|c [|c' cols]]; simpl; intros; [lia|lia|done]. Qed.

Lemma display_cols_available filtered c :
  c ∈ display_cols filtered → c ∈ available_cols.
Proof.
  unfold display_cols. rewrite !list_elem_of_In, filter_In. tauto.
Qed.

Lemma NoDup_display_cols filtered : NoDup (display_cols filtered).
Proof.
  apply NoDup_ListNoDup, List.NoDup_filter, NoDup_ListNoDup. by_decision.
Qed.

Lemma display_cols_named filtered :
  Forall (λ c, c ≠ EmptyString) (display_cols filtered).
Proof.
  apply Forall_forall. intros c Hc%display_cols_available.
  unfold available_cols in Hc. rewrite !elem_of_cons, elem_of_nil in Hc.
  intros ->. repeat destruct Hc as [Hc|Hc]; done.
Qed.

Lemma display_cols_not_blank filtered :
  display_cols filtered ≠ [] → blank_record (display_cols filtered) = false.
Proof.
  intros Hne.
  destruct (display_cols filtered) as [|c [|c' cols]] eqn:Hcols; [done| |done].
  assert (c ∈ available_cols) as Hc.
  { apply (display_cols_available filtered). rewrite Hcols. by left. }
  unfold available_cols in Hc. rewrite !elem_of_cons, elem_of_nil in Hc.
  repeat destruct Hc as [->|Hc]; done.
Qed.

(** *** The two writers *)

Lemma needs_quotes_for_eq quote_cr s :
  quote_cr = true ∨ no_cr s = true → needs_quotes_for quote_cr s = needs_quotes s.
Proof.
  intros Hcr. induction s as [|c s IH]; [done|].
  cbn [needs_quotes_for needs_quotes]. unfold special_for, special.
  destruct Hcr as [->|Hcr].
  - by rewrite IH by by left.
  - unfold no_cr in Hcr. cbn [all_chars] in Hcr.
    apply andb_true_iff in Hcr as [Hc Hs]. apply negb_true_iff in Hc.
    rewrite Hc, andb_false_r, IH by by right. done.
Qed.

Lemma csv_record_for_eq quote_cr fs :
  quote_cr = true ∨ forallb no_cr fs = true → csv_record_for quote_cr fs = csv_record fs.
Proof.
  intros Hcr. unfold csv_record_for, csv_record.
  assert (csv_field_for quote_cr <$> fs = csv_field <$> fs) as ->; [|done].
  apply Forall_fmap_ext, Forall_forall. intros f Hf%list_elem_of_In.
  unfold csv_field_for, csv_field. rewrite needs_quotes_for_eq; [done|].
  destruct Hcr as [->|Hcr]; [by left|right].
  by apply (proj1 (forallb_forall _ _) Hcr).
Qed.

Lemma csv_lines_for_eq quote_cr records :
  quote_cr = true ∨ forallb (forallb no_cr) records = true →
  csv_lines_for quote_cr records = csv_lines records.
Proof.
  intros Hcr. induction records as [|fs records IH]; [done|].
  cbn [csv_lines_for csv_lines]. destruct Hcr as [->|Hcr].
  - by rewrite csv_record_for_eq, IH by by left.
  - cbn [forallb] in Hcr. apply andb_true_iff in Hcr as [Hfs Hrecords].
    by rewrite csv_record_for_eq, IH by by right.
Qed.

Lemma forallb_fmap {A B} (p : B → bool) (f : A → B) (l : list A) :
  forallb p (f <$> l) = forallb (λ x, p (f x)) l.
Proof. induction l as [|x l IH]; csimpl; [done|]. by rewrite IH. Qed.

Lemma display_cols_no_cr filtered : forallb no_cr (display_cols filtered) = true.
Proof.
  apply forallb_forall. intros c Hc. unfold display_cols in Hc.
  apply filter_In in Hc as [Hc _]. revert c Hc. apply forallb_forall.
  vm_compute. reflexivity.
Qed.

(** The two writers write the same text when no cell holds a carriage
    return. *)
Lemma download_csv_for_eq quote_cr filtered :
  quote_cr = true ∨ cr_free filtered = true →
  download_csv_for quote_cr filtered = download_csv filtered.
Proof.
  intros Hcr. unfold download_csv_for, to_csv_for, download_csv, to_csv.
  apply csv_lines_for_eq. destruct Hcr as [->|Hcr]; [by left|right].
  cbn [forallb]. by rewrite display_cols_no_cr, forallb_fmap.
Qed.

Section LoaderFacts.

Variable build_frame : list string → list (list string) → result DataFrame.

(** What the claims need of the tabular library: from a header of
    distinct names, none empty, and records that all have as many fields
    as the header, it builds a frame with the header as its columns and
    one row for each record. *)
Hypothesis build_frame_table : ∀ header data,
  NoDup header →
  Forall (λ name, name ≠ EmptyString) header →
  Forall (λ fields, length fields = length header) data →
  ∃ df, build_frame header data = Ok df
    ∧ columns df = header ∧ length (rows df) = length data.

(** C8, as the code has it.  The download holds the columns of
    [display_cols] only (those of title, abstract, authors, journal,
    publication_year and abstract_word_count that the view has).  When
    there is at least one of them, no exported record is a line of spaces
    and tabs only (which takes a single exported column), and the writer
    quotes carriage returns or no exported cell holds one, loading the
    downloaded text gives a table with as many rows as the view and with
    the exported columns as its columns. *)
Theorem download_reload quote_cr filtered :
  display_cols filtered ≠ [] →
  (∀ r, r ∈ rows filtered →
        blank_record (export_fields (display_cols filtered) r) = false) →
  quote_cr = true ∨ cr_free filtered = true →
  ∃ df, load_data build_frame (Some (download_csv_for quote_cr filtered)) = Ok (Some df)
    ∧ frame_len df = frame_len filtered
    ∧ columns df = display_cols filtered.
Proof.
  intros Hcols Hrows Hcr. rewrite download_csv_for_eq by done.
  destruct (build_frame_table (display_cols filtered)
              (export_fields (display_cols filtered) <$> rows filtered))
    as (df & Hdf & Hc & Hlen).
  { apply NoDup_display_cols. }
  { apply display_cols_named. }
  { apply Forall_fmap, Forall_true. intros r. apply length_export_fields. }
  exists df. unfold load_data, read_csv, download_csv, to_csv.
  rewrite tokenize_csv_lines.
  - simpl. rewrite Hdf. simpl. split; [done|]. split; [|done].
    unfold frame_len. by rewrite Hlen, length_fmap.
  - constructor; [by apply display_cols_not_blank|].
    apply Forall_fmap, Forall_forall. intros r Hr. by apply Hrows.
Qed.

End LoaderFacts.

Lemma text_frame_table header data :
  NoDup header →
  Forall (λ name, name ≠ EmptyString) header →
  Forall (λ fields, length fields = length header) data →
  ∃ df, text_frame header data = Ok df
    ∧ columns df = header ∧ length (rows df) = length data.
Proof.
  intros _ _ Hdata. unfold text_frame.
  assert (forallb (λ fields, length fields <=? length header)%nat data = true) as ->.
  { apply forallb_forall. intros fs Hfs%list_elem_of_In.
    rewrite Forall_forall in Hdata. apply Nat.leb_le. rewrite (Hdata fs Hfs). lia. }
  eexists. split; [done|]. split; [done|]. simpl. by rewrite length_fmap.
Qed.

Lemma papers_cleaned_run :
  cleaned_table_with to_datetime_objects papers_raw = Ok papers_cleaned.
Proof. vm_compute. reflexivity. Qed.

Lemma papers_report_run : dashboard sample_choice papers_cleaned = Ok papers_report.
Proof. vm_compute. reflexivity. Qed.

(** C8 as stated fails.  The view that the dashboard shows for the sample
    table, with the years 2018 to 2020 and one journal selected, has nine
    columns and two rows; the table loaded from its download has the six
    exported columns (and the same two rows), whichever of the two writers
    wrote it. *)
Lemma download_reload_drops_columns :
  dashboard sample_choice papers_cleaned = Ok papers_report
  ∧ download_csv_for false papers_view = download_csv_for true papers_view
  ∧ ∃ df, load_data text_frame (Some (download_csv_for false papers_view)) = Ok (Some df)
      ∧ frame_len df = 2%nat
      ∧ frame_len papers_view = 2%nat
      ∧ columns df = ["title"; "abstract"; "authors"; "journal";
                      "publication_year"; "abstract_word_count"]
      ∧ columns papers_view
        = ["title"; "abstract"; "authors"; "journal"; "publish_time"; "source_x";
           "publication_year"; "abstract_word_count"; "title_word_count"]
      ∧ bool_decide (list_to_set (columns df)
                     = (list_to_set (columns papers_view) : gset string)) = false.
Proof.
  split; [exact papers_report_run|]. split; [by vm_compute|].
  eexists. split; [by vm_compute|]. by vm_compute.
Qed.

(** The reader skips a line of spaces: with the title column alone and a
    title of one space, the table loaded from the download has one row less
    than the view. *)
Lemma reload_skips_blank_line :
  ∃ df, load_data text_frame (Some (download_csv sample_blank_title)) = Ok (Some df)
    ∧ frame_len df = 1%nat
    ∧ frame_len sample_blank_title = 2%nat.
Proof. eexists. split; [by vm_compute|]. by vm_compute. Qed.

(** The reader ends a record at a carriage return that is not quoted: with
    a carriage return inside a title, the table loaded from the text of the
    writer that does not quote it has one row more than the view; the text
    of the writer that quotes it gives the row back. *)
Lemma reload_splits_carriage_return :
  cr_free sample_cr_title = false
  ∧ frame_len sample_cr_title = 1%nat
  ∧ (∃ df, load_data text_frame (Some (download_csv_for false sample_cr_title))
           = Ok (Some df)
       ∧ frame_len df = 2%nat)
  ∧ (∃ df, load_data text_frame (Some (download_csv_for true sample_cr_title))
           = Ok (Some df)
       ∧ frame_len df = 1%nat).
Proof.
  split; [by vm_compute|]. split; [by vm_compute|].
  split; (eexists; split; [by vm_compute|by vm_compute]).
Qed.

(** ** The claims on the sample data *)




Lemma to_datetime_objects_length s c :
  to_datetime_objects s = Ok c → length (converted_column s c) = length s.
Proof.
  unfold to_datetime_objects. destruct (mixed_offsets s); intros [= <-];
    cbn [converted_column]; rewrite length_zip_with; unfold days_of;
    rewrite length_fmap; lia.
Qed.

Lemma to_datetime_strict_length s c :
  to_datetime_strict s = Ok c → length (converted_column s c) = length s.
Proof.
  unfold to_datetime_strict. destruct (mixed_offsets s); intros [= <-].
  cbn [converted_column]. rewrite length_zip_with. unfold days_of.
  rewrite length_fmap. lia.
Qed.

Lemma cleaning_year_or_exception_witness :
  has_column "publish_time" sample_offsets = true
  ∧ cleaned_table_with to_datetime_objects sample_offsets
    = Raise (AttributeError "Can only use .dt accessor with datetimelike values")
  ∧ (∃ msg, cleaned_table_with to_datetime_strict sample_offsets = Raise (ValueError msg))
  ∧ ∃ df, cleaned_table_with to_datetime_objects papers_raw = Ok df
      ∧ key_num <$> col "publication_year" df = [Some 2020; Some 2021; Some 2018].
Proof.
  split; [reflexivity|]. split; [|split].
  - pose proof (cleaning_year_or_exception to_datetime_objects to_datetime_objects_length
                  sample_offsets eq_refl) as Hrun.
    exact Hrun.
  - pose proof (cleaning_year_or_exception to_datetime_strict to_datetime_strict_length
                  sample_offsets eq_refl) as Hrun.
    eexists. exact Hrun.
  - pose proof (cleaning_year_or_exception to_datetime_objects to_datetime_objects_length
                  papers_raw eq_refl) as Hrun.
    destruct Hrun as (df & Hdf & _ & Hnum & _).
    exists df. split; [exact Hdf|exact Hnum].
Defined.




Lemma dashboard_fails_on_empty_view_witness :
  has_column "publication_year" sample_cleaned = true
  ∧ year_filter (year_range sample_ui) sample_cleaned
    = Ok {| columns := columns sample_cleaned; rows := [] |}
  ∧ dashboard sample_ui sample_cleaned
    = Raise (ValueError "cannot convert float NaN to integer").
Proof.
  assert (year_filter (year_range sample_ui) sample_cleaned
          = Ok {| columns := columns sample_cleaned; rows := [] |}) as Hview
    by (vm_compute; reflexivity).
  split; [by vm_compute|]. split; [exact Hview|].
  apply (dashboard_fails_on_empty_view sample_ui sample_cleaned _ eq_refl Hview eq_refl).
Defined.

Lemma count_by_orders_witness :
  (has_column "publication_year" sample_cleaned = true
   ∧ has_column "journal" sample_cleaned = true)
  ∧ (∃ counts, papers_by_year sample_cleaned = Ok counts
       ∧ StronglySorted year_before counts)
  ∧ (∃ ranking, top_journals 1 sample_cleaned = Ok (take 1 ranking)
       ∧ StronglySorted (λ x y, (y.2 ≤ x.2)%nat) ranking).
Proof.
  split; [by vm_compute|].
  destruct (count_by_orders 1 sample_cleaned) as (Hyears & Hjournals & _).
  split.
  - destruct (Hyears eq_refl) as (counts & Hcounts & _ & Hsorted).
    { exact (year_column_years_of
               (to_datetime_coerce iso_dates
                  (cell "publish_time" <$> kept_rows sample_raw))). }
    exists counts. split; [exact Hcounts|exact Hsorted].
  - destruct (Hjournals eq_refl) as (ranking & Htop & _ & Hsorted & _).
    exists ranking. split; [exact Htop|exact Hsorted].
Defined.

Lemma top_words_ranked_witness :
  has_column "title" sample_titles = true
  ∧ ∃ ranking, top_words 2 sample_titles = Ok (take 2 ranking)
      ∧ ranked (title_words (col "title" sample_titles)) ranking.
Proof.
  split; [reflexivity|].
  destruct (top_words_ranked 2 sample_titles eq_refl)
    as (ranking & Htop & _ & _ & Hranked & _).
  exists ranking. split; [exact Htop|exact Hranked].
Defined.

Lemma download_reload_witness :
  display_cols papers_view ≠ []
  ∧ cr_free papers_view = true
  ∧ (∃ df, load_data text_frame (Some (download_csv_for false papers_view)) = Ok (Some df)
       ∧ frame_len df = frame_len papers_view
       ∧ columns df = display_cols papers_view)
  ∧ (∃ df, load_data text_frame (Some (download_csv_for true sample_cr_title))
           = Ok (Some df)
       ∧ frame_len df = frame_len sample_cr_title
       ∧ columns df = display_cols sample_cr_title).
Proof.
  assert (display_cols papers_view ≠ []) as Hcols by (by vm_compute).
  assert (cr_free papers_view = true) as Hcr by (by vm_compute).
  split; [exact Hcols|]. split; [exact Hcr|]. split.
  - apply (download_reload text_frame text_frame_table false papers_view Hcols).
    + intros r _. apply export_two_columns. vm_compute. lia.
    + by right.
  - apply (download_reload text_frame text_frame_table true sample_cr_title).
    + by vm_compute.
    + intros r _. apply export_two_columns. vm_compute. lia.
    + by left.
Defined.

(** * Further properties of the programs *)

(** Comparisons of two column names that are written out. *)
Ltac decide_names :=
  repeat match goal with
  | |- context [bool_decide (?a = ?b)] =>
      first [ rewrite (bool_decide_eq_true_2 (a = b)) by reflexivity
            | rewrite (bool_decide_eq_false_2 (a = b)) by discriminate ]
  end;
  cbn [andb orb].

(** ** The Loader on files it cannot read *)

Lemma step_line_filler t c :
  between_records t → line_filler c = true →
  ∃ t', step t c = (t', []) ∧ between_records t'.
Proof.
  unfold between_records, line_filler, step, start_record.
  intros Hst Hc. destruct (is_char LF c) eqn:Hlf.
  { exists fresh. destruct Hst as [-> | [-> | ->]]; split; try done; auto. }
  destruct (is_char CR c) eqn:Hcr.
  { exists {| state := EAT_CRNL_NOP; field := EmptyString; record := [] |}.
    destruct Hst as [-> | [-> | ->]]; simpl; split; auto.
    assert (is_char comma c = false) as ->; [|done].
    apply bool_decide_eq_true in Hcr as ->. done. }
  simpl in Hc. rewrite Hc.
  assert (is_char comma c = false) as Hcomma.
  { unfold is_blank, is_char in Hc.
    apply orb_true_iff in Hc as [Hc|Hc]; apply bool_decide_eq_true in Hc; by subst. }
  destruct Hst as [-> | [-> | ->]]; simpl; rewrite ?Hcomma; simpl; eauto.
Qed.

Lemma tokenize_line_fillers t s :
  between_records t → all_chars line_filler s = true → tokenize t s = Ok [].
Proof.
  revert t. induction s as [|c s IH]; intros t Ht Hs; simpl.
  - unfold at_eof. by destruct Ht as [-> | [-> | ->]].
  - simpl in Hs. apply andb_true_iff in Hs as [Hc Hs].
    destruct (step_line_filler t c Ht Hc) as (t' & -> & Ht').
    by rewrite IH.
Qed.

(** Records that the reader sees, followed by more text. *)
Lemma tokenize_csv_lines_app records rest :
  Forall (λ fs, blank_record fs = false) records →
  tokenize fresh (csv_lines records +:+ rest) = (records ++.) <$> tokenize fresh rest.
Proof.
  induction 1 as [|fs records Hfs _ IH]; simpl.
  - by rewrite app_empty_l, result_fmap_nil.
  - rewrite app_assoc_string, tokenize_record, IH by done.
    by destruct (tokenize fresh rest).
Qed.

Lemma tokenize_open_quote f r s :
  all_chars (λ c, negb (is_char dquote c)) s = true →
  tokenize (mk IN_QUOTED_FIELD f r) s = Raise ParserError.
Proof.
  revert f. induction s as [|c s IH]; intros f Hs; [done|].
  simpl in Hs. apply andb_true_iff in Hs as [Hc Hs]. apply negb_true_iff in Hc.
  simpl. unfold step. simpl. rewrite Hc. unfold push. simpl.
  fold (mk IN_QUOTED_FIELD (f +:+ String c EmptyString) r). by rewrite IH.
Qed.

Section LoaderErrors.

Variable build_frame : list string → list (list string) → result DataFrame.

(** X1. [load_data] gives no frame, and raises nothing, when the file is
    not there.  A file that holds nothing but empty lines and lines of
    spaces and tabs has no header: the reader raises EmptyDataError, which
    [load_data] does not catch. *)
Theorem load_data_no_header text :
  all_chars line_filler text = true →
  load_data build_frame None = Ok None
  ∧ load_data build_frame (Some text) = Raise EmptyDataError.
Proof.
  intros Htext. split; [done|].
  unfold load_data, read_csv.
  rewrite tokenize_line_fillers; [done|by left|done].
Qed.

(** X2. A file whose last field opens a quote that is never closed, after
    any number of complete records, makes the reader raise ParserError,
    which [load_data] does not catch either. *)
Theorem load_data_open_quote records text :
  Forall (λ fields, blank_record fields = false) records →
  all_chars (λ c, negb (is_char dquote c)) text = true →
  load_data build_frame (Some (csv_lines records +:+ String dquote text))
  = Raise ParserError.
Proof.
  intros Hrecords Htext. unfold load_data, read_csv.
  rewrite tokenize_csv_lines_app by done. simpl. unfold step. simpl.
  fold (mk IN_QUOTED_FIELD EmptyString []).
  by rewrite tokenize_open_quote.
Qed.

End LoaderErrors.

Lemma load_data_no_header_witness :
  load_data text_frame None = Ok None
  ∧ load_data text_frame (Some (String LF (String SPACE (String TAB (String LF EmptyString)))))
    = Raise EmptyDataError.
Proof.
  apply (load_data_no_header text_frame). reflexivity.
Defined.

Lemma load_data_open_quote_witness :
  load_data text_frame
    (Some (csv_lines [["title"; "journal"]; ["A title"; "The Lancet"]]
           +:+ String dquote "An open title, and the file ends"))
  = Raise ParserError.
Proof.
  apply (load_data_open_quote text_frame); [|reflexivity].
  repeat constructor.
Defined.

(** ** The filters of the sidebar *)

Lemma sidebar_journals_view ui filtered :
  ∃ view, sidebar_journals ui filtered = Ok view
    ∧ columns view = columns filtered
    ∧ rows view
      = if has_column "journal" filtered
           && negb (bool_decide (selected_journals ui = []))
        then List.filter (journal_selected (selected_journals ui)) (rows filtered)
        else rows filtered.
Proof.
  unfold sidebar_journals.
  destruct (has_column "journal" filtered) eqn:Hj; [|by exists filtered].
  destruct (selected_journals ui) as [|j js] eqn:Hsel; [by exists filtered|].
  simpl. unfold journal_filter, column_of. rewrite Hj. simpl.
  unfold select_rows. rewrite bool_decide_eq_true_2 by by rewrite !length_fmap.
  eexists. split; [done|]. split; [done|]. simpl.
  rewrite <- list_fmap_compose. exact (mask_rows_fmap _ (rows filtered)).
Qed.

Lemma length_filter_le {A} (p : A → bool) (l : list A) :
  (length (List.filter p l) ≤ length l)%nat.
Proof. induction l as [|x l IH]; simpl; [done|]. destruct (p x); simpl; lia. Qed.

(** X3. The journal filter never raises.  With a journal column and a
    selection that is not empty, it keeps exactly the rows whose journal is
    one of the selected, in order; with no journal column or an empty
    selection it hands the view on as it is.  The columns stay, and the
    view never has more rows than before. *)
Theorem sidebar_journals_exact ui filtered :
  ∃ view, sidebar_journals ui filtered = Ok view
    ∧ columns view = columns filtered
    ∧ rows view
      = (if has_column "journal" filtered
            && negb (bool_decide (selected_journals ui = []))
         then List.filter (journal_selected (selected_journals ui)) (rows filtered)
         else rows filtered)
    ∧ (frame_len view ≤ frame_len filtered)%nat.
Proof.
  destruct (sidebar_journals_view ui filtered) as (view & Hview & Hcols & Hrows).
  exists view. split; [done|]. split; [done|]. split; [done|].
  unfold frame_len. rewrite Hrows.
  destruct (has_column "journal" filtered && _); [|done].
  apply length_filter_le.
Qed.

Lemma filter_in_years_twice lo hi a b (l : list row) :
  List.filter (λ r, in_years a b (cell "publication_year" r))
    (List.filter (λ r, in_years lo hi (cell "publication_year" r)) l)
  = List.filter
      (λ r, in_years (Z.max lo a) (Z.min hi b) (cell "publication_year" r)) l.
Proof.
  induction l as [|r l IH]; simpl; [done|].
  assert (in_years (Z.max lo a) (Z.min hi b) (cell "publication_year" r)
          = in_years lo hi (cell "publication_year" r)
            && in_years a b (cell "publication_year" r)) as ->.
  { unfold in_years. destruct (key_num _) as [n|]; [|done].
    apply eq_true_iff_eq. rewrite !andb_true_iff, !Z.leb_le. lia. }
  destruct (in_years lo hi _); simpl; [|done].
  destruct (in_years a b _); by rewrite IH.
Qed.

Lemma yearlike_filter (p : row → bool) (l : list row) :
  Forall yearlike (cell "publication_year" <$> l) →
  Forall yearlike (cell "publication_year" <$> List.filter p l).
Proof.
  rewrite !Forall_fmap, !Forall_forall. intros Hl r Hr.
  apply Hl. apply list_elem_of_In, filter_In in Hr as [Hr _]. by apply list_elem_of_In.
Qed.

(** X4. Filtering a year-filtered view by years again is filtering the
    table once with the intersection of the two ranges; in particular
    filtering twice with the same range changes nothing. *)
Theorem year_filter_twice lo hi a b df :
  has_column "publication_year" df = true →
  Forall yearlike (col "publication_year" df) →
  ∃ view,
    year_filter (lo, hi) df = Ok view
    ∧ year_filter (a, b) view = year_filter (Z.max lo a, Z.min hi b) df
    ∧ year_filter (lo, hi) view = Ok view.
Proof.
  intros Hc Hy. eexists. split; [by apply year_filter_yearlike|].
  assert (∀ x y, year_filter (x, y)
            {| columns := columns df;
               rows := List.filter
                         (λ r, in_years lo hi (cell "publication_year" r)) (rows df) |}
          = Ok {| columns := columns df;
                  rows := List.filter
                            (λ r, in_years (Z.max lo x) (Z.min hi y)
                                    (cell "publication_year" r)) (rows df) |}) as Hsecond.
  { intros x y. rewrite year_filter_yearlike.
    - simpl. by rewrite filter_in_years_twice.
    - done.
    - unfold col. simpl. by apply yearlike_filter. }
  split.
  - by rewrite Hsecond, year_filter_yearlike.
  - by rewrite Hsecond, Z.max_id, Z.min_id.
Qed.

Lemma filter_commute {A} (p q : A → bool) (l : list A) :
  List.filter p (List.filter q l) = List.filter q (List.filter p l).
Proof.
  induction l as [|x l IH]; simpl; [done|].
  destruct (q x) eqn:Hq, (p x) eqn:Hp; simpl; rewrite ?Hq, ?Hp, ?IH; done.
Qed.

(** X5. The two filters of the sidebar can be applied in either order: the
    journal filter on the year-filtered view gives the view that the year
    filter gives on the journal-filtered table. *)
Theorem sidebar_filters_commute ui df :
  has_column "publication_year" df = true →
  Forall yearlike (col "publication_year" df) →
  (year_filter (year_range ui) df ≫= sidebar_journals ui)
  = (sidebar_journals ui df ≫= year_filter (year_range ui)).
Proof.
  intros Hc Hy. destruct (year_range ui) as [lo hi].
  rewrite year_filter_yearlike by done. simpl.
  destruct (sidebar_journals_view ui df) as (view & -> & Hcols & Hrows). simpl.
  destruct (sidebar_journals_view ui
              {| columns := columns df;
                 rows := List.filter
                           (λ r, in_years lo hi (cell "publication_year" r)) (rows df) |})
    as (view' & -> & Hcols' & Hrows').
  simpl in *.
  rewrite year_filter_yearlike.
  - f_equal. destruct view' as [cols' rows']. simpl in *. subst cols' rows'.
    rewrite Hcols, Hrows. f_equal.
    unfold has_column. simpl.
    destruct (bool_decide ("journal" ∈ columns df) && _); [|done].
    apply filter_commute.
  - unfold has_column. by rewrite Hcols.
  - unfold col. rewrite Hrows.
    destruct (has_column "journal" df && _); [|done]. by apply yearlike_filter.
Qed.

Lemma sample_cleaned_yearlike : Forall yearlike (col "publication_year" sample_cleaned).
Proof.
  exact (yearlike_years_of
           (to_datetime_coerce iso_dates (cell "publish_time" <$> kept_rows sample_raw))).
Qed.

Lemma year_filter_twice_witness :
  ∃ view,
    year_filter (2018, 2020) sample_cleaned = Ok view
    ∧ year_filter (2019, 2021) view = year_filter (2019, 2020) sample_cleaned
    ∧ year_filter (2018, 2020) view = Ok view.
Proof.
  exact (year_filter_twice 2018 2020 2019 2021 sample_cleaned eq_refl
           sample_cleaned_yearlike).
Defined.

Lemma sidebar_filters_commute_witness :
  (year_filter (year_range sample_ui) sample_cleaned ≫= sidebar_journals sample_ui)
  = (sidebar_journals sample_ui sample_cleaned ≫= year_filter (year_range sample_ui)).
Proof.
  exact (sidebar_filters_commute sample_ui sample_cleaned eq_refl sample_cleaned_yearlike).
Defined.

(** ** Counts and the tables made of them *)

Section CountTotals.
Context {K : Type} `{EqDecision K}.
Implicit Types (k : K) (l : list K) (c : list (K * nat)).

Lemma sum_bump k c : sum_list (bump k c).*2 = S (sum_list c.*2).
Proof.
  induction c as [|[k' n] c IH]; csimpl; [done|].
  destruct (decide (k = k')); csimpl; [done|]. rewrite IH. lia.
Qed.

Lemma sum_Counter l : sum_list (Counter l).*2 = length l.
Proof.
  induction l as [|x l IH] using rev_ind; [done|].
  rewrite Counter_snoc, sum_bump, IH, length_app. simpl. lia.
Qed.

Lemma length_Counter_le l : (length (Counter l) ≤ length l)%nat.
Proof.
  rewrite <- (sum_Counter l).
  assert (Forall (λ p, 1 ≤ p.2)%nat (Counter l)) as Hpos.
  { apply Forall_forall. intros [k n] Hk.
    apply (proj2 (Counter_tallies l)) in Hk as [Hk ->]. simpl.
    by apply occurrences_pos. }
  induction Hpos as [|p c Hp _ IH]; csimpl; lia.
Qed.

Lemma Counter_nil_inv l : Counter l = [] → l = [].
Proof.
  intros Hc. pose proof (sum_Counter l) as Hsum. rewrite Hc in Hsum.
  by destruct l.
Qed.

End CountTotals.

Lemma sum_sort_desc {K} (c : list (K * nat)) : sum_list (sort_desc c).*2 = sum_list c.*2.
Proof. by rewrite (sort_desc_perm c). Qed.

Lemma sum_take_le (n : nat) (l : list nat) : (sum_list (take n l) ≤ sum_list l)%nat.
Proof.
  revert n. induction l as [|x l IH]; intros [|n]; simpl; try lia.
  specialize (IH n). lia.
Qed.

Lemma value_counts_entries (s : Series) :
  Forall (λ p, notna p.1 = true ∧ (1 ≤ p.2)%nat) (value_counts s).
Proof.
  apply Forall_forall. intros [v n] Hv.
  apply (proj2 (proj1 (value_counts_tallies s))) in Hv as [Hv ->]. simpl. split.
  - apply list_elem_of_In, filter_In in Hv. tauto.
  - by apply occurrences_pos.
Qed.

Lemma sum_value_counts (s : Series) :
  sum_list (value_counts s).*2 = length (List.filter notna s).
Proof. unfold value_counts. by rewrite sum_sort_desc, sum_Counter. Qed.

Lemma length_value_counts (s : Series) : length (value_counts s) = nunique s.
Proof. unfold value_counts, nunique. by rewrite (sort_desc_perm _). Qed.

(** X6. [value_counts] of a column: the counts add up to the number of
    entries that are not missing, no label is missing, no count is zero, and
    there is one entry for each distinct value, as many as [nunique] says. *)
Theorem value_counts_total (s : Series) :
  sum_list (value_counts s).*2 = length (List.filter notna s)
  ∧ Forall (λ p, notna p.1 = true ∧ (1 ≤ p.2)%nat) (value_counts s)
  ∧ length (value_counts s) = nunique s
  ∧ (nunique s ≤ length s)%nat.
Proof.
  split; [apply sum_value_counts|]. split; [apply value_counts_entries|].
  split; [apply length_value_counts|].
  unfold nunique. etrans; [apply length_Counter_le|]. apply length_filter_le.
Qed.

(** X7. The journal table of the dashboard and of the report: with a
    journal column it is built without error, it has as many lines as asked
    for or as there are distinct journals, whichever is smaller, every line
    counts one paper or more, and the counts add up to no more than the
    number of rows of the view. *)
Theorem top_journals_table n df :
  has_column "journal" df = true →
  ∃ table, top_journals n df = Ok table
    ∧ length table = (n `min` nunique (col "journal" df))%nat
    ∧ Forall (λ p, notna p.1 = true ∧ (1 ≤ p.2)%nat) table
    ∧ (sum_list table.*2 ≤ frame_len df)%nat.
Proof.
  intros Hj. unfold top_journals, column_of. rewrite Hj. simpl.
  fold (col "journal" df). eexists. split; [done|].
  split; [|split].
  - by rewrite length_take, length_value_counts.
  - apply Forall_take, value_counts_entries.
  - rewrite fmap_take. etrans; [apply sum_take_le|]. rewrite sum_value_counts.
    etrans; [apply length_filter_le|]. unfold col, frame_len. by rewrite length_fmap.
Qed.

Lemma top_journals_table_witness :
  ∃ table, top_journals 1 sample_cleaned = Ok table
    ∧ length table = (1 `min` nunique (col "journal" sample_cleaned))%nat
    ∧ Forall (λ p, notna p.1 = true ∧ (1 ≤ p.2)%nat) table
    ∧ (sum_list table.*2 ≤ frame_len sample_cleaned)%nat.
Proof. exact (top_journals_table 1 sample_cleaned eq_refl). Defined.

(** ** The word chart *)

Lemma most_common_nil_inv {K} `{EqDecision K} (n : nat) (l : list K) :
  most_common n (Counter l) = [] → n = 0%nat ∨ l = [].
Proof.
  unfold most_common. intros Htake. destruct n as [|n]; [by left|right].
  apply Counter_nil_inv. apply Permutation_nil_r. rewrite <- (sort_desc_perm (Counter l)).
  by destruct (sort_desc (Counter l)).
Qed.

(** X8. The word chart takes the most common words apart with [zip]; this
    raises ValueError exactly when no word of the titles is kept, whatever
    the number of rows.  Otherwise the chart has as many counts as words,
    between one and the number asked for, every word is one that the filter
    keeps, no word comes twice and every count is one or more. *)
Theorem word_analysis_outcome n df :
  has_column "title" df = true →
  (0 < n)%nat →
  (title_words (col "title" df) = [] →
     word_analysis n df
     = Raise (ValueError "not enough values to unpack (expected 2, got 0)"))
  ∧ (title_words (col "title" df) ≠ [] →
     ∃ words counts, word_analysis n df = Ok (words, counts)
       ∧ length words = length counts
       ∧ (1 ≤ length words ≤ n)%nat
       ∧ NoDup words
       ∧ Forall (λ w, keep_word w = true) words
       ∧ Forall (λ k, 1 ≤ k)%nat counts).
Proof.
  intros Ht Hn. unfold word_analysis, top_words, column_of. rewrite Ht. simpl.
  fold (col "title" df). set (ws := title_words (col "title" df)). split.
  - intros ->. by destruct n.
  - intros Hws. unfold unzip_pairs.
    destruct (most_common n (Counter ws)) as [|p top] eqn:Htop.
    { apply most_common_nil_inv in Htop as [->| ->]; [lia|done]. }
    rewrite <- Htop. clear p top Htop. eexists _, _. split; [done|].
    destruct (sort_desc_Counter ws) as [[Hnodup Hin] _].
    unfold most_common. split; [by rewrite !length_fmap|]. split; [|split; [|split]].
    + rewrite length_fmap, length_take. split; [|lia].
      destruct (sort_desc (Counter ws)) as [|q c] eqn:Hc.
      * exfalso. apply Hws, Counter_nil_inv, Permutation_nil_r.
        by rewrite <- (sort_desc_perm (Counter ws)), Hc.
      * simpl. lia.
    + rewrite fmap_take. eapply sublist_NoDup; [done|apply sublist_take].
    + apply Forall_fmap, Forall_take, Forall_forall. intros [w k] Hw.
      apply Hin in Hw as [Hw _]. simpl. unfold ws, title_words in Hw.
      apply list_elem_of_In, filter_In in Hw. tauto.
    + apply Forall_fmap, Forall_take, Forall_forall. intros [w k] Hw.
      apply Hin in Hw as [Hw ->]. simpl. by apply occurrences_pos.
Qed.

Lemma word_analysis_outcome_witness :
  (title_words (col "title" sample_titles) = [] →
     word_analysis 20 sample_titles
     = Raise (ValueError "not enough values to unpack (expected 2, got 0)"))
  ∧ (title_words (col "title" sample_titles) ≠ [] →
     ∃ words counts, word_analysis 20 sample_titles = Ok (words, counts)
       ∧ length words = length counts
       ∧ (1 ≤ length words ≤ 20)%nat
       ∧ NoDup words
       ∧ Forall (λ w, keep_word w = true) words
       ∧ Forall (λ k, 1 ≤ k)%nat counts).
Proof. apply (word_analysis_outcome 20 sample_titles); [reflexivity|lia]. Defined.

(** ** Words of a text *)

Lemma push_word_app w (ws ws' : list string) :
  push_word w (ws ++ ws') = push_word w ws ++ ws'.
Proof. by destruct w. Qed.

Lemma split_scan_app_space c a b :
  isspace c = true →
  split_scan (a +:+ String c b) = ((split_scan a).1, (split_scan a).2 ++ py_split b).
Proof.
  intros Hc. induction a as [|d a IH].
  - rewrite app_empty_l. simpl. rewrite Hc. unfold py_split.
    by destruct (split_scan b).
  - rewrite app_String. simpl. rewrite IH. destruct (split_scan a) as [w ws]. simpl.
    destruct (isspace d); [|done]. by rewrite push_word_app.
Qed.

Lemma py_split_app_space c a b :
  isspace c = true → py_split (a +:+ String c b) = py_split a ++ py_split b.
Proof.
  intros Hc. unfold py_split at 1 2. rewrite split_scan_app_space by done.
  destruct (split_scan a) as [w ws]. apply push_word_app.
Qed.

Lemma py_split_join (parts : list string) :
  py_split (py_join " " parts) = concat (py_split <$> parts).
Proof.
  induction parts as [|p parts IH]; [done|].
  destruct parts as [|q parts].
  - simpl. by rewrite app_nil_r.
  - change (py_join " " (p :: q :: parts))
      with (p +:+ String " " (EmptyString +:+ py_join " " (q :: parts))).
    rewrite app_empty_l, py_split_app_space by done. by rewrite IH.
Qed.

Lemma isspace_lower_char c : isspace (lower_char c) = isspace c.
Proof. by destruct c as [[] [] [] [] [] [] [] []]. Qed.

Lemma push_word_lower w ws :
  push_word (py_lower w) (py_lower <$> ws) = py_lower <$> push_word w ws.
Proof. by destruct w. Qed.

Lemma split_scan_lower s :
  split_scan (py_lower s)
  = (py_lower (split_scan s).1, py_lower <$> (split_scan s).2).
Proof.
  induction s as [|c s IH]; [done|].
  simpl. rewrite IH, isspace_lower_char. destruct (split_scan s) as [w ws]. simpl.
  destruct (isspace c); [|done]. by rewrite push_word_lower.
Qed.

Lemma py_split_lower s : py_split (py_lower s) = py_lower <$> py_split s.
Proof.
  unfold py_split. rewrite split_scan_lower. destruct (split_scan s) as [w ws].
  apply push_word_lower.
Qed.

Lemma fmap_concat {A B} (f : A → B) (ls : list (list A)) :
  f <$> concat ls = concat ((λ l : list A, f <$> l) <$> ls).
Proof.
  induction ls as [|l ls IH]; [done|]. csimpl. by rewrite fmap_app, IH.
Qed.

(** X9. The words that are counted are found title by title: joining the
    titles with a space, lowering the text and splitting it gives, in order,
    the lowered words of the first title, then those of the second, and so
    on.  No word runs over two titles, and lowering before or after the
    split makes no difference. *)
Theorem title_words_by_title (title : Series) :
  py_split (all_titles title)
  = concat ((λ x, py_lower <$> py_split (py_str x)) <$> title)
  ∧ title_words title
    = concat ((λ x, List.filter keep_word (py_lower <$> py_split (py_str x))) <$> title).
Proof.
  assert (py_split (all_titles title)
          = concat ((λ x, py_lower <$> py_split (py_str x)) <$> title)) as Hsplit.
  { unfold all_titles. rewrite py_split_lower, py_split_join, fmap_concat.
    by rewrite <- !list_fmap_compose. }
  split; [done|]. unfold title_words. rewrite Hsplit. clear Hsplit.
  induction title as [|x title IH]; [done|].
  csimpl. by rewrite List.filter_app, IH.
Qed.

Lemma split_scan_nil s :
  all_chars isspace s = true ↔ split_scan s = (EmptyString, []).
Proof.
  induction s as [|c s IH]; [done|]. simpl.
  destruct (split_scan s) as [w ws]. destruct (isspace c); simpl.
  - rewrite IH. split.
    + by intros [= -> ->].
    + intros [= Hpush]. by destruct w; simplify_eq/=.
  - split; [done|]. by intros [=].
Qed.

Lemma py_split_nil s : py_split s = [] ↔ all_chars isspace s = true.
Proof.
  rewrite split_scan_nil. unfold py_split. destruct (split_scan s) as [w ws]. split.
  - intros Hpush. by destruct w; simplify_eq/=.
  - by intros [= -> ->].
Qed.

(** X10. A word count is zero exactly for an entry that is missing or holds
    nothing but white space; for every other entry it is one or more. *)
Theorem word_count_zero (x : value) :
  (word_count x = VInt 0 ↔ x = VNa ∨ all_chars isspace (py_str x) = true)
  ∧ ∃ n, word_count x = VInt n ∧ 0 ≤ n.
Proof.
  split.
  - unfold word_count. destruct (notna x) eqn:Hx.
    + rewrite <- py_split_nil. split.
      * intros [= Hlen]. right. by destruct (py_split (py_str x)).
      * intros [-> | ->]; done.
    + split; [|done]. intros _. left. by destruct x.
  - unfold word_count. destruct (notna x); eexists; (split; [done|lia]).
Qed.

(** ** Selecting columns *)


Lemma column_of_col c df : has_column c df = true → column_of c df = Ok (col c df).
Proof. intros Hc. unfold column_of. by rewrite Hc. Qed.

Lemma cell_project_row cols r c :
  c ∈ cols → cell c (project_row cols r) = cell c r.
Proof.
  intros Hc. unfold cell at 1, project_row.
  erewrite elem_of_list_to_map_1'; [done| |].
  - intros y Hy. apply list_elem_of_fmap in Hy as (c' & [= -> ->] & _). done.
  - apply list_elem_of_fmap. by exists c.
Qed.

Lemma select_columns_present cols df :
  Forall (λ c, has_column c df = true) cols →
  select_columns cols df
  = Ok {| columns := cols; rows := project_row cols <$> rows df |}.
Proof.
  intros Hcols. unfold select_columns.
  replace (List.filter (λ c, negb (has_column c df)) cols) with (@nil string); [done|].
  induction Hcols as [|c cols Hc _ IH]; simpl; [done|]. by rewrite Hc.
Qed.


Lemma display_cols_present filtered :
  Forall (λ c, has_column c filtered = true) (display_cols filtered).
Proof.
  apply Forall_forall. intros c Hc.
  apply list_elem_of_In, filter_In in Hc. tauto.
Qed.

Lemma export_fields_project cols r :
  export_fields cols (project_row cols r) = export_fields cols r.
Proof.
  unfold export_fields. apply Forall_fmap_ext, Forall_forall. intros c Hc.
  by rewrite cell_project_row.
Qed.

Lemma col_project cols df c :
  c ∈ cols → cell c <$> (project_row cols <$> rows df) = col c df.
Proof.
  intros Hc. unfold col. rewrite <- list_fmap_compose.
  apply Forall_fmap_ext, Forall_forall. intros r _. simpl. by apply cell_project_row.
Qed.

(** X11. The data tab never raises, because it selects only the columns it
    found in the view.  The table it shows has these columns, the first
    hundred rows of the view (all of them when there are fewer) with their
    cells unchanged, and the text behind the download button is the text
    written from the view itself with these columns. *)
Theorem data_tab_shows_and_exports filtered :
  ∃ shown, data_tab filtered = Ok (shown, download_csv filtered)
    ∧ columns shown = display_cols filtered
    ∧ frame_len shown = (100 `min` frame_len filtered)%nat
    ∧ ∀ c, c ∈ display_cols filtered → col c shown = take 100 (col c filtered).
Proof.
  unfold data_tab. rewrite select_columns_present by apply display_cols_present.
  simpl.
  exists (frame_head 100
            {| columns := display_cols filtered;
               rows := project_row (display_cols filtered) <$> rows filtered |}).
  split; [|split; [done|split]].
  - do 2 f_equal. unfold frame_to_csv, download_csv, to_csv. simpl. do 2 f_equal.
    rewrite <- list_fmap_compose. apply Forall_fmap_ext, Forall_forall.
    intros r _. apply export_fields_project.
  - unfold frame_len. simpl. by rewrite length_take, length_fmap.
  - intros c Hc. unfold col at 1. simpl. rewrite fmap_take. f_equal.
    by apply col_project.
Qed.

(** ** The columns of the cleaned table *)

Lemma prefix_add_column c (cols : list string) : cols `prefix_of` add_column c cols.
Proof. unfold add_column. case_bool_decide; [done|]. by exists [c]. Qed.



Section CleanedColumns.

Variable to_datetime : Series → list (option Timestamp).
Hypothesis to_datetime_length : ∀ s, length (to_datetime s) = length s.

Lemma columns_dated df :
  columns (dated to_datetime df)
  = if has_column "publish_time" df
    then add_column "publication_year" (columns df) else columns df.
Proof.
  unfold dated. destruct (has_column "publish_time" df) eqn:Hpt; [|done].
  cbn [columns set_column]. f_equal. unfold add_column.
  unfold has_column in Hpt. by rewrite Hpt.
Qed.

Lemma columns_counted c c' df :
  columns (counted c c' df) = if has_column c df then add_column c' (columns df) else columns df.
Proof. unfold counted. by destruct (has_column c df). Qed.

Lemma columns_titled df : columns (titled df) = columns df.
Proof. unfold titled. by destruct (has_column "title" df). Qed.


Lemma columns_cleaned raw :
  columns (cleaned to_datetime raw)
  = (if has_column "title" raw then add_column "title_word_count" else id)
      ((if has_column "abstract" raw then add_column "abstract_word_count" else id)
         ((if has_column "publish_time" raw then add_column "publication_year" else id)
            (columns raw))).
Proof.
  unfold cleaned.
  rewrite !columns_counted, columns_dated, columns_titled, columns_filled.
  rewrite !has_column_counted, !has_column_dated, !has_column_titled, !has_column_filled.
  decide_names. rewrite !andb_false_r, !orb_false_r.
  by destruct (has_column "title" raw), (has_column "abstract" raw),
    (has_column "publish_time" raw).
Qed.

Lemma columns_cleaned_prefix raw :
  columns raw `prefix_of` columns (cleaned to_datetime raw).
Proof.
  rewrite columns_cleaned.
  destruct (has_column "title" raw), (has_column "abstract" raw),
    (has_column "publish_time" raw); simpl;
    repeat (etrans; [|apply prefix_add_column]); done.
Qed.


Lemma length_kept_rows raw : (length (kept_rows raw) ≤ length (rows raw))%nat.
Proof.
  unfold kept_rows. destruct (has_column "title" raw); [|done]. apply length_filter_le.
Qed.



End CleanedColumns.



(** ** The bounds of the year slider *)

Lemma value_lt_num a b x y :
  key_num a = Some x → key_num b = Some y → value_lt a b = Ok (x <? y).
Proof. destruct a, b; simpl; intros [= ->] [= ->]; done. Qed.

Lemma least_spec best (xs : Series) :
  Forall (λ x, is_Some (key_num x)) (best :: xs) →
  ∃ v m, least best xs = Ok v ∧ key_num v = Some m ∧ v ∈ best :: xs
    ∧ ∀ x n, x ∈ best :: xs → key_num x = Some n → m ≤ n.
Proof.
  revert best. induction xs as [|x xs IH]; intros best Hall.
  - apply Forall_cons in Hall as [[kb Hb] _]. exists best, kb.
    split; [done|]. split; [done|]. split; [left|].
    intros x n ->%list_elem_of_singleton Hn. rewrite Hb in Hn. injection Hn as <-. lia.
  - apply Forall_cons in Hall as [[kb Hb] Hall].
    apply Forall_cons in Hall as [[kx Hx] Hxs]. simpl.
    rewrite (value_lt_num x best kx kb Hx Hb). simpl.
    destruct (IH (if kx <? kb then x else best)) as (v & m & Hv & Hm & Hin & Hle).
    { apply Forall_cons. split; [|done]. destruct (kx <? kb); eauto. }
    exists v, m. split; [done|]. split; [done|]. split.
    + apply elem_of_cons in Hin as [->|Hin].
      * destruct (kx <? kb); [right; left|left].
      * do 2 right. done.
    + assert (m ≤ kx ∧ m ≤ kb) as [Hmx Hmb].
      { destruct (kx <? kb) eqn:Hlt.
        - apply Z.ltb_lt in Hlt. pose proof (Hle x kx ltac:(left) Hx). lia.
        - apply Z.ltb_ge in Hlt. pose proof (Hle best kb ltac:(left) Hb). lia. }
      intros y n Hy Hn. apply elem_of_cons in Hy as [->|Hy].
      { rewrite Hb in Hn. injection Hn as <-. done. }
      apply elem_of_cons in Hy as [->|Hy].
      { rewrite Hx in Hn. injection Hn as <-. done. }
      apply (Hle y n); [by right|done].
Qed.

Lemma greatest_spec best (xs : Series) :
  Forall (λ x, is_Some (key_num x)) (best :: xs) →
  ∃ v m, greatest best xs = Ok v ∧ key_num v = Some m ∧ v ∈ best :: xs
    ∧ ∀ x n, x ∈ best :: xs → key_num x = Some n → n ≤ m.
Proof.
  revert best. induction xs as [|x xs IH]; intros best Hall.
  - apply Forall_cons in Hall as [[kb Hb] _]. exists best, kb.
    split; [done|]. split; [done|]. split; [left|].
    intros x n ->%list_elem_of_singleton Hn. rewrite Hb in Hn. injection Hn as <-. lia.
  - apply Forall_cons in Hall as [[kb Hb] Hall].
    apply Forall_cons in Hall as [[kx Hx] Hxs]. simpl.
    rewrite (value_lt_num best x kb kx Hb Hx). simpl.
    destruct (IH (if kb <? kx then x else best)) as (v & m & Hv & Hm & Hin & Hle).
    { apply Forall_cons. split; [|done]. destruct (kb <? kx); eauto. }
    exists v, m. split; [done|]. split; [done|]. split.
    + apply elem_of_cons in Hin as [->|Hin].
      * destruct (kb <? kx); [right; left|left].
      * do 2 right. done.
    + assert (kx ≤ m ∧ kb ≤ m) as [Hmx Hmb].
      { destruct (kb <? kx) eqn:Hlt.
        - apply Z.ltb_lt in Hlt. pose proof (Hle x kx ltac:(left) Hx). lia.
        - apply Z.ltb_ge in Hlt. pose proof (Hle best kb ltac:(left) Hb). lia. }
      intros y n Hy Hn. apply elem_of_cons in Hy as [->|Hy].
      { rewrite Hb in Hn. injection Hn as <-. done. }
      apply elem_of_cons in Hy as [->|Hy].
      { rewrite Hx in Hn. injection Hn as <-. done. }
      apply (Hle y n); [by right|done].
Qed.

Lemma notna_num (x : value) n : key_num x = Some n → notna x = true.
Proof. by destruct x. Qed.

Lemma elem_of_filter_notna (s : Series) x :
  x ∈ List.filter notna s ↔ x ∈ s ∧ notna x = true.
Proof. by rewrite !list_elem_of_In, filter_In. Qed.

Lemma series_min_spec (s : Series) y :
  Forall yearlike s → y ∈ s → notna y = true →
  ∃ v m, series_min s = Ok v ∧ key_num v = Some m ∧ v ∈ s
    ∧ ∀ x n, x ∈ s → key_num x = Some n → m ≤ n.
Proof.
  intros Hs Hy Hnotna. pose proof (filter_notna_yearlike s Hs) as Hnum.
  assert (y ∈ List.filter notna s) as Hin by by apply elem_of_filter_notna.
  unfold series_min. destruct (List.filter notna s) as [|b xs] eqn:Hfilter.
  { by apply elem_of_nil in Hin. }
  destruct (least_spec b xs Hnum) as (v & m & Hv & Hm & Hvin & Hle).
  exists v, m. split; [done|]. split; [done|]. rewrite <- Hfilter in Hvin, Hle. split.
  - by apply elem_of_filter_notna in Hvin as [? _].
  - intros x n Hx Hn. apply (Hle x n); [|done].
    apply elem_of_filter_notna. split; [done|]. by apply (notna_num x n).
Qed.

Lemma series_max_spec (s : Series) y :
  Forall yearlike s → y ∈ s → notna y = true →
  ∃ v m, series_max s = Ok v ∧ key_num v = Some m ∧ v ∈ s
    ∧ ∀ x n, x ∈ s → key_num x = Some n → n ≤ m.
Proof.
  intros Hs Hy Hnotna. pose proof (filter_notna_yearlike s Hs) as Hnum.
  assert (y ∈ List.filter notna s) as Hin by by apply elem_of_filter_notna.
  unfold series_max. destruct (List.filter notna s) as [|b xs] eqn:Hfilter.
  { by apply elem_of_nil in Hin. }
  destruct (greatest_spec b xs Hnum) as (v & m & Hv & Hm & Hvin & Hle).
  exists v, m. split; [done|]. split; [done|]. rewrite <- Hfilter in Hvin, Hle. split.
  - by apply elem_of_filter_notna in Hvin as [? _].
  - intros x n Hx Hn. apply (Hle x n); [|done].
    apply elem_of_filter_notna. split; [done|]. by apply (notna_num x n).
Qed.

Lemma series_min_all_na (s : Series) :
  Forall (λ y, y = VNa) s → series_min s = Ok VNa.
Proof.
  intros Hs. unfold series_min.
  replace (List.filter notna s) with (@nil value); [done|].
  induction Hs as [|y s -> _ IH]; simpl; done.
Qed.

(** X14. When the table has a year column with no year in it (no date of
    the file could be parsed), the dashboard stops before the first control
    is drawn: the smallest year is NaN, and [int] of it raises ValueError.
    This is so for every setting of the controls. *)
Theorem dashboard_needs_a_year ui df :
  has_column "publication_year" df = true →
  Forall (λ y, y = VNa) (col "publication_year" df) →
  sidebar_years ui df = Raise (ValueError "cannot convert float NaN to integer")
  ∧ dashboard ui df = Raise (ValueError "cannot convert float NaN to integer").
Proof.
  intros Hc Hna.
  assert (sidebar_years ui df = Raise (ValueError "cannot convert float NaN to integer"))
    as Hside.
  { unfold sidebar_years, column_of. rewrite Hc. simpl. fold (col "publication_year" df).
    by rewrite series_min_all_na. }
  split; [done|]. unfold dashboard. by rewrite Hside.
Qed.

(** X15. The two bounds that the dashboard computes for the year slider,
    [int(df['publication_year'].min())] and [int(df['publication_year'].max())].
    When the year column holds at least one year, both are computed without
    error, they are the smallest and the largest year of the column, each
    is the year of some row, and every year of the table lies between them.
    The year filter with the range from the first to the second keeps the
    rows that have a year and drops the rows whose year is missing.  The
    slider itself belongs to the widget library and is not part of the
    statement. *)
Theorem slider_bounds_exact df y :
  has_column "publication_year" df = true →
  Forall yearlike (col "publication_year" df) →
  y ∈ col "publication_year" df → notna y = true →
  ∃ lo hi,
    (years ← column_of "publication_year" df; lowest ← series_min years; py_int lowest)
    = Ok lo
    ∧ (years ← column_of "publication_year" df; highest ← series_max years; py_int highest)
    = Ok hi
    ∧ lo ≤ hi
    ∧ (∃ r, r ∈ rows df ∧ key_num (cell "publication_year" r) = Some lo)
    ∧ (∃ r, r ∈ rows df ∧ key_num (cell "publication_year" r) = Some hi)
    ∧ (∀ r n, r ∈ rows df → key_num (cell "publication_year" r) = Some n → lo ≤ n ≤ hi)
    ∧ year_filter (lo, hi) df
      = Ok {| columns := columns df;
              rows := List.filter (λ r, notna (cell "publication_year" r)) (rows df) |}.
Proof.
  intros Hc Hyl Hy Hnotna.
  destruct (series_min_spec _ y Hyl Hy Hnotna) as (v & lo & Hmin & Hlo & Hvin & Hle).
  destruct (series_max_spec _ y Hyl Hy Hnotna) as (w & hi & Hmax & Hhi & Hwin & Hge).
  exists lo, hi. split; [|split; [|split; [|split; [|split; [|split]]]]].
  - rewrite (column_of_col _ _ Hc). cbn [mbind result_bind]. rewrite Hmin.
    cbn [mbind result_bind]. by apply py_int_num.
  - rewrite (column_of_col _ _ Hc). cbn [mbind result_bind]. rewrite Hmax.
    cbn [mbind result_bind]. by apply py_int_num.
  - by apply (Hge v lo).
  - apply list_elem_of_fmap in Hvin as (r & -> & Hr). by exists r.
  - apply list_elem_of_fmap in Hwin as (r & -> & Hr). by exists r.
  - intros r n Hr Hn. split.
    + apply (Hle (cell "publication_year" r) n); [by apply cell_in_col|done].
    + apply (Hge (cell "publication_year" r) n); [by apply cell_in_col|done].
  - rewrite year_filter_yearlike by done. do 2 f_equal.
    apply List.filter_ext_in. intros r Hr%list_elem_of_In.
    pose proof (cell_in_col "publication_year" df r Hr) as Hcell.
    destruct (proj1 (Forall_forall _ _) Hyl _ Hcell) as [Hna|[n Hn]].
    + rewrite Hna. done.
    + rewrite (notna_num _ _ Hn). apply in_years_spec. exists n. split; [done|].
      split; [by apply (Hle (cell "publication_year" r) n)
             |by apply (Hge (cell "publication_year" r) n)].
Qed.

(** ** The view behind every tab *)

Lemma filter_filter {A} (p q : A → bool) (l : list A) :
  List.filter q (List.filter p l) = List.filter (λ x, p x && q x) l.
Proof.
  induction l as [|x l IH]; simpl; [done|].
  destruct (p x); simpl; [|done]. destruct (q x); by rewrite IH.
Qed.

Lemma filter_true {A} (l : list A) : List.filter (λ _, true) l = l.
Proof. induction l as [|x l IH]; simpl; by rewrite ?IH. Qed.

Lemma sidebar_years_view ui df bounds view :
  sidebar_years ui df = Ok (bounds, view) →
  columns view = columns df
  ∧ rows view = List.filter (year_selected ui df) (rows df).
Proof.
  intros Hside. unfold year_selected.
  destruct (has_column "publication_year" df) eqn:Hc.
  - destruct (year_filter (year_range ui) df) as [view'|e] eqn:Hview.
    + pose proof (year_filter_ok_yearlike _ _ _ Hc Hview) as Hyl.
      destruct (sidebar_years_cases ui df view' Hc Hview) as [Hraise|[bounds' Hok]];
        [congruence|].
      rewrite Hok in Hside. injection Hside as _ <-.
      destruct (year_range ui) as [lo hi].
      rewrite year_filter_yearlike in Hview by done. by injection Hview as <-.
    + exfalso. revert Hside. unfold sidebar_years, column_of. rewrite Hc. simpl.
      destruct (series_min _) as [v|]; simpl; [|done].
      destruct (py_int v); simpl; [|done].
      destruct (series_max _) as [w|]; simpl; [|done].
      destruct (py_int w); simpl; [|done].
      by rewrite Hview.
  - unfold sidebar_years in Hside. rewrite Hc in Hside. injection Hside as _ <-.
    by rewrite filter_true.
Qed.

Lemma bind_ok {A B} (m : result A) (k : A → result B) b :
  m ≫= k = Ok b → ∃ a, m = Ok a ∧ k a = Ok b.
Proof. destruct m as [a|]; [|done]. intros Hk. by exists a. Qed.

(** What a run of the dashboard that ends without error has computed. *)
Lemma dashboard_ok ui df rep :
  dashboard ui df = Ok rep →
  ∃ view, sidebar_years ui df = Ok (slider_bounds rep, view)
    ∧ sidebar_journals ui view = Ok (df_filtered rep)
    ∧ if_column "publication_year" (df_filtered rep) (year_metric (df_filtered rep))
      = Ok (year_range_metric rep)
    ∧ if_column "title" (df_filtered rep) (word_analysis (num_words ui) (df_filtered rep))
      = Ok (word_chart rep).
Proof.
  unfold dashboard. intros Hrep.
  apply bind_ok in Hrep as ([bounds view] & Hyears & Hrep).
  apply bind_ok in Hrep as (filtered & Hjournals & Hrep).
  apply bind_ok in Hrep as (avg & Havg & Hrep).
  apply bind_ok in Hrep as (metric & Hmetric & Hrep).
  apply bind_ok in Hrep as (journals & Hj & Hrep).
  apply bind_ok in Hrep as (authors & Ha & Hrep).
  apply bind_ok in Hrep as (yearly & Hy & Hrep).
  apply bind_ok in Hrep as (table & Ht & Hrep).
  apply bind_ok in Hrep as (chart & Hchart & Hrep).
  unfold mret, result_ret in Hrep. injection Hrep as <-. by exists view.
Qed.

Lemma dashboard_view_rows ui df rep :
  dashboard ui df = Ok rep →
  columns (df_filtered rep) = columns df
  ∧ rows (df_filtered rep)
    = List.filter (λ r, year_selected ui df r && journal_chosen ui df r) (rows df).
Proof.
  intros Hrep. destruct (dashboard_ok ui df rep Hrep) as (view & Hyears & Hjournals & _).
  apply sidebar_years_view in Hyears as [Hcols Hrows].
  destruct (sidebar_journals_view ui view) as (filtered & Hview & Hfcols & Hfrows).
  rewrite Hjournals in Hview. injection Hview as <-.
  split; [by rewrite Hfcols|].
  rewrite Hfrows, Hrows. unfold journal_chosen, has_column. rewrite Hcols.
  destruct (bool_decide ("journal" ∈ columns df)
            && negb (bool_decide (selected_journals ui = []))).
  - apply filter_filter.
  - rewrite <- (filter_filter _ (λ _, true)). by rewrite filter_true.
Qed.

(** X16. Whenever one run of the dashboard ends without error, the view
    behind its metrics, charts and download is exactly the rows of the
    cleaned table that pass both controls of the sidebar, in their order,
    with all the columns of the cleaned table; so Total Papers never
    exceeds the number of rows of the cleaned table. *)
Theorem dashboard_view ui df rep :
  dashboard ui df = Ok rep →
  columns (df_filtered rep) = columns df
  ∧ rows (df_filtered rep)
    = List.filter (λ r, year_selected ui df r && journal_chosen ui df r) (rows df)
  ∧ (frame_len (df_filtered rep) ≤ frame_len df)%nat.
Proof.
  intros Hrep. destruct (dashboard_view_rows ui df rep Hrep) as [Hcols Hrows].
  split; [done|]. split; [done|].
  unfold frame_len. rewrite Hrows. apply length_filter_le.
Qed.

Lemma py_int_yearlike v n : yearlike v → py_int v = Ok n → key_num v = Some n.
Proof. intros [->|[m Hm]]; [done|]. rewrite (py_int_num v m Hm). by intros [= <-]. Qed.

(** X17. On a table with a year column, a run that ends without error
    shows a Year Range metric whose two years are years of rows of the
    view, the first no larger than the second, and both lie in the range
    set on the slider: a run that reaches the metric has a view that is not
    empty. *)
Theorem year_metric_within_range ui df rep :
  has_column "publication_year" df = true →
  dashboard ui df = Ok rep →
  ∃ first_year last_year,
    year_range_metric rep = Some (first_year, last_year)
    ∧ (year_range ui).1 ≤ first_year ∧ first_year ≤ last_year
    ∧ last_year ≤ (year_range ui).2
    ∧ (∃ r, r ∈ rows (df_filtered rep)
            ∧ key_num (cell "publication_year" r) = Some first_year)
    ∧ (∃ r, r ∈ rows (df_filtered rep)
            ∧ key_num (cell "publication_year" r) = Some last_year).
Proof.
  intros Hc Hrep.
  destruct (dashboard_ok ui df rep Hrep) as (view & Hyears & _ & Hmetric & _).
  destruct (dashboard_view_rows ui df rep Hrep) as [Hcols Hrows].
  set (filtered := df_filtered rep) in *.
  assert (has_column "publication_year" filtered = true) as Hfc.
  { unfold has_column. by rewrite Hcols. }
  assert (Forall yearlike (col "publication_year" df)) as Hyl.
  { unfold sidebar_years in Hyears. rewrite Hc in Hyears.
    repeat (apply bind_ok in Hyears as (? & ? & Hyears)).
    by eapply year_filter_ok_yearlike. }
  assert (∀ r, r ∈ rows filtered →
            r ∈ rows df
            ∧ in_years (year_range ui).1 (year_range ui).2 (cell "publication_year" r) = true)
    as Hin.
  { intros r Hr. rewrite Hrows in Hr. apply list_elem_of_In, filter_In in Hr as [Hr Hsel].
    apply andb_true_iff in Hsel as [Hsel _]. unfold year_selected in Hsel.
    rewrite Hc in Hsel. split; [by apply list_elem_of_In|done]. }
  assert (Forall yearlike (col "publication_year" filtered)) as Hfyl.
  { apply Forall_forall. intros y (r & -> & Hr)%list_elem_of_fmap.
    apply (proj1 (Forall_forall _ _) Hyl), cell_in_col. by apply Hin. }
  unfold if_column in Hmetric. rewrite Hfc in Hmetric.
  apply bind_ok in Hmetric as ([a b] & Hmetric & Hsome).
  unfold mret, result_ret in Hsome. injection Hsome as Hsome.
  unfold year_metric, column_of in Hmetric. rewrite Hfc in Hmetric. simpl in Hmetric.
  fold (col "publication_year" filtered) in Hmetric.
  apply bind_ok in Hmetric as (lowest & Hmin & Hmetric).
  apply bind_ok in Hmetric as (a' & Ha & Hmetric).
  apply bind_ok in Hmetric as (highest & Hmax & Hmetric).
  apply bind_ok in Hmetric as (b' & Hb & Hmetric).
  unfold mret, result_ret in Hmetric. injection Hmetric as -> ->.
  destruct (series_min_yearlike _ Hfyl) as (v & Hv & Hvy).
  rewrite Hmin in Hv. injection Hv as <-.
  pose proof (py_int_yearlike _ _ Hvy Ha) as Hka.
  assert (lowest ∈ col "publication_year" filtered) as Hlow.
  { unfold series_min in Hmin.
    destruct (List.filter notna (col "publication_year" filtered)) as [|x xs] eqn:Hf.
    - injection Hmin as <-. done.
    - pose proof (filter_notna_yearlike _ Hfyl) as Hnum. rewrite Hf in Hnum.
      destruct (least_spec x xs Hnum) as (v & m & Hv & _ & Hvin & _).
      rewrite Hmin in Hv. injection Hv as <-. rewrite <- Hf in Hvin.
      by apply elem_of_filter_notna in Hvin as [? _]. }
  destruct (series_min_spec _ lowest Hfyl Hlow (notna_num _ _ Hka))
    as (v & m & Hv & Hm & _ & Hle).
  rewrite Hmin in Hv. injection Hv as <-.
  destruct (series_max_spec _ lowest Hfyl Hlow (notna_num _ _ Hka))
    as (w & k & Hw & Hk & Hwin & Hge).
  rewrite Hmax in Hw. injection Hw as <-.
  rewrite (py_int_num _ _ Hk) in Hb. injection Hb as <-.
  apply list_elem_of_fmap in Hlow as (r1 & Hr1 & Hr1in).
  apply list_elem_of_fmap in Hwin as (r2 & Hr2 & Hr2in).
  rewrite Hr1 in Hka. rewrite Hr2 in Hk.
  destruct (Hin r1 Hr1in) as [_ Hsel1]. destruct (Hin r2 Hr2in) as [_ Hsel2].
  apply in_years_spec in Hsel1 as (n1 & Hn1 & Hrange1).
  apply in_years_spec in Hsel2 as (n2 & Hn2 & Hrange2).
  rewrite Hka in Hn1. injection Hn1 as <-. rewrite Hk in Hn2. injection Hn2 as <-.
  exists a, k. split; [done|]. split; [lia|]. split.
  { apply (Hge (cell "publication_year" r1) a); [|done].
    apply list_elem_of_fmap. by exists r1. }
  split; [lia|]. split; [by exists r1|by exists r2].
Qed.

Lemma dashboard_needs_a_year_witness :
  sidebar_years sample_ui (cleaned iso_dates sample_undated)
  = Raise (ValueError "cannot convert float NaN to integer")
  ∧ dashboard sample_ui (cleaned iso_dates sample_undated)
    = Raise (ValueError "cannot convert float NaN to integer").
Proof.
  apply (dashboard_needs_a_year sample_ui (cleaned iso_dates sample_undated)).
  - vm_compute. reflexivity.
  - vm_compute. repeat constructor.
Defined.

Lemma papers_cleaned_years :
  col "publication_year" papers_cleaned = [VInt 2020; VInt 2021; VInt 2018].
Proof. vm_compute. reflexivity. Qed.

Lemma slider_bounds_exact_witness :
  ∃ lo hi,
    (years ← column_of "publication_year" papers_cleaned; lowest ← series_min years; py_int lowest)
    = Ok lo
    ∧ (years ← column_of "publication_year" papers_cleaned; highest ← series_max years; py_int highest)
    = Ok hi
    ∧ lo ≤ hi
    ∧ (∃ r, r ∈ rows papers_cleaned ∧ key_num (cell "publication_year" r) = Some lo)
    ∧ (∃ r, r ∈ rows papers_cleaned ∧ key_num (cell "publication_year" r) = Some hi)
    ∧ (∀ r n, r ∈ rows papers_cleaned →
              key_num (cell "publication_year" r) = Some n → lo ≤ n ≤ hi)
    ∧ year_filter (lo, hi) papers_cleaned
      = Ok {| columns := columns papers_cleaned;
              rows := List.filter (λ r, notna (cell "publication_year" r))
                        (rows papers_cleaned) |}.
Proof.
  apply (slider_bounds_exact papers_cleaned (VInt 2020)).
  - vm_compute. reflexivity.
  - rewrite papers_cleaned_years.
    repeat (apply Forall_cons; split; [right; by eexists|]). by apply Forall_nil.
  - rewrite papers_cleaned_years. by left.
  - reflexivity.
Defined.

Lemma sample_report_run : dashboard sample_choice sample_cleaned = Ok sample_report.
Proof. vm_compute. reflexivity. Qed.

Lemma dashboard_view_witness :
  dashboard sample_choice sample_cleaned = Ok sample_report
  ∧ columns (df_filtered sample_report) = columns sample_cleaned
  ∧ rows (df_filtered sample_report)
    = List.filter
        (λ r, year_selected sample_choice sample_cleaned r
              && journal_chosen sample_choice sample_cleaned r)
        (rows sample_cleaned)
  ∧ (frame_len (df_filtered sample_report) ≤ frame_len sample_cleaned)%nat.
Proof.
  split; [exact sample_report_run|].
  exact (dashboard_view sample_choice sample_cleaned sample_report sample_report_run).
Defined.

Lemma year_metric_within_range_witness :
  ∃ first_year last_year,
    year_range_metric sample_report = Some (first_year, last_year)
    ∧ (year_range sample_choice).1 ≤ first_year ∧ first_year ≤ last_year
    ∧ last_year ≤ (year_range sample_choice).2
    ∧ (∃ r, r ∈ rows (df_filtered sample_report)
            ∧ key_num (cell "publication_year" r) = Some first_year)
    ∧ (∃ r, r ∈ rows (df_filtered sample_report)
            ∧ key_num (cell "publication_year" r) = Some last_year).
Proof.
  apply (year_metric_within_range sample_choice sample_cleaned sample_report).
  - vm_compute. reflexivity.
  - exact sample_report_run.
Defined.

(** ** The two programs from end to end *)




Section AppFacts.

Variable build_frame : list string → list (list string) → result DataFrame.
Variable to_datetime : Series → list (option Timestamp).
Hypothesis to_datetime_length : ∀ s, length (to_datetime s) = length s.

Variable to_datetime_lib : Series → result converted.
Hypothesis to_datetime_lib_length : ∀ s c,
  to_datetime_lib s = Ok c → length (converted_column s c) = length s.

(** X18. The dashboard script as a whole.  With no file it ends with
    nothing shown and no exception, whatever the controls are set to.  When
    it ends with a report, the file was read, Original Dataset is the
    number of records read, Total Papers is no larger, and the view has
    every column of the file in the order of the file, before the derived
    ones; it ends with nothing shown only when there is no file. *)
Theorem app_outcome metadata_csv ui :
  app build_frame to_datetime_lib None ui = Ok None
  ∧ ∀ out, app build_frame to_datetime_lib metadata_csv ui = Ok out →
      match out with
      | None => metadata_csv = None
      | Some (original, shown) =>
          ∃ text df, metadata_csv = Some text
            ∧ read_csv build_frame text = Ok df
            ∧ original = frame_len df
            ∧ (frame_len (df_filtered shown) ≤ original)%nat
            ∧ columns df `prefix_of` columns (df_filtered shown)
      end.
Proof.
  split; [reflexivity|].
  unfold app. intros out Hout. apply bind_ok in Hout as (loaded & Hload & Hout).
  destruct metadata_csv as [text|]; unfold load_data in Hload.
  - apply bind_ok in Hload as (df & Hread & Hload).
    unfold mret, result_ret in Hload. injection Hload as <-. cbv beta iota in Hout.
    apply bind_ok in Hout as (df_cleaned & Hclean & Hout).
    apply (cleaned_table_with_ok _ to_datetime_lib_length) in Hclean
      as (parser & Hparser & ->).
    apply bind_ok in Hout as (shown & Hshown & Hout).
    unfold mret, result_ret in Hout. injection Hout as <-.
    exists text, df. split; [done|]. split; [done|]. split; [done|].
    destruct (dashboard_view_rows _ _ _ Hshown) as [Hcols Hrows]. split.
    + unfold frame_len. rewrite Hrows. etrans; [apply length_filter_le|].
      rewrite length_rows_cleaned by done. apply length_kept_rows.
    + rewrite Hcols. by apply columns_cleaned_prefix.
  - injection Hload as <-. cbv beta iota in Hout.
    unfold mret, result_ret in Hout. by injection Hout as <-.
Qed.


End AppFacts.

Lemma papers_run_ok :
  app text_frame to_datetime_objects (Some papers_file) sample_choice = Ok papers_run.
Proof. vm_compute. reflexivity. Qed.

Lemma app_outcome_witness :
  app text_frame to_datetime_objects None sample_choice = Ok None
  ∧ app text_frame to_datetime_objects (Some papers_file) sample_choice = Ok papers_run
  ∧ (∃ shown, papers_run = Some (3%nat, shown) ∧ frame_len (df_filtered shown) = 1%nat)
  ∧ match papers_run with
    | None => Some papers_file = None
    | Some (original, shown) =>
        ∃ text df, Some papers_file = Some text
          ∧ read_csv text_frame text = Ok df
          ∧ original = frame_len df
          ∧ (frame_len (df_filtered shown) ≤ original)%nat
          ∧ columns df `prefix_of` columns (df_filtered shown)
    end.
Proof.
  destruct (app_outcome text_frame to_datetime_objects to_datetime_objects_length
              (Some papers_file) sample_choice) as [Hnone Hsome].
  split; [exact Hnone|]. split; [exact papers_run_ok|].
  split; [eexists; split; vm_compute; reflexivity|].
  exact (Hsome papers_run papers_run_ok).
Defined.


(** ** Missing cells after cleaning *)







Section MissingFacts.

Variable to_datetime : Series → list (option Timestamp).
Hypothesis to_datetime_length : ∀ s, length (to_datetime s) = length s.






End MissingFacts.


(** ** The text of the download *)

(** X20. Reading the text of the download record by record gives back the
    header and, for every row of the view, the texts of its cells in the
    exported columns, whatever commas, quotes and line feeds the cells
    hold, and whatever carriage returns when the writer quotes them (a
    writer that does not needs cells with no carriage return).  Besides,
    this needs only that no record is one the reader skips, which can
    happen with a single exported column only. *)
Theorem download_records quote_cr filtered :
  display_cols filtered ≠ [] →
  (∀ r, r ∈ rows filtered →
        blank_record (export_fields (display_cols filtered) r) = false) →
  quote_cr = true ∨ cr_free filtered = true →
  tokenize fresh (download_csv_for quote_cr filtered)
  = Ok (display_cols filtered
        :: (export_fields (display_cols filtered) <$> rows filtered))
  ∧ ((1 < length (display_cols filtered))%nat →
     ∀ r, blank_record (export_fields (display_cols filtered) r) = false).
Proof.
  intros Hcols Hrows Hcr. split.
  - rewrite download_csv_for_eq by done.
    unfold download_csv, to_csv. apply tokenize_csv_lines. apply Forall_cons. split.
    + by apply display_cols_not_blank.
    + apply Forall_fmap, Forall_forall. intros r Hr. by apply Hrows.
  - intros Hmany r. by apply export_two_columns.
Qed.

Lemma papers_view_exports r :
  blank_record (export_fields (display_cols papers_view) r) = false.
Proof. apply export_two_columns. vm_compute. lia. Qed.

Lemma download_records_witness :
  (tokenize fresh (download_csv_for false papers_view)
   = Ok (display_cols papers_view
         :: (export_fields (display_cols papers_view) <$> rows papers_view))
   ∧ ((1 < length (display_cols papers_view))%nat →
      ∀ r, blank_record (export_fields (display_cols papers_view) r) = false))
  ∧ tokenize fresh (download_csv_for true sample_cr_title)
    = Ok (display_cols sample_cr_title
          :: (export_fields (display_cols sample_cr_title) <$> rows sample_cr_title)).
Proof.
  split.
  - apply (download_records false papers_view).
    + by vm_compute.
    + intros r _. apply papers_view_exports.
    + right. by vm_compute.
  - destruct (download_records true sample_cr_title) as [Hrecords _];
      [by vm_compute| |by left|exact Hrecords].
    intros r _. apply export_two_columns. vm_compute. lia.
Defined.
